(** * A11y-inspector: the audit engine of the content scripts

    A shallow embedding of the accessibility audit that the two browser
    extensions of the repository inject into a page:

    - [Inspector]: the content script of accessibility-inspector
      ([runA11yChecks], [runBasicChecks], [checkColorContrast],
      [getTextElements], [isElementVisible], [getContrastRatioForElement],
      [getBackgroundColor], [getAlphaFromColor], [getRequiredContrastRatio],
      [checkAriaAttributes], [checkKeyboardNavigation], [checkSemanticMarkup],
      [checkLanguage], [getSelector]);
    - [Checker]: the older content script of accessibility-checker
      (popup/content-script.js).

    JavaScript numbers are IEEE 754 binary64 values, so they are modelled by
    Rocq's primitive floats; JavaScript strings are modelled by [string]
    (code units below 256; the Russian messages of the older script are
    kept as the bytes of the source file).  The page is a tree of elements; an element handed
    to the engine is a [Node]: the element together with its chain of
    [parentElement]s. *)

From Stdlib Require Import ZArith List String Ascii Bool Lia Floats.
Import ListNotations.

Set Warnings "-inexact-float,-register-all".

Open Scope string_scope.
Open Scope list_scope.

(* ================================================================== *)
(** ** The JavaScript runtime pieces the engine relies on *)
(* ================================================================== *)

Module Js.

(** *** Completions: a value or a thrown exception *)

(** A thrown value other than [null] and [undefined].  The errors of the
    host are kept as what they are, not as the text of their [message],
    which differs from one engine to the other:
    - [TypeError_null]: a property of [null] or [undefined] was read;
    - [TypeError_notFunction]: a value that is not a function was called;
    - [ReferenceError name]: the identifier [name] is not defined;
    - [SyntaxError selector]: the text is not a valid selector;
    - [ErrorObject message]: a value whose [message] property reads as this
      text (an [Error] made by a script). *)
Inductive ErrorValue : Type :=
| TypeError_null
| TypeError_notFunction
| ReferenceError (name : string)
| SyntaxError (selector : string)
| ErrorObject (message : string).

Coercion ErrorObject : string >-> ErrorValue.

(** How an expression completes: with a value, by throwing a value that is
    not nullish, or by throwing [null] or [undefined]. *)
Inductive Result (A : Type) : Type :=
| Ok (a : A)
| Throw (error : ErrorValue)
| ThrowNullish.
Arguments Ok {A} a.
Arguments Throw {A} error.
Arguments ThrowNullish {A}.

Definition rbind {A B} (r : Result A) (k : A -> Result B) : Result B :=
  match r with
  | Ok a => k a
  | Throw e => Throw e
  | ThrowNullish => ThrowNullish
  end.

(** The value a [catch] clause binds. *)
Inductive Thrown : Type :=
| ThrownValue (error : ErrorValue)
| ThrownNullish.

(** Reading a property of [null] throws a TypeError. *)
Definition nonNull {A} (o : option A) : Result A :=
  match o with
  | Some a => Ok a
  | None => Throw TypeError_null
  end.

(** *** Strings *)

(** WhiteSpace and LineTerminator code units below 256: TAB, LF, VT, FF, CR,
    SP and NBSP. *)
Definition isWhiteSpace (c : ascii) : bool :=
  let n := nat_of_ascii c in
  (Nat.leb 9 n && Nat.leb n 13) || Nat.eqb n 32 || Nat.eqb n 160.

Fixpoint dropWhile {A} (p : A -> bool) (l : list A) : list A :=
  match l with
  | [] => []
  | x :: xs => if p x then dropWhile p xs else l
  end.

(** [String.prototype.trim] *)
Definition trim (s : string) : string :=
  string_of_list_ascii
    (rev (dropWhile isWhiteSpace
            (rev (dropWhile isWhiteSpace (list_ascii_of_string s))))).

(** [s.slice(0, n)] *)
Definition slice0 (n : nat) (s : string) : string := substring 0 n s.

(** [s.startsWith(p)] *)
Definition startsWith (p s : string) : bool := prefix p s.

(** [s.split(' ')[0]]: the text before the first space. *)
Fixpoint splitSpaceFirst (s : string) : string :=
  match s with
  | EmptyString => EmptyString
  | String c s' =>
      if Ascii.eqb c " "%char then EmptyString
      else String c (splitSpaceFirst s')
  end.

(** ToBoolean of a string: only the empty string is falsy. *)
Definition truthy (s : string) : bool := negb (String.eqb s "").

(** ToBoolean of a string-or-null value. *)
Definition truthy_opt (o : option string) : bool :=
  match o with
  | Some s => truthy s
  | None => false
  end.

(** [o === null] *)
Definition isNull {A} (o : option A) : bool :=
  match o with Some _ => false | None => true end.

(** ToString of a string-or-null argument. *)
Definition toStringOrNull (o : option string) : string :=
  match o with Some s => s | None => "null" end.

(** *** Numbers *)

(** The binary64 value nearest to the positive rational [p / q] (ties to
    even), as ToNumber and the numeric literals of the language round. *)
Definition nearest (p q : Z) : float :=
  let e0 := (Z.log2 p - Z.log2 q - 52)%Z in
  let scaled (e : Z) :=
    (Z.div (p * 2 ^ Z.max (- e) 0) (q * 2 ^ Z.max e 0))%Z in
  let e1 := if (scaled e0 <? 2 ^ 52)%Z then (e0 - 1)%Z else e0 in
  let e := Z.max e1 (-1074) in
  let num := (p * 2 ^ Z.max (- e) 0)%Z in
  let den := (q * 2 ^ Z.max e 0)%Z in
  let m := (num / den)%Z in
  let r := (num mod den)%Z in
  let m' :=
    if (den <? 2 * r)%Z then (m + 1)%Z
    else if (2 * r =? den)%Z && Z.odd m then (m + 1)%Z
    else m in
  if (1023 - 52 <? e)%Z then infinity
  else Z.ldexp (of_uint63 (Uint63.of_Z m')) e.

Definition signed (negative : bool) (x : float) : float :=
  if negative then (- x)%float else x.

(** The number denoted by [n / 10^k], for a natural [n]. *)
Definition decimal (n : Z) (exp10 : Z) : float :=
  if (n =? 0)%Z then zero
  else nearest (n * 10 ^ Z.max exp10 0) (10 ^ Z.max (- exp10) 0).

Definition digitValue (radix : Z) (c : ascii) : option Z :=
  let n := Z.of_nat (nat_of_ascii c) in
  let v :=
    if (48 <=? n)%Z && (n <=? 57)%Z then Some (n - 48)%Z
    else if (97 <=? n)%Z && (n <=? 122)%Z then Some (n - 87)%Z
    else if (65 <=? n)%Z && (n <=? 90)%Z then Some (n - 55)%Z
    else None in
  match v with
  | Some d => if (d <? radix)%Z then Some d else None
  | None => None
  end.

(** The longest prefix of digits of the radix, read as a number: the number
    of digits read, their value, and the rest of the text. *)
Fixpoint readDigits (radix : Z) (count : nat) (acc : Z) (l : list ascii)
  : nat * Z * list ascii :=
  match l with
  | [] => (count, acc, [])
  | c :: rest =>
      match digitValue radix c with
      | Some d => readDigits radix (S count) (acc * radix + d)%Z rest
      | None => (count, acc, l)
      end
  end.

Definition readSign (l : list ascii) : bool * list ascii :=
  match l with
  | "-"%char :: rest => (true, rest)
  | "+"%char :: rest => (false, rest)
  | _ => (false, l)
  end.

(** [parseInt(s)] with no radix argument. *)
Definition parseInt (s : string) : float :=
  let (negative, l) :=
    readSign (dropWhile isWhiteSpace (list_ascii_of_string s)) in
  let (radix, l) :=
    match l with
    | "0"%char :: "x"%char :: rest => (16%Z, rest)
    | "0"%char :: "X"%char :: rest => (16%Z, rest)
    | _ => (10%Z, l)
    end in
  match readDigits radix 0 0 l with
  | (O, _, _) => nan
  | (_, n, _) => signed negative (decimal n 0)
  end.

Definition Infinity_text : list ascii := list_ascii_of_string "Infinity".

Fixpoint isPrefix (p l : list ascii) : bool :=
  match p, l with
  | [], _ => true
  | a :: p', b :: l' => Ascii.eqb a b && isPrefix p' l'
  | _ :: _, [] => false
  end.

(** The exponent part [e[+-]digits] of a decimal literal, when it is
    complete; 0 otherwise. *)
Definition readExponent (l : list ascii) : Z :=
  match l with
  | c :: rest =>
      if Ascii.eqb c "e"%char || Ascii.eqb c "E"%char then
        let (negative, digits) := readSign rest in
        match readDigits 10 0 0 digits with
        | (O, _, _) => 0%Z
        | (_, x, _) => if negative then (- x)%Z else x
        end
      else 0%Z
  | [] => 0%Z
  end.

(** [parseFloat(s)]: the longest prefix of the trimmed text that is a
    decimal literal, NaN when there is none. *)
Definition parseFloat (s : string) : float :=
  let (negative, l) :=
    readSign (dropWhile isWhiteSpace (list_ascii_of_string s)) in
  if isPrefix Infinity_text l then signed negative infinity
  else
    let '(ni, int_part, after_int) := readDigits 10 0 0 l in
    let '(nf, mantissa, after_frac) :=
      match after_int with
      | "."%char :: rest => readDigits 10 0 int_part rest
      | _ => (O, int_part, after_int)
      end in
    match ni, nf with
    | O, O => nan
    | _, _ =>
        signed negative
          (decimal mantissa (readExponent after_frac - Z.of_nat nf))
    end.

(** ToBoolean of a number: 0, -0 and NaN are falsy. *)
Definition truthyNumber (x : float) : bool :=
  negb (is_zero x || is_nan x).

(** [x || d] on numbers. *)
Definition orElse (x d : float) : float :=
  if truthyNumber x then x else d.

(** [a >= b] and [a > b] *)
Definition ge (a b : float) : bool := (b <=? a)%float.
Definition gt (a b : float) : bool := (b <? a)%float.

(** *** Template literals

    A text built by a template literal keeps the numbers it interpolates:
    the conversions of the host ([Number.prototype.toString] and
    [toFixed]) are applied when the text is displayed.  In the same way
    [ErrorMessage error] stands for the text of [error.message]. *)
Inductive Piece : Type :=
| Lit (s : string)
| NumberToString (x : float)
| ToFixed (digits : nat) (x : float)
| ErrorMessage (error : ErrorValue).

Definition Text : Type := list Piece.

Definition text (s : string) : Text := [Lit s].

End Js.

(* ================================================================== *)
(** ** The page: elements, computed styles, geometry, selectors *)
(* ================================================================== *)

Module Rect.
(** A [DOMRect], as [getBoundingClientRect] returns it. *)
Record t : Type := mk {
  top : float;
  bottom : float;
  left : float;
  right : float;
  width : float;
  height : float
}.
End Rect.

Module Style.
(** The properties of a computed style the engine reads. *)
Record t : Type := mk {
  display : string;
  visibility : string;
  opacity : string;
  pointerEvents : string;
  color : string;
  backgroundColor : string;
  fontSize : string;
  fontWeight : string
}.
End Style.

Module Dom.
Import Js.

(** What the host exposes of one element.  [localName] is the lower-case
    tag name (the value of [tagName.toLowerCase()]); [getBoundingClientRect]
    is [None] for an object without that method; [getComputedStyle] is
    [None] when [window.getComputedStyle] yields [null] for the element;
    [disabled] tells whether the [disabled] property is [true]; [svg] tells
    whether the element is an SVG element, whose [className] is an
    [SVGAnimatedString] object and not a string. *)
Record ElementData : Type := mkData {
  localName : string;
  svg : bool;
  attributes : list (string * string);
  outerHTML : string;
  textContent : string;
  innerText : string;
  getBoundingClientRect : option Rect.t;
  getComputedStyle : option Style.t;
  disabled : bool
}.

Inductive Element : Type :=
| mkElement (data : ElementData) (children : list Element).

Definition data (e : Element) : ElementData :=
  match e with mkElement d _ => d end.

Definition children (e : Element) : list Element :=
  match e with mkElement _ cs => cs end.

(** An element as the scripts hold it: the element and its chain of
    [parentElement]s, nearest first.  For an element of the document the
    chain ends with [document.documentElement], and the chain of
    [document.documentElement] itself is empty. *)
Record Node : Type := mkNode {
  elem : Element;
  ancestors : list Element
}.

Definition nodeData (n : Node) : ElementData := data (elem n).

Fixpoint lookup (name : string) (l : list (string * string)) : option string :=
  match l with
  | [] => None
  | (k, v) :: rest => if String.eqb k name then Some v else lookup name rest
  end.

Definition elementGetAttribute (e : Element) (name : string) : option string :=
  lookup name (attributes (data e)).

(** [el.getAttribute(name)]: the value, or [null]. *)
Definition getAttribute (n : Node) (name : string) : option string :=
  elementGetAttribute (elem n) name.

Definition elementHasAttribute (e : Element) (name : string) : bool :=
  match elementGetAttribute e name with Some _ => true | None => false end.

Definition hasAttribute (n : Node) (name : string) : bool :=
  elementHasAttribute (elem n) name.

(** The reflecting property [id]. *)
Definition id (n : Node) : string :=
  match getAttribute n "id" with Some v => v | None => "" end.

(** [typeof element.className === 'string'] *)
Definition classNameIsString (n : Node) : bool := negb (svg (nodeData n)).

(** The reflecting property [className] of an element whose [className] is
    a string. *)
Definition className (n : Node) : string :=
  match getAttribute n "class" with Some v => v | None => "" end.

(** ToBoolean of [element.className]: an object is truthy. *)
Definition classNameTruthy (n : Node) : bool :=
  if classNameIsString n then truthy (className n) else true.

(** The element and its descendants in document order, each with its chain
    of ancestors. *)
Fixpoint nodesFrom (anc : list Element) (e : Element) {struct e} : list Node :=
  match e with
  | mkElement _ cs =>
      mkNode e anc :: flat_map (nodesFrom (e :: anc)) cs
  end.

(** The descendants of a node in document order: what
    [getElementsByTagName('*')] returns and what [querySelector] searches. *)
Definition descendants (n : Node) : list Node :=
  flat_map (nodesFrom (elem n :: ancestors n)) (children (elem n)).

(** *** Selectors *)

Inductive AttrSelector : Type :=
| HasAttr (name : string)                  (* [name] *)
| NotHasAttr (name : string)               (* :not([name]) *)
| AttrEq (name value : string)             (* [name="value"] *)
| AttrEqNoCase (name value : string).      (* [type="value"] in HTML *)

(** A compound selector: an optional type selector and attribute
    conditions.  A selector is a comma-separated list of them. *)
Record Compound : Type := mkCompound {
  typeSelector : option string;
  conditions : list AttrSelector
}.

Definition Selector : Type := list Compound.

Definition toLowerAscii (c : ascii) : ascii :=
  let n := nat_of_ascii c in
  if Nat.leb 65 n && Nat.leb n 90 then ascii_of_nat (n + 32) else c.

Fixpoint toLowerCase (s : string) : string :=
  match s with
  | EmptyString => EmptyString
  | String c s' => String (toLowerAscii c) (toLowerCase s')
  end.

Definition matchesAttr (e : Element) (a : AttrSelector) : bool :=
  match a with
  | HasAttr name => elementHasAttribute e name
  | NotHasAttr name => negb (elementHasAttribute e name)
  | AttrEq name value =>
      match elementGetAttribute e name with
      | Some v => String.eqb v value
      | None => false
      end
  | AttrEqNoCase name value =>
      match elementGetAttribute e name with
      | Some v => String.eqb (toLowerCase v) (toLowerCase value)
      | None => false
      end
  end.

Definition matchesCompound (e : Element) (c : Compound) : bool :=
  match typeSelector c with
  | Some tag => String.eqb (localName (data e)) tag
  | None => true
  end && forallb (matchesAttr e) (conditions c).

Definition matches (s : Selector) (n : Node) : bool :=
  existsb (matchesCompound (elem n)) s.

Definition tag (name : string) : Compound := mkCompound (Some name) [].
Definition attr (name : string) : Compound := mkCompound None [HasAttr name].

(** *** The document and the window *)

(** [documentElement] is [None] for a document without a root element.
    [querySelectorText] answers [document.querySelector(text) !== null] for
    a selector given as text that the scripts build from the page's own
    data: the host parses it, and throws when it is not a selector. *)
Record Document : Type := mkDocument {
  documentElement : option Element;
  querySelectorText : string -> Result bool
}.

(** [now] is the text of [new Date().toISOString()] at the time of the
    audit. *)
Record Window : Type := mkWindow {
  innerWidth : float;
  innerHeight : float;
  location_href : string;
  now : string
}.

(** The page a content script is injected into. *)
Record Page : Type := mkPage {
  window : Window;
  document : Document
}.

Definition rootNode (d : Document) : option Node :=
  match documentElement d with
  | Some r => Some (mkNode r [])
  | None => None
  end.

Definition allElements (d : Document) : list Node :=
  match documentElement d with
  | Some r => nodesFrom [] r
  | None => []
  end.

(** [document.querySelectorAll(selector)] *)
Definition querySelectorAll (d : Document) (s : Selector) : list Node :=
  filter (matches s) (allElements d).

(** [document.querySelector(selector)] *)
Definition querySelector (d : Document) (s : Selector) : option Node :=
  find (matches s) (allElements d).

(** [el.querySelector(selector)] *)
Definition nodeQuerySelector (n : Node) (s : Selector) : option Node :=
  find (matches s) (descendants n).

Definition isBody (e : Element) : bool :=
  String.eqb (localName (data e)) "body"
  || String.eqb (localName (data e)) "frameset".

(** [document.body]: the first body or frameset child of the html
    element, or [null]. *)
Definition body (d : Document) : option Node :=
  match documentElement d with
  | Some r =>
      if String.eqb (localName (data r)) "html" then
        match find isBody (children r) with
        | Some b => Some (mkNode b [r])
        | None => None
        end
      else None
  | None => None
  end.

End Dom.

(* ================================================================== *)
(** ** The report data model *)
(* ================================================================== *)

(** A value handed over by [ColorUtils.suggestContrastImprovements]. *)
Inductive JsValue : Type :=
| JNumber (x : float)
| JString (s : string)
| JObject (fields : list (string * JsValue)).

Module Details.
(** The [details] payload of a contrast issue. *)
Record t : Type := mk {
  ratio : Js.Text;
  requiredRatio : float;
  fontSize : Js.Text;
  fontWeight : float;
  textColor : string;
  backgroundColor : string;
  suggestions : JsValue
}.
End Details.

Module Issue.
(** One entry of [issues].  [element] and [selector] are [None] when the
    script stores [null]; [details] is [None] when the property is not
    set. *)
Record t : Type := mk {
  type : string;
  category : string;
  message : Js.Text;
  element : option string;
  selector : option string;
  details : option Details.t
}.
End Issue.

Module Summary.
Record t : Type := mk {
  total : nat;
  errors : nat;
  warnings : nat
}.
End Summary.

Module Report.
Record t : Type := mk {
  url : string;
  timestamp : string;
  issues : list Issue.t;
  summary : Summary.t
}.
End Report.

Module ContrastResult.
(** What [getContrastRatioForElement] returns for an element. *)
Record t : Type := mk {
  ratio : float;
  fontSize : float;
  fontWeight : float;
  requiredAARatio : float;
  requiredAAARatio : float;
  meetsAA : bool;
  meetsAAA : bool;
  textColor : string;
  backgroundColor : string;
  suggestions : JsValue
}.
End ContrastResult.

(* ================================================================== *)
(** ** Statements that push issues and may throw *)
(* ================================================================== *)

Module Run.
Import Js.

(** A block of statements working on a local [issues] array: the issues it
    pushed, in order, and how it completed.  Issues pushed before an
    exception stay in the array. *)
Definition M (A : Type) : Type := (list Issue.t * Result A)%type.

Definition ret {A} (a : A) : M A := ([], Ok a).

Definition bind {A B} (m : M A) (k : A -> M B) : M B :=
  match m with
  | (l, Ok a) => let (l', r) := k a in (l ++ l', r)
  | (l, Throw e) => (l, Throw e)
  | (l, ThrowNullish) => (l, ThrowNullish)
  end.

(** [issues.push(i)] *)
Definition push (i : Issue.t) : M unit := ([i], Ok tt).

(** [issues.push(...l)] *)
Definition pushAll (l : list Issue.t) : M unit := (l, Ok tt).

(** An expression that may throw. *)
Definition eval {A} (r : Result A) : M A := ([], r).

(** [try { m } catch (error) { handler(error) }] *)
Definition tryCatch (m : M unit) (handler : Thrown -> M unit) : M unit :=
  match m with
  | (l, Ok a) => (l, Ok a)
  | (l, Throw e) => let (l', r) := handler (ThrownValue e) in (l ++ l', r)
  | (l, ThrowNullish) => let (l', r) := handler ThrownNullish in (l ++ l', r)
  end.

(** [console.error(..., error)]: nothing the audit can observe. *)
Definition logOnly (_ : Thrown) : M unit := ret tt.

(** [`${error.message}`]: reading the property of [null] or [undefined]
    throws. *)
Definition messageOf (error : Thrown) : Result Piece :=
  match error with
  | ThrownValue e => Ok (ErrorMessage e)
  | ThrownNullish => Throw TypeError_null
  end.

(** [l.forEach(f)]: an exception thrown by [f] ends the iteration. *)
Fixpoint forEach {A} (f : A -> M unit) (l : list A) : M unit :=
  match l with
  | [] => ret tt
  | x :: xs => bind (f x) (fun _ => forEach f xs)
  end.

(** [if (c) { m }] *)
Definition when (c : bool) (m : M unit) : M unit :=
  if c then m else ret tt.

(** The [issues] array when the function returns it. *)
Definition issuesOf {A} (m : M A) : list Issue.t := fst m.

End Run.

Declare Scope run_scope.
Delimit Scope run_scope with run.
Notation "x <- m ;; k" := (Run.bind m (fun x => k))
  (at level 61, m at next level, right associativity) : run_scope.
Notation "m ;;; k" := (Run.bind m (fun _ => k))
  (at level 61, right associativity) : run_scope.

Declare Scope result_scope.
Delimit Scope result_scope with result.
Notation "x <- r ;; k" := (Js.rbind r (fun x => k))
  (at level 61, r at next level, right associativity) : result_scope.

(* ================================================================== *)
(** ** accessibility-inspector: the content script *)
(* ================================================================== *)

Module Inspector.
Import Js Dom Run.

(** *** The optional helper globals

    [ColorUtils] and [A11yRuleUtils] are defined by other scripts of the
    extension; the content script only calls them.  A method either returns
    or throws. *)
Record ColorUtilsObject : Type := mkColorUtils {
  calculateContrastRatio : string -> string -> Result float;
  suggestContrastImprovements : string -> string -> float -> Result JsValue
}.

(** [runAllChecks] is [None] when the property is not a function. *)
Record A11yRuleUtilsObject : Type := mkRuleUtils {
  runAllChecks : option (Page -> Result (list Issue.t))
}.

(** Which globals are defined ([None]: [typeof X === 'undefined']). *)
Record Globals : Type := mkGlobals {
  ColorUtils : option ColorUtilsObject;
  A11yRules : bool;
  A11yRuleUtils : option A11yRuleUtilsObject
}.

Definition fallbackColorUtils : ColorUtilsObject :=
  {| calculateContrastRatio := fun _ _ => Ok 4.5%float;
     suggestContrastImprovements := fun _ _ _ =>
       Ok (JObject [("currentRatio", JNumber 4.5%float);
                    ("suggestedRatio", JNumber 4.5%float)]) |}.

Definition fallbackRuleUtils : A11yRuleUtilsObject :=
  {| runAllChecks := Some (fun _ => Ok []) |}.

(** The globals after [initializeDependencies()] has run (the
    [ReportGenerator] fallback only serves the popup). *)
Definition initializeDependencies (g : Globals) : Globals :=
  {| ColorUtils :=
       match ColorUtils g with
       | Some c => Some c
       | None => Some fallbackColorUtils
       end;
     A11yRules := true;
     A11yRuleUtils :=
       if A11yRules g then A11yRuleUtils g else Some fallbackRuleUtils |}.

(** *** Visibility *)

Definition isElementVisible_try (w : Window) (element : Node)
  : Result bool :=
  match getBoundingClientRect (nodeData element) with
  | None => Ok false
  | Some rect =>
      (style <- nonNull (getComputedStyle (nodeData element)) ;;
       Ok (negb ((Rect.width rect =? 0)%float && (Rect.height rect =? 0)%float)
           && negb (String.eqb (Style.display style) "none")
           && negb (String.eqb (Style.visibility style) "hidden")
           && negb (String.eqb (Style.opacity style) "0")
           && (Rect.top rect <? innerHeight w)%float
           && gt (Rect.bottom rect) 0
           && (Rect.left rect <? innerWidth w)%float
           && gt (Rect.right rect) 0))%result
  end.

Definition isElementVisible (w : Window) (element : Node) : bool :=
  match isElementVisible_try w element with
  | Ok b => b
  | _ => false
  end.

(** *** Background colour *)

Definition isDigit (c : ascii) : bool :=
  let n := nat_of_ascii c in Nat.leb 48 n && Nat.leb n 57.

Definition isDigitOrDot (c : ascii) : bool :=
  isDigit c || Ascii.eqb c "."%char.

Fixpoint takeWhile {A} (p : A -> bool) (l : list A) : list A :=
  match l with
  | [] => []
  | x :: xs => if p x then x :: takeWhile p xs else []
  end.

(** A literal of the pattern: the rest of the text after it. *)
Fixpoint expect (p l : list ascii) : option (list ascii) :=
  match p, l with
  | [], _ => Some l
  | a :: p', b :: l' => if Ascii.eqb a b then expect p' l' else None
  | _ :: _, [] => None
  end.

(** [(\d+)]: the rest of the text after the longest run of digits. *)
Definition digits1 (l : list ascii) : option (list ascii) :=
  match takeWhile isDigit l with
  | [] => None
  | _ :: _ => Some (dropWhile isDigit l)
  end.

Definition obind {A B} (o : option A) (k : A -> option B) : option B :=
  match o with Some a => k a | None => None end.

(** The pattern [rgba\((\d+),\s*(\d+),\s*(\d+),\s*([\d.]+)\)] matched at
    the start of the text: its fourth group.  Each repetition is followed by
    a character outside its class, so the longest run is the only
    candidate. *)
Definition matchRgbaAt (l : list ascii) : option string :=
  obind (expect (list_ascii_of_string "rgba(") l) (fun l =>
  obind (digits1 l) (fun l =>
  obind (expect [","%char] l) (fun l =>
  obind (digits1 (dropWhile isWhiteSpace l)) (fun l =>
  obind (expect [","%char] l) (fun l =>
  obind (digits1 (dropWhile isWhiteSpace l)) (fun l =>
  obind (expect [","%char] l) (fun l =>
  let l := dropWhile isWhiteSpace l in
  match takeWhile isDigitOrDot l with
  | [] => None
  | g :: gs =>
      match expect [")"%char] (dropWhile isDigitOrDot l) with
      | Some _ => Some (string_of_list_ascii (g :: gs))
      | None => None
      end
  end))))))).

(** [color.match(/rgba\(...\)/)]: the first position where the pattern
    matches. *)
Fixpoint matchRgba (l : list ascii) : option string :=
  match matchRgbaAt l with
  | Some g => Some g
  | None =>
      match l with
      | [] => None
      | _ :: rest => matchRgba rest
      end
  end.

Definition getAlphaFromColor (color : string) : float :=
  if startsWith "rgba" color then
    match matchRgba (list_ascii_of_string color) with
    | Some a => parseFloat a
    | None => 1%float
    end
  else 1%float.

(** The test of the loop body: the colour is kept. *)
Definition opaqueEnough (bgColor : string) : bool :=
  truthy bgColor
  && negb (String.eqb bgColor "rgba(0, 0, 0, 0)")
  && negb (String.eqb bgColor "transparent")
  && gt (getAlphaFromColor bgColor) 0.1.

(** The loop of [getBackgroundColor]: [currentElement] with its remaining
    chain of parents.  With an empty chain [currentElement] is
    [document.documentElement] and the loop ends. *)
Fixpoint findBackground (currentElement : Element) (parents : list Element)
  : Result (option string) :=
  match parents with
  | [] => Ok None
  | parentElement :: rest =>
      (style <- nonNull (getComputedStyle (data currentElement)) ;;
       let bgColor := Style.backgroundColor style in
       if opaqueEnough bgColor then Ok (Some bgColor)
       else findBackground parentElement rest)%result
  end.

Definition white : string := "rgb(255, 255, 255)".

Definition getBackgroundColor (element : Node) : Result string :=
  (backgroundColor <- findBackground (elem element) (ancestors element) ;;
   Ok (match backgroundColor with
       | Some c => if truthy c then c else white
       | None => white
       end))%result.

(** *** Contrast *)

Definition isLargeText (fontSize fontWeight : float) : bool :=
  ge fontSize 24 || (ge fontSize 18.66 && ge fontWeight 700).

Definition getRequiredContrastRatio (fontSize fontWeight : float) : float :=
  if isLargeText fontSize fontWeight then 3%float else 4.5%float.

Definition getContrastRatioForElement_try (g : Globals) (element : Node)
  : Result (option ContrastResult.t) :=
  (style <- nonNull (getComputedStyle (nodeData element)) ;;
   let textColor := Style.color style in
   backgroundColor <- getBackgroundColor element ;;
   if negb (truthy textColor) || negb (truthy backgroundColor) then Ok None
   else
     utils <- match ColorUtils g with
              | Some u => Ok u
              | None => Throw (ReferenceError "ColorUtils")
              end ;;
     contrastRatio <- calculateContrastRatio utils textColor backgroundColor ;;
     let fontSize := parseFloat (Style.fontSize style) in
     let fontWeight := orElse (parseInt (Style.fontWeight style)) 400 in
     let requiredAARatio := getRequiredContrastRatio fontSize fontWeight in
     let requiredAAARatio :=
       if (requiredAARatio =? 3)%float then 4.5%float else 7%float in
     suggestions <- suggestContrastImprovements utils
                      textColor backgroundColor requiredAARatio ;;
     Ok (Some {| ContrastResult.ratio := contrastRatio;
                 ContrastResult.fontSize := fontSize;
                 ContrastResult.fontWeight := fontWeight;
                 ContrastResult.requiredAARatio := requiredAARatio;
                 ContrastResult.requiredAAARatio := requiredAAARatio;
                 ContrastResult.meetsAA := ge contrastRatio requiredAARatio;
                 ContrastResult.meetsAAA := ge contrastRatio requiredAAARatio;
                 ContrastResult.textColor := textColor;
                 ContrastResult.backgroundColor := backgroundColor;
                 ContrastResult.suggestions := suggestions |}))%result.

Definition getContrastRatioForElement (g : Globals) (element : Node)
  : option ContrastResult.t :=
  match getContrastRatioForElement_try g element with
  | Ok r => r
  | _ => None
  end.

(** *** Text elements *)

(** [element.textContent || element.innerText || ''] *)
Definition textOf (element : Node) : string :=
  if truthy (textContent (nodeData element)) then textContent (nodeData element)
  else if truthy (innerText (nodeData element)) then innerText (nodeData element)
  else "".

(** The [for] loop of [getTextElements] from index [i] on: [allElements]
    holds the elements not visited yet, [elements] the array built so
    far. *)
Fixpoint collectTextElements (w : Window) (allElements : list Node)
         (elements : list Node) : list Node :=
  match allElements with
  | [] => elements
  | element :: rest =>
      if negb (isElementVisible w element) then
        collectTextElements w rest elements
      else
        let elements :=
          if Nat.ltb 0 (String.length (trim (textOf element)))
          then elements ++ [element] else elements in
        if Nat.ltb 1500 (List.length elements) then elements
        else collectTextElements w rest elements
  end.

Definition getTextElements_try (p : Page) : Result (list Node) :=
  (body <- nonNull (body (document p)) ;;
   Ok (collectTextElements (window p) (descendants body) []))%result.

Definition getTextElements (p : Page) : list Node :=
  match getTextElements_try p with
  | Ok elements => elements
  | _ => []
  end.

(** *** Selector of an element *)

(** No statement of the [try] block throws on an element, so the [catch]
    clause is never entered. *)
Definition getSelector (element : Node) : string :=
  if negb (truthy (localName (nodeData element))) then "unknown"
  else if truthy (id element) then "#" ++ id element
  else
    if classNameTruthy element && classNameIsString element then
      let firstClass := splitSpaceFirst (className element) in
      if truthy firstClass
      then localName (nodeData element) ++ "." ++ firstClass
      else localName (nodeData element)
    else localName (nodeData element).

Definition snippet (element : Node) : string :=
  slice0 100 (outerHTML (nodeData element)).

(** An issue about one element. *)
Definition elementIssue (type category : string) (message : Text)
           (element : Node) : Issue.t :=
  {| Issue.type := type;
     Issue.category := category;
     Issue.message := message;
     Issue.element := Some (snippet element);
     Issue.selector := Some (getSelector element);
     Issue.details := None |}.

(** An issue with [element: null, selector: null]. *)
Definition pageIssue (type category : string) (message : Text) : Issue.t :=
  {| Issue.type := type;
     Issue.category := category;
     Issue.message := message;
     Issue.element := None;
     Issue.selector := None;
     Issue.details := None |}.

Local Open Scope run_scope.

(** *** The colour contrast check *)

Definition contrastIssue (element : Node) (r : ContrastResult.t) : Issue.t :=
  {| Issue.type := "error";
     Issue.category := "contrast";
     Issue.message :=
       [Lit "Insufficient contrast: "; ToFixed 2 (ContrastResult.ratio r);
        Lit ":1 (required "; NumberToString (ContrastResult.requiredAARatio r);
        Lit ":1)"];
     Issue.element := Some (snippet element);
     Issue.selector := Some (getSelector element);
     Issue.details :=
       Some {| Details.ratio := [ToFixed 2 (ContrastResult.ratio r)];
               Details.requiredRatio := ContrastResult.requiredAARatio r;
               Details.fontSize :=
                 [NumberToString (ContrastResult.fontSize r); Lit "px"];
               Details.fontWeight := ContrastResult.fontWeight r;
               Details.textColor := ContrastResult.textColor r;
               Details.backgroundColor := ContrastResult.backgroundColor r;
               Details.suggestions := ContrastResult.suggestions r |} |}.

(** The callback of [textElements.forEach]. *)
Definition contrastStep (g : Globals) (element : Node) : M unit :=
  match getContrastRatioForElement g element with
  | Some contrastResult =>
      when (negb (ContrastResult.meetsAA contrastResult))
           (push (contrastIssue element contrastResult))
  | None => ret tt
  end.

(** The elements the contrast check evaluates. *)
Definition contrastCandidates (p : Page) : list Node :=
  firstn 1000 (getTextElements p).

Definition checkColorContrast (g : Globals) (p : Page) : list Issue.t :=
  issuesOf
    (tryCatch (forEach (contrastStep g) (contrastCandidates p)) logOnly).

(** *** The fallback checks *)

(** The issue a [catch] clause pushes for the error it caught. *)
Definition systemIssue (prefix : string) (error : ErrorValue) : Issue.t :=
  pageIssue "error" "system" [Lit prefix; ErrorMessage error].

(** The statements of such a [catch] clause after [console.error]: the
    object literal reads [error.message] before anything is pushed. *)
Definition reportError (prefix : string) (error : Thrown) : M unit :=
  message <- eval (messageOf error) ;;
  push (pageIssue "error" "system" [Lit prefix; message]).

Definition imgWithoutAlt : Selector :=
  [mkCompound (Some "img") [NotHasAttr "alt"]].

Definition textInputs : Selector :=
  [mkCompound (Some "input") [AttrEqNoCase "type" "text"];
   mkCompound (Some "input") [AttrEqNoCase "type" "email"];
   mkCompound (Some "input") [AttrEqNoCase "type" "password"];
   tag "textarea"].

Fixpoint contains (c : ascii) (s : string) : bool :=
  match s with
  | EmptyString => false
  | String c' s' => Ascii.eqb c c' || contains c s'
  end.

Definition doubleQuote : ascii := ascii_of_nat 34.

(** The characters that a quoted string of a selector does not take as
    written: the double quote ends it, the reverse solidus starts an
    escape, LF, FF and CR may not occur in it and NUL is replaced. *)
Definition specialInString : list ascii :=
  [doubleQuote; ascii_of_nat 92; ascii_of_nat 10; ascii_of_nat 12;
   ascii_of_nat 13; ascii_of_nat 0].

Definition plainId (id : string) : bool :=
  negb (existsb (fun c => contains c id) specialInString).

(** The text [`label[for="${id}"]`] *)
Definition labelSelectorText (id : string) : string :=
  "label[for=" ++ String doubleQuote (id ++ String doubleQuote "]").

(** [document.querySelector(`label[for="${id}"]`)] is not [null].  For an
    id without special characters the text is the selector of the labels
    whose [for] attribute is the id; any other text is left to the host. *)
Definition hasLabelFor (d : Document) (id : string) : Result bool :=
  if plainId id then
    Ok (negb (isNull (querySelector d
                        [mkCompound (Some "label") [AttrEq "for" id]])))
  else querySelectorText d (labelSelectorText id).

Definition languageIssue (html : Node) : Issue.t :=
  {| Issue.type := "error";
     Issue.category := "language";
     Issue.message := text "Missing lang attribute on html element";
     Issue.element := Some (snippet html);
     Issue.selector := Some "html";
     Issue.details := None |}.

Definition headingsIssue : Issue.t :=
  pageIssue "warning" "headings" (text "No H1 heading found").

(** The callback of [images.forEach]. *)
Definition imageStep (w : Window) (img : Node) : M unit :=
  when (isElementVisible w img)
       (push (elementIssue "error" "images"
                (text "Image missing alt attribute") img)).

(** [!input.id || !document.querySelector(`label[for="${input.id}"]`)] *)
Definition lacksLabel (d : Document) (input : Node) : M bool :=
  if negb (truthy (id input)) then ret true
  else
    label <- eval (hasLabelFor d (id input)) ;;
    ret (negb label).

(** The callback of [inputs.forEach]. *)
Definition inputStep (d : Document) (input : Node) : M unit :=
  unlabelled <- lacksLabel d input ;;
  when unlabelled
       (push (elementIssue "warning" "forms"
                (text "Input without associated label") input)).

Definition runBasicChecks_try (p : Page) : M unit :=
  let w := window p in
  let d := document p in
  forEach (imageStep w) (querySelectorAll d imgWithoutAlt) ;;;
  html <- eval (nonNull (rootNode d)) ;;
  when (negb (truthy_opt (getAttribute html "lang")))
       (push (languageIssue html)) ;;;
  when (Nat.eqb (List.length (querySelectorAll d [tag "h1"])) 0)
       (push headingsIssue) ;;;
  forEach (inputStep d) (querySelectorAll d textInputs).

Definition runBasicChecks (p : Page) : list Issue.t :=
  issuesOf
    (tryCatch (runBasicChecks_try p) (reportError "Basic check error: ")).

(** *** The ARIA check *)

Definition validRoles : list string :=
  ["button"; "checkbox"; "dialog"; "gridcell"; "link"; "listbox";
   "option"; "progressbar"; "radio"; "slider"; "tab"; "tabpanel";
   "textbox"; "menu"; "menubar"; "menuitem"; "navigation"; "banner";
   "main"; "complementary"; "contentinfo"; "search"; "form"].

Definition isValidAriaRole (role : string) : bool :=
  existsb (String.eqb role) validRoles.

Definition ariaLabelStep (w : Window) (el : Node) : M unit :=
  if negb (isElementVisible w el) then ret tt
  else
    let hasText :=
      truthy (textContent (nodeData el))
      && truthy (trim (textContent (nodeData el))) in
    let hasAltImage :=
      nodeQuerySelector el [mkCompound (Some "img") [HasAttr "alt"]] in
    when (negb hasText && isNull hasAltImage)
         (push (elementIssue "warning" "aria"
                  (text "Element with aria-label without visible text content")
                  el)).

Definition roleStep (el : Node) : M unit :=
  match getAttribute el "role" with
  | Some role =>
      when (truthy role && negb (isValidAriaRole role))
           (push (elementIssue "warning" "aria"
                    [Lit "Invalid ARIA role: "; Lit role] el))
  | None => ret tt
  end.

Definition checkAriaAttributes (p : Page) : list Issue.t :=
  issuesOf
    (tryCatch
       (forEach (ariaLabelStep (window p))
                (querySelectorAll (document p) [attr "aria-label"]) ;;;
        forEach roleStep (querySelectorAll (document p) [attr "role"]))
       logOnly).

(** *** The keyboard check *)

(** The callback of [tabIndexElements.forEach]. *)
Definition tabindexStep (w : Window) (el : Node) : M unit :=
  if negb (isElementVisible w el) then ret tt
  else
    let tabIndex := parseInt (toStringOrNull (getAttribute el "tabindex")) in
    when (tabIndex <? -1)%float
         (push (elementIssue "error" "keyboard"
                  (text "Invalid tabindex value") el)).

(** The callback of [interactiveElements.forEach]. *)
Definition interactiveStep (w : Window) (el : Node) : M unit :=
  if negb (isElementVisible w el) then ret tt
  else
    let tabIndex := getAttribute el "tabindex" in
    if isNull tabIndex && negb (disabled (nodeData el)) then
      style <- eval (nonNull (getComputedStyle (nodeData el))) ;;
      when (negb (String.eqb (Style.pointerEvents style) "none")
            && negb (String.eqb (Style.display style) "none"))
           (push (elementIssue "warning" "keyboard"
                    (text "Interactive element may not be keyboard accessible")
                    el))
    else ret tt.

Definition interactive : Selector :=
  [tag "button"; tag "a"; tag "input"; tag "select"; tag "textarea";
   attr "onclick"].

Definition checkKeyboardNavigation (p : Page) : list Issue.t :=
  issuesOf
    (tryCatch
       (forEach (tabindexStep (window p))
                (querySelectorAll (document p) [attr "tabindex"]) ;;;
        forEach (interactiveStep (window p))
                (querySelectorAll (document p) interactive))
       logOnly).

(** *** The semantic markup check *)

Definition divButtons : Selector :=
  [mkCompound (Some "div") [HasAttr "onclick"];
   mkCompound (Some "div") [AttrEq "role" "button"]].

Definition divButtonStep (w : Window) (div : Node) : M unit :=
  if negb (isElementVisible w div) then ret tt
  else push (elementIssue "warning" "semantics"
               (text "Using div instead of button for interactive element")
               div).

Definition layoutTableStep (table : Node) : M unit :=
  when (isNull (nodeQuerySelector table [tag "th"])
        && negb (truthy_opt (getAttribute table "summary")))
       (push (elementIssue "warning" "semantics"
                (text "Possible table usage for layout") table)).

Definition checkSemanticMarkup (p : Page) : list Issue.t :=
  issuesOf
    (tryCatch
       (forEach (divButtonStep (window p))
                (querySelectorAll (document p) divButtons) ;;;
        forEach layoutTableStep
                (querySelectorAll (document p)
                   [mkCompound (Some "table") [NotHasAttr "role"]]))
       logOnly).

(** *** The language check *)

Definition checkLanguage_try (p : Page) : M unit :=
  html <- eval (nonNull (rootNode (document p))) ;;
  let lang := getAttribute html "lang" in
  when (negb (truthy_opt lang))
       (push (languageIssue html)).

Definition checkLanguage (p : Page) : list Issue.t :=
  issuesOf (tryCatch (checkLanguage_try p) logOnly).

(** *** The entry point *)

(** The statements of the [try] block of [runA11yChecks]. *)
Definition runA11yChecks_try (g : Globals) (p : Page) : M unit :=
  match A11yRuleUtils g with
  | Some utils =>
      match runAllChecks utils with
      | Some run =>
          ruleIssues <- eval (run p) ;;
          pushAll ruleIssues
      | None => pushAll (runBasicChecks p)
      end
  | None => pushAll (runBasicChecks p)
  end ;;;
  pushAll (checkColorContrast g p) ;;;
  pushAll (checkAriaAttributes p) ;;;
  pushAll (checkKeyboardNavigation p) ;;;
  pushAll (checkSemanticMarkup p) ;;;
  pushAll (checkLanguage p).

Definition hasType (t : string) (i : Issue.t) : bool :=
  String.eqb (Issue.type i) t.

Definition summarize (issues : list Issue.t) : Summary.t :=
  {| Summary.total := List.length issues;
     Summary.errors := List.length (filter (hasType "error") issues);
     Summary.warnings := List.length (filter (hasType "warning") issues) |}.

(** The whole [try { ... } catch (error) { ... }] statement. *)
Definition runA11yChecks_guarded (g : Globals) (p : Page) : M unit :=
  tryCatch (runA11yChecks_try g p) (reportError "Check execution error: ").

(** The report of the [return] statement, which is reached when the guarded
    statement completes. *)
Definition runA11yChecks (g : Globals) (p : Page) : Report.t :=
  let issues := issuesOf (runA11yChecks_guarded g p) in
  {| Report.url := location_href (window p);
     Report.timestamp := now (window p);
     Report.issues := issues;
     Report.summary := summarize issues |}.

(** A call of [runA11yChecks()]: the report, or the exception that leaves
    the [catch] clause and the function. *)
Definition runA11yChecks_call (g : Globals) (p : Page) : Result Report.t :=
  match snd (runA11yChecks_guarded g p) with
  | Ok _ => Ok (runA11yChecks g p)
  | Throw e => Throw e
  | ThrowNullish => ThrowNullish
  end.

(** The audit as the extension runs it: the script is loaded into the page
    (and installs its fallbacks), then [runA11yChecks] is called. *)
Definition audit (loaded : Globals) (p : Page) : Report.t :=
  runA11yChecks (initializeDependencies loaded) p.

End Inspector.

(* ================================================================== *)
(** ** accessibility-checker: popup/content-script.js *)
(* ================================================================== *)

Module Checker.
Import Js Dom Run.
Local Open Scope run_scope.

(** The [className] of an SVG element is an object: it is truthy and has
    no [split] method. *)
Definition getSelector (element : Node) : Result string :=
  if truthy (id element) then Ok ("#" ++ id element)%string
  else if classNameTruthy element then
    if classNameIsString element
    then Ok ("." ++ splitSpaceFirst (className element))%string
    else Throw TypeError_notFunction
  else Ok (localName (nodeData element)).

(** The object literal of an issue about one element, once [getSelector]
    has returned [selector]. *)
Definition elementIssueWith (type category : string) (message : Text)
           (element : Node) (selector : string) : Issue.t :=
  {| Issue.type := type;
     Issue.category := category;
     Issue.message := message;
     Issue.element := Some (slice0 100 (outerHTML (nodeData element)));
     Issue.selector := Some selector;
     Issue.details := None |}.

(** [issues.push({ ..., selector: getSelector(element) })] *)
Definition pushElementIssue (type category : string) (message : Text)
           (element : Node) : M unit :=
  selector <- eval (getSelector element) ;;
  push (elementIssueWith type category message element selector).

(** The issue pushed for an element whose selector [getSelector] returns. *)
Definition elementIssue (type category : string) (message : Text)
           (element : Node) : Issue.t :=
  elementIssueWith type category message element
    (match getSelector element with Ok selector => selector | _ => "" end).

Definition pageIssue (type category : string) (message : Text) : Issue.t :=
  {| Issue.type := type;
     Issue.category := category;
     Issue.message := message;
     Issue.element := None;
     Issue.selector := None;
     Issue.details := None |}.

(** The loop reads [style.color] and [style.backgroundColor] of every
    element and pushes nothing. *)
Definition checkColorContrast (p : Page) : M unit :=
  forEach (fun el =>
             style <- eval (nonNull (getComputedStyle (nodeData el))) ;;
             let color := Style.color style in
             let backgroundColor := Style.backgroundColor style in
             ret tt)
          (querySelectorAll (document p) [mkCompound None []]).

Definition checkAriaAttributes (p : Page) : M unit :=
  forEach (fun el =>
             when (negb (truthy (trim (textContent (nodeData el))))
                   && isNull
                        (nodeQuerySelector el
                           [mkCompound (Some "img") [HasAttr "alt"]]))
                  (pushElementIssue "warning" "aria"
                     (text "Элемент с aria-label без видимого текстового содержимого")
                     el))
          (querySelectorAll (document p) [attr "aria-label"]).

Definition checkKeyboardNavigation (p : Page) : M unit :=
  forEach (fun el =>
             let tabIndex :=
               parseInt (toStringOrNull (getAttribute el "tabindex")) in
             when (tabIndex <? -1)%float
                  (pushElementIssue "error" "keyboard"
                     (text "Некорректное значение tabindex") el))
          (querySelectorAll (document p) [attr "tabindex"]).

Definition checkSemanticMarkup (p : Page) : M unit :=
  forEach (fun div =>
             pushElementIssue "warning" "semantics"
               (text "Использование div вместо button для интерактивного элемента")
               div)
          (querySelectorAll (document p)
             [mkCompound (Some "div") [HasAttr "onclick"];
              mkCompound (Some "div") [AttrEq "role" "button"]]).

Definition headings : Selector :=
  [tag "h1"; tag "h2"; tag "h3"; tag "h4"; tag "h5"; tag "h6"].

Definition headingsIssue : Issue.t :=
  pageIssue "warning" "headings" (text "На странице отсутствуют заголовки").

(** The images and headings statements at the head of [runA11yChecks]. *)
Definition imagesAndHeadings (p : Page) : M unit :=
  forEach (fun img =>
             pushElementIssue "error" "images"
               (text "Изображение без атрибута alt") img)
          (querySelectorAll (document p)
             [mkCompound (Some "img") [NotHasAttr "alt"]]) ;;;
  when (Nat.eqb (List.length (querySelectorAll (document p) headings)) 0)
       (push headingsIssue).

Definition summarize (issues : list Issue.t) : Summary.t :=
  {| Summary.total := List.length issues;
     Summary.errors :=
       List.length
         (filter (fun i => String.eqb (Issue.type i) "error") issues);
     Summary.warnings :=
       List.length
         (filter (fun i => String.eqb (Issue.type i) "warning") issues) |}.

Definition runA11yChecks_body (p : Page) : M unit :=
  imagesAndHeadings p ;;;
  checkColorContrast p ;;;
  checkAriaAttributes p ;;;
  checkKeyboardNavigation p ;;;
  checkSemanticMarkup p.

(** No statement of this script catches: an exception leaves
    [runA11yChecks] and no report is returned. *)
Definition runA11yChecks (p : Page) : Result Report.t :=
  match runA11yChecks_body p with
  | (issues, Ok _) =>
      Ok {| Report.url := location_href (window p);
            Report.timestamp := now (window p);
            Report.issues := issues;
            Report.summary := summarize issues |}
  | (_, Throw e) => Throw e
  | (_, ThrowNullish) => ThrowNullish
  end.

End Checker.


(* ================================================================== *)
(** ** accessibility-inspector: the rules table *)
(* ================================================================== *)

Module Rules.
Import Js Dom.

(** One entry of [A11yRules]: a [check] on an element of kind [A], a
    message and a severity. *)
Record Rule (A : Type) : Type := mkRule {
  check : A;
  message : string;
  type : string
}.
Arguments mkRule {A} check message type.
Arguments check {A} r.
Arguments message {A} r.
Arguments type {A} r.

(** [A11yRules.images.missingAlt] *)
Definition images_missingAlt : Rule (Node -> bool) :=
  {| check := fun img => negb (hasAttribute img "alt");
     message := "Изображение без атрибута alt";
     type := "error" |}.

(** [A11yRules.images.emptyAlt] *)
Definition images_emptyAlt : Rule (Node -> bool) :=
  {| check := fun img =>
       match getAttribute img "alt" with
       | Some v => String.eqb v ""
       | None => false
       end;
     message := "Атрибут alt пустой (декоративное изображение)";
     type := "warning" |}.

(** [A11yRules.forms.missingLabel]: the check reads the document and throws
    when the text built from the id is not a selector. *)
Definition forms_missingLabel : Rule (Document -> Node -> Result bool) :=
  {| check := fun d input =>
       if negb (truthy (id input)) then Ok true
       else
         (label <- Inspector.hasLabelFor d (id input) ;;
          Ok (negb label))%result;
     message := "Поле формы без связанной метки";
     type := "error" |}.

End Rules.

(* ================================================================== *)
(** ** accessibility-inspector: the popup *)
(* ================================================================== *)

Module Popup.
Import Js.

(** [s.replace(/c/g, r)] for a pattern of one character. *)
Fixpoint replaceAll (c : ascii) (r : string) (s : string) : string :=
  match s with
  | EmptyString => EmptyString
  | String a s' =>
      if Ascii.eqb a c then r ++ replaceAll c r s'
      else String a (replaceAll c r s')
  end.

Definition quot : ascii := ascii_of_nat 34.
Definition apos : ascii := ascii_of_nat 39.

(** [escapeHtml(unsafe)] for a string or [null]. *)
Definition escapeHtml (unsafe : option string) : string :=
  match unsafe with
  | None => ""
  | Some s =>
      replaceAll apos "&#039;"
        (replaceAll quot "&quot;"
           (replaceAll ">"%char "&gt;"
              (replaceAll "<"%char "&lt;"
                 (replaceAll "&"%char "&amp;" s))))
  end.

End Popup.

(* ================================================================== *)
(** ** Vocabulary of the properties *)
(* ================================================================== *)

Import Js Dom Run Inspector.

(** Every issue pushed by a block satisfies [P]. *)
Definition AllIssues {A} (P : Issue.t -> Prop) (m : M A) : Prop :=
  Forall P (issuesOf m).

(** The issues handed over by [A11yRuleUtils.runAllChecks()], when that
    helper is loaded and returns. *)
Definition externalIssues (g : Globals) (p : Page) : list Issue.t :=
  match A11yRuleUtils g with
  | Some utils =>
      match runAllChecks utils with
      | Some run => match run p with Ok l => l | _ => [] end
      | None => []
      end
  | None => []
  end.

(** The value thrown by [A11yRuleUtils.runAllChecks()], if it throws one
    that is not nullish. *)
Definition externalFailure (g : Globals) (p : Page) : option ErrorValue :=
  match A11yRuleUtils g with
  | Some utils =>
      match runAllChecks utils with
      | Some run => match run p with Throw e => Some e | _ => None end
      | None => None
      end
  | None => None
  end.

(** Whether [A11yRuleUtils.runAllChecks()] throws [null] or [undefined]. *)
Definition externalNullish (g : Globals) (p : Page) : bool :=
  match A11yRuleUtils g with
  | Some utils =>
      match runAllChecks utils with
      | Some run => match run p with ThrowNullish => true | _ => false end
      | None => false
      end
  | None => false
  end.

(** Whether [runA11yChecks] falls back on [runBasicChecks]. *)
Definition usesBasicChecks (g : Globals) : bool :=
  match A11yRuleUtils g with
  | Some utils => isNull (runAllChecks utils)
  | None => true
  end.

(** The parts of the content script of accessibility-inspector that build
    issues. *)
Inductive Origin : Type :=
| BasicChecks | ContrastCheck | AriaCheck | KeyboardCheck | SemanticsCheck
| LanguageCheck | EntryPoint.

(** The issues each part builds.  A [system] issue is built by a [catch]
    handler, from the message of the exception it caught. *)
Inductive EmittedBy (g : Globals) (p : Page) : Origin -> Issue.t -> Prop :=
| By_images message el :
    EmittedBy g p BasicChecks (elementIssue "error" "images" message el)
| By_basic_language html :
    EmittedBy g p BasicChecks (languageIssue html)
| By_headings :
    EmittedBy g p BasicChecks headingsIssue
| By_forms message el :
    EmittedBy g p BasicChecks (elementIssue "warning" "forms" message el)
| By_basic_failure e :
    snd (runBasicChecks_try p) = Throw e ->
    EmittedBy g p BasicChecks (systemIssue "Basic check error: " e)
| By_contrast el r :
    EmittedBy g p ContrastCheck (contrastIssue el r)
| By_aria message el :
    EmittedBy g p AriaCheck (elementIssue "warning" "aria" message el)
| By_keyboard type message el :
    type = "error" \/ type = "warning" ->
    EmittedBy g p KeyboardCheck (elementIssue type "keyboard" message el)
| By_semantics message el :
    EmittedBy g p SemanticsCheck (elementIssue "warning" "semantics" message el)
| By_language html :
    EmittedBy g p LanguageCheck (languageIssue html)
| By_entry_failure e :
    externalFailure g p = Some e ->
    EmittedBy g p EntryPoint (systemIssue "Check execution error: " e).

(** The issues the content script builds itself. *)
Definition Emitted (g : Globals) (p : Page) (i : Issue.t) : Prop :=
  exists o, EmittedBy g p o i.

(** *** The invariants of a finding *)

Definition SeverityOk (i : Issue.t) : Prop :=
  Issue.type i = "error" \/ Issue.type i = "warning".

(** The snippet is present exactly when the selector is. *)
Definition Paired (i : Issue.t) : Prop :=
  Issue.element i <> None <-> Issue.selector i <> None.

Definition WellFormed (i : Issue.t) : Prop := SeverityOk i /\ Paired i.

(** The eight categories of the data model. *)
Definition specCategories : list string :=
  ["images"; "headings"; "contrast"; "aria"; "keyboard"; "semantics";
   "language"; "system"].

(** The categories the content script uses. *)
Definition usedCategories : list string := "forms" :: specCategories.

(** The number of findings of a severity. *)
Fixpoint countSeverity (severity : string) (findings : list Issue.t) : nat :=
  match findings with
  | [] => 0
  | i :: rest =>
      (if String.eqb (Issue.type i) severity then 1 else 0)
      + countSeverity severity rest
  end.

(** The findings of a category. *)
Definition ofCategory (category : string) (findings : list Issue.t)
  : list Issue.t :=
  filter (fun i => String.eqb (Issue.category i) category) findings.

Definition NotInCategory (c : string) (i : Issue.t) : Prop :=
  String.eqb (Issue.category i) c = false.

(** *** The colour resolver in the words of the specification *)

(** The chain walked: the element, then its ancestors, the document root
    left out. *)
Definition chainBelowRoot (n : Node) : list Element :=
  removelast (elem n :: ancestors n).

(** The ancestors alone, the document root left out. *)
Definition ancestorsBelowRoot (n : Node) : list Element :=
  removelast (ancestors n).

Definition hasStyle (e : Element) : Prop := getComputedStyle (data e) <> None.

Definition backgroundOf (e : Element) : string :=
  match getComputedStyle (data e) with
  | Some style => Style.backgroundColor style
  | None => ""
  end.

Definition transparentSentinels : list string :=
  ["rgba(0, 0, 0, 0)"; "transparent"].

Definition digitChars : list ascii := list_ascii_of_string "0123456789".

Definition Digits (l : list ascii) : Prop :=
  l <> [] /\ Forall (fun c => In c digitChars) l.

Definition DigitsAndDots (l : list ascii) : Prop :=
  l <> [] /\ Forall (fun c => In c digitChars \/ c = "."%char) l.

Definition Blank (l : list ascii) : Prop :=
  Forall (fun c => isWhiteSpace c = true) l.

(** The text reads [rgba(R,G,B,A)] from its first character on: [R], [G]
    and [B] are runs of digits, [A] is a run of digits and dots, white
    space may follow each comma and anything may follow the closing
    parenthesis. *)
Inductive RgbaAt : list ascii -> list ascii -> Prop :=
| RgbaAt_intro R G B A w1 w2 w3 rest :
    Digits R -> Digits G -> Digits B -> DigitsAndDots A ->
    Blank w1 -> Blank w2 -> Blank w3 ->
    RgbaAt (list_ascii_of_string "rgba(" ++ R ++ ","%char :: w1
              ++ G ++ ","%char :: w2
              ++ B ++ ","%char :: w3
              ++ A ++ ")"%char :: rest)
           A.

(** The first place of the text that reads as an rgba form has the alpha
    text [A]. *)
Definition FirstRgbaIn (l A : list ascii) : Prop :=
  exists before from,
    l = before ++ from /\ RgbaAt from A
    /\ forall before' from' A',
         l = before' ++ from' -> List.length before' < List.length before ->
         ~ RgbaAt from' A'.

(** No place of the text reads as an rgba form. *)
Definition NoRgbaIn (l : list ascii) : Prop :=
  forall before from A, l = before ++ from -> ~ RgbaAt from A.

(** The alpha of a colour text: the number its alpha text denotes when the
    text begins with [rgba] and holds an rgba form, 1 for every other
    text. *)
Inductive AlphaOf (colour : string) : float -> Prop :=
| Alpha_rgba A :
    startsWith "rgba" colour = true ->
    FirstRgbaIn (list_ascii_of_string colour) A ->
    AlphaOf colour (parseFloat (string_of_list_ascii A))
| Alpha_other :
    startsWith "rgba" colour = false
    \/ NoRgbaIn (list_ascii_of_string colour) ->
    AlphaOf colour 1%float.

(** A colour is accepted when it is present, is not a fully transparent
    sentinel and its alpha exceeds 0.1. *)
Definition Accepted (colour : string) : Prop :=
  colour <> ""
  /\ ~ In colour transparentSentinels
  /\ exists alpha, AlphaOf colour alpha /\ (0.1 <? alpha)%float = true.

(** The colour resolved along a chain of elements: the background of the
    first element whose background is accepted, white when there is
    none. *)
Inductive ResolvesTo (chain : list Element) (colour : string) : Prop :=
| Resolves_first skipped e rest :
    chain = skipped ++ e :: rest ->
    Forall (fun x => ~ Accepted (backgroundOf x)) skipped ->
    Accepted (backgroundOf e) ->
    colour = backgroundOf e ->
    ResolvesTo chain colour
| Resolves_white :
    Forall (fun x => ~ Accepted (backgroundOf x)) chain ->
    colour = "rgb(255, 255, 255)" ->
    ResolvesTo chain colour.

(** *** The contrast thresholds in the words of the specification *)

(** Large text: at least 24px, or at least 18.66px and of weight at least
    700. *)
Definition LargeText (fontSize fontWeight : float) : Prop :=
  (24 <=? fontSize)%float = true
  \/ ((18.66 <=? fontSize)%float = true /\ (700 <=? fontWeight)%float = true).

(** *** The collection of text elements in the words of the specification *)

(** Visible, with text left after trimming. *)
Definition qualifies (w : Window) (element : Node) : bool :=
  isElementVisible w element
  && negb (String.eqb (trim (textOf element)) "").

(** The qualifying elements of a page: the descendants of the body, in
    document order, that are visible and hold text. *)
Definition qualifying (p : Page) : list Node :=
  match body (document p) with
  | Some b => filter (qualifies (window p)) (descendants b)
  | None => []
  end.

(** *** Example pages *)

Definition window0 : Window :=
  {| innerWidth := 1024;
     innerHeight := 768;
     location_href := "https://example.org/";
     now := "2024-01-01T00:00:00.000Z" |}.

Definition rect0 : Rect.t :=
  {| Rect.top := 10; Rect.bottom := 30; Rect.left := 10; Rect.right := 110;
     Rect.width := 100; Rect.height := 20 |}.

Definition styleWith (backgroundColor fontSize fontWeight : string) : Style.t :=
  {| Style.display := "block";
     Style.visibility := "visible";
     Style.opacity := "1";
     Style.pointerEvents := "auto";
     Style.color := "rgb(0, 0, 0)";
     Style.backgroundColor := backgroundColor;
     Style.fontSize := fontSize;
     Style.fontWeight := fontWeight |}.

Definition style0 : Style.t := styleWith "rgba(0, 0, 0, 0)" "16px" "400".

(** A visible element with the given tag, attributes, text and children. *)
Definition styled (style : Style.t) (name : string)
           (attrs : list (string * string)) (content : string)
           (cs : list Element) : Element :=
  mkElement
    {| localName := name;
       svg := false;
       attributes := attrs;
       outerHTML := "<" ++ name ++ ">" ++ content ++ "</" ++ name ++ ">";
       textContent := content;
       innerText := content;
       getBoundingClientRect := Some rect0;
       getComputedStyle := Some style;
       disabled := false |}
    cs.

Definition el := styled style0.

(** A host that takes no text for a selector: enough for pages whose ids
    hold no special character. *)
Definition noSelectorText (selector : string) : Result bool :=
  Throw (SyntaxError selector).

Definition pageOf (html : Element) : Page :=
  {| window := window0;
     document := {| documentElement := Some html;
                    querySelectorText := noSelectorText |} |}.

(** No helper script loaded: the content script installs its fallbacks. *)
Definition nothingLoaded : Globals :=
  {| ColorUtils := None; A11yRules := false; A11yRuleUtils := None |}.

(** Only the rules table (which defines [A11yRules]) loaded. *)
Definition rulesLoaded : Globals :=
  {| ColorUtils := None; A11yRules := true; A11yRuleUtils := None |}.

(** An example of a loaded [A11yRuleUtils]: it reports every image without
    [alt], in the wording of the rules table. *)
Definition imagesRuleUtils : A11yRuleUtilsObject :=
  {| runAllChecks :=
       Some (fun p =>
               Ok (map (elementIssue "error" "images"
                          (text "Изображение без атрибута alt"))
                       (querySelectorAll (document p) imgWithoutAlt))) |}.

(** An example of a loaded [A11yRuleUtils] whose [runAllChecks] throws. *)
Definition failingRuleUtils : A11yRuleUtilsObject :=
  {| runAllChecks := Some (fun _ => Throw "rules is not iterable") |}.

(** An example of a loaded [A11yRuleUtils] whose [runAllChecks] throws
    [null]. *)
Definition nullThrowingRuleUtils : A11yRuleUtilsObject :=
  {| runAllChecks := Some (fun _ => ThrowNullish) |}.

Definition globalsWithRules (utils : A11yRuleUtilsObject) : Globals :=
  {| ColorUtils := None; A11yRules := true; A11yRuleUtils := Some utils |}.

(** [<html><body><h1>Title</h1><img src="a.png"></body></html>] *)
Definition pageWithImage : Page :=
  pageOf (el "html" [] "Title"
            [el "body" [] "Title"
               [el "h1" [] "Title" []; el "img" [("src", "a.png")] "" []]]).

(** [<html lang="en"><body><h2>Title</h2></body></html>] *)
Definition pageWithH2 : Page :=
  pageOf (el "html" [("lang", "en")] "Title"
            [el "body" [] "Title" [el "h2" [] "Title" []]]).

(** [<html lang="en"><body></body></html>] *)
Definition pageWithoutHeadings : Page :=
  pageOf (el "html" [("lang", "en")] "" [el "body" [] "" []]).

(** [<html lang="en"><body><h1>Title</h1><input type="text"></body></html>] *)
Definition pageWithInput : Page :=
  pageOf (el "html" [("lang", "en")] "Title"
            [el "body" [] "Title"
               [el "h1" [] "Title" []; el "input" [("type", "text")] "" []]]).


(** [<html lang="en"><head></head></html>]: no body (yet). *)
Definition pageWithoutBody : Page :=
  pageOf (el "html" [("lang", "en")] "" [el "head" [] "" []]).

(** A body of [n] visible spans holding text. *)
Definition pageOfSpans (n : nat) : Page :=
  pageOf (el "html" [("lang", "en")] "x"
            [el "body" [] "x" (repeat (el "span" [] "x" []) n)]).

(** [<div tabindex="abc" onclick="go()">Go</div>] in a page. *)
Definition divWithBadTabindex : Element :=
  el "div" [("tabindex", "abc"); ("onclick", "go()")] "Go" [].

Definition htmlAround (e : Element) : Element :=
  el "html" [("lang", "en")] "Go" [el "body" [] "Go" [e]].

Definition nodeWithBadTabindex : Node :=
  {| elem := divWithBadTabindex;
     ancestors := [el "body" [] "Go" [divWithBadTabindex];
                   htmlAround divWithBadTabindex] |}.

(** A paragraph of the given font size on a white body. *)
Definition paragraph (fontSize : string) : Node :=
  let p := styled (styleWith "rgba(0, 0, 0, 0)" fontSize "400") "p" [] "Text" [] in
  let body := styled (styleWith "rgb(255, 255, 255)" "16px" "400")
                     "body" [] "Text" [p] in
  {| elem := p; ancestors := [body; el "html" [] "Text" [body]] |}.

(** A [ColorUtils] whose contrast ratio is always [ratio]. *)
Definition constantColorUtils (ratio : float) : ColorUtilsObject :=
  {| calculateContrastRatio := fun _ _ => Ok ratio;
     suggestContrastImprovements := fun _ _ _ => Ok (JObject []) |}.

Definition globalsWith (utils : ColorUtilsObject) : Globals :=
  {| ColorUtils := Some utils; A11yRules := true; A11yRuleUtils := None |}.

(** A span on three layers: a nearly transparent one, an opaque blue one and
    the body. *)
Definition layeredSpan : Node :=
  let span := styled (styleWith "rgba(0, 0, 0, 0)" "16px" "400")
                     "span" [] "Text" [] in
  let inner := styled (styleWith "rgba(255, 0, 0, 0.05)" "16px" "400")
                      "div" [] "Text" [span] in
  let outer := styled (styleWith "rgb(0, 0, 255)" "16px" "400")
                      "section" [] "Text" [inner] in
  let body := styled (styleWith "rgb(255, 255, 255)" "16px" "400")
                     "body" [] "Text" [outer] in
  {| elem := span;
     ancestors := [inner; outer; body; el "html" [] "Text" [body]] |}.

(** A paragraph with a red background of its own, in a blue body. *)
Definition redOnBlue : Node :=
  let p := styled (styleWith "rgb(255, 0, 0)" "16px" "400") "p" [] "Text" [] in
  let body := styled (styleWith "rgb(0, 0, 255)" "16px" "400")
                     "body" [] "Text" [p] in
  {| elem := p; ancestors := [body; el "html" [] "Text" [body]] |}.

(** [<svg class=icon aria-label=Menu></svg>]: an SVG element, whose
    [className] is an object. *)
Definition svgIcon : Element :=
  mkElement
    {| localName := "svg";
       svg := true;
       attributes := [("class", "icon"); ("aria-label", "Menu")];
       outerHTML := "<svg class=icon aria-label=Menu></svg>";
       textContent := "";
       innerText := "";
       getBoundingClientRect := Some rect0;
       getComputedStyle := Some style0;
       disabled := false |}
    [].

(** *** Further invariants of a finding *)

(** The snippet, when present, has at most 100 characters. *)
Definition SnippetBounded (i : Issue.t) : Prop :=
  match Issue.element i with
  | Some s => String.length s <= 100
  | None => True
  end.

(** The selector, when present, is not empty. *)
Definition SelectorNotEmpty (i : Issue.t) : Prop :=
  match Issue.selector i with
  | Some s => s <> ""
  | None => True
  end.

(** The details are present exactly on the findings of category contrast. *)
Definition DetailsOnContrast (i : Issue.t) : Prop :=
  Issue.details i <> None <-> Issue.category i = "contrast".

(** The id of the element holds none of the characters a quoted string of
    a selector does not take as written. *)
Definition PlainId (input : Node) : Prop := plainId (id input) = true.

(** *** The older content script *)

(** [getSelector] of the older script returns for the element: the element
    has an id, or its [className] is a string. *)
Definition Selectable (n : Node) : Prop :=
  id n <> "" \/ svg (nodeData n) = false.

Definition Styled (n : Node) : Prop := getComputedStyle (nodeData n) <> None.

(** The elements the older script builds an issue for, in the order of its
    loops. *)
Definition checkerReported (p : Page) : list Node :=
  let d := document p in
  querySelectorAll d [mkCompound (Some "img") [NotHasAttr "alt"]]
  ++ filter (fun el =>
               negb (truthy (trim (textContent (nodeData el))))
               && isNull (nodeQuerySelector el
                            [mkCompound (Some "img") [HasAttr "alt"]]))
            (querySelectorAll d [attr "aria-label"])
  ++ filter (fun el =>
               (parseInt (toStringOrNull (getAttribute el "tabindex")) <? -1)%float)
            (querySelectorAll d [attr "tabindex"])
  ++ querySelectorAll d
       [mkCompound (Some "div") [HasAttr "onclick"];
        mkCompound (Some "div") [AttrEq "role" "button"]].

(** How a block of the older script ends: it completes, or one of its two
    TypeErrors is thrown. *)
Definition ChecksEnd (r : Result unit) : Prop :=
  r = Ok tt \/ r = Throw TypeError_null \/ r = Throw TypeError_notFunction.

(** [<html lang=en><body><h1>Title</h1><svg class=icon aria-label=Menu>
    </svg></body></html>] *)
Definition pageWithSvg : Page :=
  pageOf (el "html" [("lang", "en")] "Title"
            [el "body" [] "Title" [el "h1" [] "Title" []; svgIcon]]).

(** *** Colour texts and escaped texts *)

(** Every character of the text satisfies [p]. *)
Definition allChars (p : ascii -> bool) (s : string) : bool :=
  forallb p (list_ascii_of_string s).

(** The text [rgba(r, g, b, a)], as browsers serialize a colour with an
    alpha channel. *)
Definition rgbaText (r g b a : string) : string :=
  "rgba(" ++ r ++ ", " ++ g ++ ", " ++ b ++ ", " ++ a ++ ")".

(** The escape of one character. *)
Definition escapeChar (c : ascii) : string :=
  if Ascii.eqb c "&"%char then "&amp;"
  else if Ascii.eqb c "<"%char then "&lt;"
  else if Ascii.eqb c ">"%char then "&gt;"
  else if Ascii.eqb c Popup.quot then "&quot;"
  else if Ascii.eqb c Popup.apos then "&#039;"
  else String c EmptyString.

Fixpoint escapeEach (s : string) : string :=
  match s with
  | EmptyString => EmptyString
  | String c s' => escapeChar c ++ escapeEach s'
  end.

(** A decoder of the five entities; [skip] characters are passed over
    first. *)
Fixpoint unescapeHtml (skip : nat) (s : string) : string :=
  match s with
  | EmptyString => EmptyString
  | String c s' =>
      match skip with
      | S k => unescapeHtml k s'
      | O =>
          if Ascii.eqb c "&"%char then
            if prefix "amp;" s' then String "&" (unescapeHtml 4 s')
            else if prefix "lt;" s' then String "<" (unescapeHtml 3 s')
            else if prefix "gt;" s' then String ">" (unescapeHtml 3 s')
            else if prefix "quot;" s' then String Popup.quot (unescapeHtml 5 s')
            else if prefix "#039;" s' then String Popup.apos (unescapeHtml 5 s')
            else String c (unescapeHtml 0 s')
          else String c (unescapeHtml 0 s')
      end
  end.

(** The characters [escapeHtml] must not let through. *)
Definition markupChars : list ascii :=
  ["<"%char; ">"%char; Popup.quot; Popup.apos].

(* ================================================================== *)
(** ** Properties *)
(* ================================================================== *)

(** *** What a block pushed *)

Section AllIssues.
Context (P : Issue.t -> Prop).

Lemma all_ret {A} (a : A) : AllIssues P (ret a).
Proof. constructor. Qed.

Lemma all_eval {A} (r : Result A) : AllIssues P (eval r).
Proof. constructor. Qed.

Lemma all_push (i : Issue.t) : P i -> AllIssues P (push i).
Proof. intros H. repeat constructor. exact H. Qed.

Lemma all_pushAll (l : list Issue.t) : Forall P l -> AllIssues P (pushAll l).
Proof. intros H. exact H. Qed.

Lemma all_bind {A B} (m : M A) (k : A -> M B) :
  AllIssues P m -> (forall a, AllIssues P (k a)) -> AllIssues P (bind m k).
Proof.
  unfold AllIssues, issuesOf, bind.
  destruct m as [l [a | e |]]; simpl; intros Hm Hk.
  - specialize (Hk a). destruct (k a) as [l' r]. simpl in *.
    apply Forall_app. split; assumption.
  - exact Hm.
  - exact Hm.
Qed.

Lemma all_when (c : bool) (m : M unit) :
  AllIssues P m -> AllIssues P (when c m).
Proof. destruct c; simpl; intros H; [exact H | constructor]. Qed.

Lemma all_forEach {A} (f : A -> M unit) (l : list A) :
  (forall x, AllIssues P (f x)) -> AllIssues P (forEach f l).
Proof.
  intros Hf. induction l as [| x xs IH]; simpl.
  - apply all_ret.
  - apply all_bind; [apply Hf | intros _; exact IH].
Qed.

(** The handler only runs on the exception of the guarded block. *)
Lemma all_tryCatch (m : M unit) (handler : Thrown -> M unit) :
  AllIssues P m ->
  (forall e, snd m = Throw e -> AllIssues P (handler (ThrownValue e))) ->
  AllIssues P (handler ThrownNullish) ->
  AllIssues P (tryCatch m handler).
Proof.
  unfold AllIssues, issuesOf, tryCatch.
  destruct m as [l [a | e |]]; simpl; intros Hm Hh Hn.
  - exact Hm.
  - specialize (Hh e eq_refl).
    destruct (handler (ThrownValue e)) as [l' r]. simpl in *.
    apply Forall_app. split; assumption.
  - destruct (handler ThrownNullish) as [l' r]. simpl in *.
    apply Forall_app. split; assumption.
Qed.

Lemma all_logged (m : M unit) :
  AllIssues P m -> AllIssues P (tryCatch m logOnly).
Proof. intros H. apply all_tryCatch; [exact H | constructor | constructor]. Qed.

End AllIssues.

Lemma all_impl {A} (P Q : Issue.t -> Prop) (m : M A) :
  (forall i, P i -> Q i) -> AllIssues P m -> AllIssues Q m.
Proof. intros H. apply Forall_impl. exact H. Qed.

(** The issues of a sequence: those of the first block, then those of the
    second when the first completes. *)
Lemma issuesOf_bind {A B} (m : M A) (k : A -> M B) :
  issuesOf (bind m k) =
  issuesOf m ++ match snd m with
                | Ok a => issuesOf (k a)
                | _ => []
                end.
Proof.
  unfold issuesOf, bind. destruct m as [l [a | e |]]; simpl.
  - destruct (k a); reflexivity.
  - now rewrite app_nil_r.
  - now rewrite app_nil_r.
Qed.

Lemma issuesOf_bind_ok {A B} (a : A) (k : A -> M B) :
  issuesOf (bind (eval (Ok a)) k) = issuesOf (k a).
Proof. unfold issuesOf, bind, eval. destruct (k a); reflexivity. Qed.

Lemma issuesOf_tryCatch (m : M unit) (handler : Thrown -> M unit) :
  issuesOf (tryCatch m handler) =
  issuesOf m ++ match snd m with
                | Ok _ => []
                | Throw e => issuesOf (handler (ThrownValue e))
                | ThrowNullish => issuesOf (handler ThrownNullish)
                end.
Proof.
  unfold issuesOf, tryCatch. destruct m as [l [a | e |]]; simpl.
  - now rewrite app_nil_r.
  - destruct (handler (ThrownValue e)); reflexivity.
  - destruct (handler ThrownNullish); reflexivity.
Qed.

Lemma snd_tryCatch (m : M unit) (handler : Thrown -> M unit) :
  snd (tryCatch m handler) =
  match snd m with
  | Ok a => Ok a
  | Throw e => snd (handler (ThrownValue e))
  | ThrowNullish => snd (handler ThrownNullish)
  end.
Proof.
  unfold tryCatch. destruct m as [l [a | e |]]; simpl.
  - reflexivity.
  - destruct (handler (ThrownValue e)); reflexivity.
  - destruct (handler ThrownNullish); reflexivity.
Qed.

(** A [catch] clause that reports the error pushes one system issue for a
    thrown value and throws in its turn on [null] and [undefined]. *)
Lemma reportError_value (prefix : string) (e : ErrorValue) :
  reportError prefix (ThrownValue e) = push (systemIssue prefix e).
Proof. reflexivity. Qed.

Lemma reportError_nullish (prefix : string) :
  reportError prefix ThrownNullish = eval (Throw TypeError_null).
Proof. reflexivity. Qed.

Lemma snd_bind {A B} (m : M A) (k : A -> M B) :
  snd (bind m k) = match snd m with
                   | Ok a => snd (k a)
                   | Throw e => Throw e
                   | ThrowNullish => ThrowNullish
                   end.
Proof.
  unfold bind. destruct m as [l [a | e |]]; simpl; [| reflexivity ..].
  destruct (k a); reflexivity.
Qed.

(** A sequence completes only when both of its blocks do. *)
Lemma bind_completes_inv {A B} (m : M A) (k : A -> M B) (b : B) :
  snd (bind m k) = Ok b -> exists a, snd m = Ok a /\ snd (k a) = Ok b.
Proof.
  rewrite snd_bind. destruct (snd m) as [a | e |]; try discriminate.
  intros H. exists a. split; [reflexivity | exact H].
Qed.

(** A guarded block whose handler completes always completes. *)
Lemma tryCatch_completes (m : M unit) (handler : Thrown -> M unit) :
  (forall e, snd (handler e) = Ok tt) -> snd (tryCatch m handler) = Ok tt.
Proof.
  intros Hh. rewrite snd_tryCatch. destruct (snd m) as [[] | e |]; auto.
Qed.

Lemma forEach_completes {A} (f : A -> M unit) (l : list A) :
  (forall x, snd (f x) = Ok tt) -> snd (forEach f l) = Ok tt.
Proof.
  intros Hf. induction l as [| x xs IH]; simpl; [reflexivity |].
  rewrite snd_bind, Hf. exact IH.
Qed.

Lemma when_completes (c : bool) (m : M unit) :
  snd m = Ok tt -> snd (when c m) = Ok tt.
Proof. destruct c; simpl; auto. Qed.

(** A check that only logs what it catches returns what its [try] block
    pushed. *)
Lemma logged_issues (m : M unit) :
  issuesOf (tryCatch m logOnly) = issuesOf m.
Proof.
  rewrite issuesOf_tryCatch. destruct (snd m); apply app_nil_r.
Qed.

(** The fallback checks return what their [try] block pushed, and one
    system issue more when the block threw. *)
Lemma runBasicChecks_issues (p : Page) :
  runBasicChecks p =
  issuesOf (runBasicChecks_try p)
  ++ match snd (runBasicChecks_try p) with
     | Throw e => [systemIssue "Basic check error: " e]
     | _ => []
     end.
Proof.
  unfold runBasicChecks. rewrite issuesOf_tryCatch.
  destruct (snd (runBasicChecks_try p)); reflexivity.
Qed.

(** The older script pushes an issue once [getSelector] has returned. *)
Lemma checker_push_all (P : Issue.t -> Prop) (type category : string)
      (message : Text) (el : Node) :
  (forall selector,
      P (Checker.elementIssueWith type category message el selector)) ->
  AllIssues P (Checker.pushElementIssue type category message el).
Proof.
  intros H. apply all_bind; [apply all_eval |].
  intros selector. apply all_push, H.
Qed.

Lemma checker_push_returned (type category : string) (message : Text)
      (el : Node) :
  snd (Checker.pushElementIssue type category message el) = Ok tt ->
  Checker.pushElementIssue type category message el
  = push (Checker.elementIssue type category message el).
Proof.
  unfold Checker.pushElementIssue, Checker.elementIssue.
  destruct (Checker.getSelector el); [reflexivity | discriminate ..].
Qed.

(** *** The issues the content script builds itself *)

Create HintDb issues.
#[local] Hint Resolve all_ret all_eval all_push all_when all_forEach
  all_logged all_pushAll : issues.
#[local] Hint Constructors EmittedBy : issues.

Section Emitted.
Context (g : Globals) (p : Page).

Lemma lacksLabel_silent (P : Issue.t -> Prop) (d : Document) (input : Node) :
  AllIssues P (lacksLabel d input).
Proof.
  unfold lacksLabel. destruct (negb (truthy (id input))); [apply all_ret |].
  apply all_bind; [apply all_eval | intros; apply all_ret].
Qed.

(** The fallback loops push issues of one kind each. *)
Lemma imageStep_all (P : Issue.t -> Prop) (w : Window) (img : Node) :
  (forall message el, P (elementIssue "error" "images" message el)) ->
  AllIssues P (imageStep w img).
Proof. intros H. apply all_when, all_push, H. Qed.

Lemma inputStep_all (P : Issue.t -> Prop) (d : Document) (input : Node) :
  (forall message el, P (elementIssue "warning" "forms" message el)) ->
  AllIssues P (inputStep d input).
Proof.
  intros H. apply all_bind; [apply lacksLabel_silent |].
  intros unlabelled. apply all_when, all_push, H.
Qed.

Lemma runBasicChecks_emitted :
  Forall (EmittedBy g p BasicChecks) (runBasicChecks p).
Proof.
  unfold runBasicChecks. apply all_tryCatch.
  - unfold runBasicChecks_try.
    apply all_bind.
    { apply all_forEach. intros img. apply imageStep_all. constructor. }
    intros _. apply all_bind; [apply all_eval |]. intros html.
    apply all_bind; [auto with issues |]. intros _.
    apply all_bind; [auto with issues |]. intros _.
    apply all_forEach. intros input. apply inputStep_all. constructor.
  - intros e He. rewrite reportError_value. auto with issues.
  - constructor.
Qed.

Lemma checkColorContrast_emitted :
  Forall (EmittedBy g p ContrastCheck) (checkColorContrast g p).
Proof.
  unfold checkColorContrast. apply all_logged.
  apply all_forEach. intros el. unfold contrastStep.
  destruct (getContrastRatioForElement g el); auto with issues.
Qed.

Lemma checkAriaAttributes_emitted :
  Forall (EmittedBy g p AriaCheck) (checkAriaAttributes p).
Proof.
  unfold checkAriaAttributes. apply all_logged.
  apply all_bind.
  - apply all_forEach. intros el. unfold ariaLabelStep.
    destruct (negb (isElementVisible (window p) el)); auto with issues.
  - intros _. apply all_forEach. intros el. unfold roleStep.
    destruct (getAttribute el "role"); auto with issues.
Qed.

Lemma checkKeyboardNavigation_emitted :
  Forall (EmittedBy g p KeyboardCheck) (checkKeyboardNavigation p).
Proof.
  unfold checkKeyboardNavigation. apply all_logged.
  apply all_bind.
  - apply all_forEach. intros el. unfold tabindexStep.
    destruct (negb (isElementVisible (window p) el)); auto with issues.
  - intros _. apply all_forEach. intros el. unfold interactiveStep.
    destruct (negb (isElementVisible (window p) el)); [apply all_ret |].
    destruct (isNull _ && _); [| apply all_ret].
    apply all_bind; [apply all_eval |]. intros style.
    auto with issues.
Qed.

Lemma checkSemanticMarkup_emitted :
  Forall (EmittedBy g p SemanticsCheck) (checkSemanticMarkup p).
Proof.
  unfold checkSemanticMarkup. apply all_logged.
  apply all_bind.
  - apply all_forEach. intros el. unfold divButtonStep.
    destruct (negb (isElementVisible (window p) el)); auto with issues.
  - intros _. apply all_forEach. intros el. unfold layoutTableStep.
    auto with issues.
Qed.

Lemma checkLanguage_emitted :
  Forall (EmittedBy g p LanguageCheck) (checkLanguage p).
Proof.
  unfold checkLanguage. apply all_logged.
  unfold checkLanguage_try. apply all_bind; [apply all_eval |].
  intros html. auto with issues.
Qed.

End Emitted.

(** *** The runtime model on examples *)

(** [parseFloat] rounds as the numeric literals do. *)
Example parseFloat_examples :
  map parseFloat ["16px"; "18.66px"; "0.1"; " 4.5"; ".25"; "1.2.3"; "-3.25e2x";
                  "1e-2"; "9007199254740993"; "5e-324"; "1.8e308"]
  = [16; 18.66; 0.1; 4.5; 0.25; 1.2; -325; 0.01; 9007199254740992; 5e-324;
     infinity]%float
  /\ map (fun s => is_nan (parseFloat s)) [""; "."; "px"; "-"; "e5"]
     = [true; true; true; true; true].
Proof. split; reflexivity. Qed.

Example parseInt_examples :
  map parseInt ["0"; "-1"; " -5"; "12px"; "0x1F"; "700"; "08"; "+7"; "3.9"]
  = [0; -1; -5; 12; 31; 700; 8; 7; 3]%float
  /\ map (fun s => is_nan (parseInt s)) [""; "abc"; "-"; "null"; "0x"; ".5"]
     = [true; true; true; true; true; true].
Proof. split; reflexivity. Qed.

Example trim_examples :
  map trim ["  a b  "; "   "; ""; "x"] = ["a b"; ""; ""; "x"].
Proof. reflexivity. Qed.

(** *** The issues of a report *)

Lemma runA11yChecks_try_outcome (g : Globals) (p : Page) :
  snd (runA11yChecks_try g p) =
  match externalFailure g p with
  | Some e => Throw e
  | None => if externalNullish g p then ThrowNullish else Ok tt
  end.
Proof.
  unfold runA11yChecks_try, externalFailure, externalNullish.
  destruct (A11yRuleUtils g) as [utils |]; [| reflexivity].
  destruct (runAllChecks utils) as [run |]; [| reflexivity].
  destruct (run p); reflexivity.
Qed.

Lemma runA11yChecks_try_issues (g : Globals) (p : Page) :
  issuesOf (runA11yChecks_try g p) =
  match externalFailure g p with
  | Some _ => []
  | None =>
      if externalNullish g p then []
      else
        (if usesBasicChecks g then runBasicChecks p else externalIssues g p)
        ++ checkColorContrast g p ++ checkAriaAttributes p
        ++ checkKeyboardNavigation p ++ checkSemanticMarkup p
        ++ checkLanguage p
  end.
Proof.
  unfold runA11yChecks_try, externalFailure, externalIssues, usesBasicChecks,
    externalNullish.
  destruct (A11yRuleUtils g) as [utils |]; [| reflexivity].
  destruct (runAllChecks utils) as [run |]; [| reflexivity].
  simpl. destruct (run p); reflexivity.
Qed.

(** The guarded statement of the entry point completes unless the helper
    threw [null] or [undefined]: reading [error.message] then throws out of
    the [catch] clause. *)
Lemma runA11yChecks_guarded_outcome (g : Globals) (p : Page) :
  snd (runA11yChecks_guarded g p) =
  if externalNullish g p then Throw TypeError_null else Ok tt.
Proof.
  unfold runA11yChecks_guarded.
  rewrite snd_tryCatch, runA11yChecks_try_outcome.
  unfold externalFailure, externalNullish.
  destruct (A11yRuleUtils g) as [utils |]; [| reflexivity].
  destruct (runAllChecks utils) as [run |]; [| reflexivity].
  destruct (run p); reflexivity.
Qed.

Lemma externalFailure_not_nullish (g : Globals) (p : Page) (e : ErrorValue) :
  externalFailure g p = Some e -> externalNullish g p = false.
Proof.
  unfold externalFailure, externalNullish.
  destruct (A11yRuleUtils g) as [utils |]; [| discriminate].
  destruct (runAllChecks utils) as [run |]; [| discriminate].
  destruct (run p); intros; try discriminate; reflexivity.
Qed.

(** The findings of a report: the system finding alone when the helper
    threw, the outputs of the checks in run order otherwise.  (When the
    helper threw [null] or [undefined] nothing was pushed, and no report is
    returned.) *)
Lemma report_issues (g : Globals) (p : Page) :
  Report.issues (runA11yChecks g p) =
  match externalFailure g p with
  | Some e => [systemIssue "Check execution error: " e]
  | None =>
      if externalNullish g p then []
      else
        (if usesBasicChecks g then runBasicChecks p else externalIssues g p)
        ++ checkColorContrast g p ++ checkAriaAttributes p
        ++ checkKeyboardNavigation p ++ checkSemanticMarkup p
        ++ checkLanguage p
  end.
Proof.
  unfold runA11yChecks, runA11yChecks_guarded. simpl.
  rewrite issuesOf_tryCatch, runA11yChecks_try_issues,
    runA11yChecks_try_outcome.
  destruct (externalFailure g p); [reflexivity |].
  destruct (externalNullish g p); [reflexivity | apply app_nil_r].
Qed.

Lemma by_emitted (g : Globals) (p : Page) (o : Origin) (l : list Issue.t) :
  Forall (EmittedBy g p o) l -> Forall (Emitted g p) l.
Proof. apply Forall_impl. intros i H. exists o. exact H. Qed.

(** Every finding of a report was built by the content script or handed
    over by the helper. *)
Lemma report_issues_all (P : Issue.t -> Prop) (g : Globals) (p : Page) :
  (forall i, Emitted g p i -> P i) ->
  Forall P (externalIssues g p) ->
  Forall P (Report.issues (runA11yChecks g p)).
Proof.
  intros HP Hext. rewrite report_issues.
  destruct (externalFailure g p) as [e |] eqn:Hfail.
  - constructor; [| constructor]. apply HP. exists EntryPoint.
    now constructor.
  - destruct (externalNullish g p); [constructor |].
    assert (Hby : forall o l, Forall (EmittedBy g p o) l -> Forall P l).
    { intros o l H. apply by_emitted in H. revert H. apply Forall_impl, HP. }
    repeat (apply Forall_app; split).
    + destruct (usesBasicChecks g); [| exact Hext].
      eapply Hby, runBasicChecks_emitted.
    + eapply Hby, checkColorContrast_emitted.
    + eapply Hby, checkAriaAttributes_emitted.
    + eapply Hby, checkKeyboardNavigation_emitted.
    + eapply Hby, checkSemanticMarkup_emitted.
    + eapply Hby, checkLanguage_emitted.
Qed.

Lemma emitted_severity (g : Globals) (p : Page) (i : Issue.t) :
  Emitted g p i -> SeverityOk i.
Proof.
  intros [o H]. unfold SeverityOk.
  destruct H; simpl; auto.
Qed.

Lemma emitted_paired (g : Globals) (p : Page) (i : Issue.t) :
  Emitted g p i -> Paired i.
Proof.
  intros [o H]. unfold Paired.
  destruct H; simpl; split; intros; congruence.
Qed.

Lemma emitted_category (g : Globals) (p : Page) (i : Issue.t) :
  Emitted g p i -> In (Issue.category i) usedCategories.
Proof.
  intros [o H]. unfold usedCategories, specCategories.
  destruct H; simpl; tauto.
Qed.

(** A [system] finding built by the script comes from a [catch] handler and
    carries the message of the exception caught there. *)
Lemma emitted_system (g : Globals) (p : Page) (i : Issue.t) :
  Emitted g p i -> Issue.category i = "system" ->
  (exists e, snd (runBasicChecks_try p) = Throw e
             /\ i = systemIssue "Basic check error: " e)
  \/ (exists e, externalFailure g p = Some e
                /\ i = systemIssue "Check execution error: " e).
Proof.
  intros [o H] Hcat.
  destruct H; simpl in Hcat; try discriminate.
  - left. eauto.
  - right. eauto.
Qed.

(** *** Counting by severity *)

Lemma countSeverity_filter (severity : string) (l : list Issue.t) :
  List.length (filter (hasType severity) l) = countSeverity severity l.
Proof.
  induction l as [| i l IH]; simpl; [reflexivity |].
  unfold hasType at 1. destruct (String.eqb (Issue.type i) severity); simpl; lia.
Qed.

Lemma countSeverity_partition (l : list Issue.t) :
  Forall SeverityOk l ->
  countSeverity "error" l + countSeverity "warning" l = List.length l.
Proof.
  induction 1 as [| i l [Hi | Hi] _ IH]; simpl; [reflexivity | |];
    rewrite Hi; simpl; lia.
Qed.

(** C1: in every report of [runA11yChecks], [summary.total] is the number
    of findings, [summary.errors] the number of findings of severity error,
    [summary.warnings] the number of severity warning, and
    [errors + warnings = total].  The findings handed over by a loaded
    [A11yRuleUtils] are assumed to carry one of the two severities of the
    data model. *)
Theorem summary_counts_findings (g : Globals) (p : Page) :
  Forall SeverityOk (externalIssues g p) ->
  let report := runA11yChecks g p in
  let summary := Report.summary report in
  Summary.total summary = List.length (Report.issues report)
  /\ Summary.errors summary = countSeverity "error" (Report.issues report)
  /\ Summary.warnings summary = countSeverity "warning" (Report.issues report)
  /\ Summary.errors summary + Summary.warnings summary = Summary.total summary.
Proof.
  intros Hext report summary.
  assert (Hall : Forall SeverityOk (Report.issues report)).
  { apply report_issues_all; [apply emitted_severity | exact Hext]. }
  assert (He : Summary.errors summary
               = countSeverity "error" (Report.issues report)).
  { apply countSeverity_filter. }
  assert (Hw : Summary.warnings summary
               = countSeverity "warning" (Report.issues report)).
  { apply countSeverity_filter. }
  repeat split; try assumption; try reflexivity.
  rewrite He, Hw. now apply countSeverity_partition.
Qed.

Lemma summary_counts_findings_witness :
  let g := globalsWithRules imagesRuleUtils in
  Forall SeverityOk (externalIssues g pageWithImage)
  /\ Report.summary (runA11yChecks g pageWithImage)
     = {| Summary.total := 2; Summary.errors := 2; Summary.warnings := 0 |}
  /\ Summary.errors (Report.summary (runA11yChecks g pageWithImage))
     + Summary.warnings (Report.summary (runA11yChecks g pageWithImage))
     = Summary.total (Report.summary (runA11yChecks g pageWithImage)).
Proof.
  intros g.
  assert (H : Forall SeverityOk (externalIssues g pageWithImage)).
  { vm_compute. repeat constructor. }
  split; [exact H |]. split; [vm_compute; reflexivity |].
  apply (summary_counts_findings g pageWithImage H).
Defined.

(** C8: every finding of a report has severity error or warning, and its
    element snippet is present exactly when its selector is.  The findings
    handed over by a loaded [A11yRuleUtils] are assumed to be findings of
    the data model. *)
Theorem findings_well_formed (g : Globals) (p : Page) :
  Forall WellFormed (externalIssues g p) ->
  Forall WellFormed (Report.issues (runA11yChecks g p)).
Proof.
  apply report_issues_all. intros i H. split.
  - eapply emitted_severity, H.
  - eapply emitted_paired, H.
Qed.

Lemma findings_well_formed_witness :
  let g := globalsWithRules imagesRuleUtils in
  Forall WellFormed (externalIssues g pageWithImage)
  /\ Forall WellFormed (Report.issues (runA11yChecks g pageWithImage)).
Proof.
  intros g.
  assert (H : Forall WellFormed (externalIssues g pageWithImage)).
  { vm_compute. repeat constructor; intros; discriminate. }
  split; [exact H | apply (findings_well_formed g pageWithImage H)].
Defined.

(** The older script: whenever it returns a report, the findings are well
    formed and the summary counts them. *)
Lemma checker_findings_well_formed (p : Page) (r : Report.t) :
  Checker.runA11yChecks p = Ok r ->
  Forall WellFormed (Report.issues r)
  /\ Summary.errors (Report.summary r) + Summary.warnings (Report.summary r)
     = Summary.total (Report.summary r).
Proof.
  unfold Checker.runA11yChecks.
  destruct (Checker.runA11yChecks_body p) as [issues [[] | e |]] eqn:Hbody;
    [| discriminate ..].
  intros H. injection H as <-. simpl.
  assert (Hall : Forall WellFormed issues).
  { change issues with (issuesOf (issues, @Ok unit tt)). rewrite <- Hbody.
    assert (Hel : forall type category message el,
               type = "error" \/ type = "warning" ->
               AllIssues WellFormed
                 (Checker.pushElementIssue type category message el)).
    { intros type category message el Ht.
      apply all_bind; [apply all_eval |]. intros selector.
      apply all_push. split; [exact Ht |].
      split; intros _; discriminate. }
    unfold Checker.runA11yChecks_body, Checker.imagesAndHeadings.
    repeat (apply all_bind; [| intros _]).
    - apply all_forEach. intros img. apply Hel. now left.
    - apply all_when, all_push. split; [now right |]. split; intros H; exact H.
    - apply all_forEach. intros el. apply all_bind; [apply all_eval |].
      intros style. apply all_ret.
    - apply all_forEach. intros el. apply all_when, Hel. now right.
    - apply all_forEach. intros el. apply all_when, Hel. now left.
    - apply all_forEach. intros el. apply Hel. now right. }
  split; [exact Hall |].
  change (List.length (filter (hasType "error") issues)
          + List.length (filter (hasType "warning") issues)
          = List.length issues).
  rewrite !countSeverity_filter. apply countSeverity_partition.
  revert Hall. apply Forall_impl. now intros i [H _].
Qed.
(** *** The entry point and the exceptions *)

Lemma runA11yChecks_try_thrown (g : Globals) (p : Page) (e : ErrorValue) :
  snd (runA11yChecks_try g p) = Throw e -> externalFailure g p = Some e.
Proof.
  rewrite runA11yChecks_try_outcome.
  destruct (externalFailure g p) as [e' |].
  - intros H. now injection H as ->.
  - destruct (externalNullish g p); discriminate.
Qed.

Lemma not_system (g : Globals) (p : Page) (o : Origin) (l : list Issue.t) :
  o <> BasicChecks -> o <> EntryPoint ->
  Forall (EmittedBy g p o) l -> Forall (NotInCategory "system") l.
Proof.
  intros Hb He. apply Forall_impl. intros i H.
  destruct H; try reflexivity; congruence.
Qed.

(** C6, as stated, fails twice.  An exception raised while the checks run
    need not become a finding: without a body [getTextElements] fails on
    [document.body], the exception is caught and logged there, and the
    report holds no finding at all.  And the entry point can throw: when
    [A11yRuleUtils.runAllChecks] throws [null], reading [error.message] in
    the [catch] clause throws a TypeError that leaves [runA11yChecks]. *)
Lemma exceptions_skipped_or_escaping :
  (getTextElements_try pageWithoutBody = Throw TypeError_null
   /\ exists report,
        runA11yChecks_call (initializeDependencies nothingLoaded)
                           pageWithoutBody = Ok report
        /\ Report.issues report = [])
  /\ runA11yChecks_call (globalsWithRules nullThrowingRuleUtils) pageWithImage
     = Throw TypeError_null.
Proof.
  split; [split |].
  - reflexivity.
  - eexists. split; reflexivity.
  - reflexivity.
Qed.

(** C6, amended: [runA11yChecks] returns its report (url, timestamp,
    findings and their summary) unless [A11yRuleUtils.runAllChecks] throws
    [null] or [undefined], in which case a TypeError leaves the function.
    Any other exception that leaves the [try] block of the entry point is
    recorded as a finding of severity error and category system that
    carries its message, and is the only finding of the report.  An
    exception inside [runBasicChecks] is recorded there in the same way,
    after the findings already collected.  The five specialised checks log
    what they catch and return no finding of category system: when
    [getTextElements] throws the contrast check reports nothing, when the
    contrast evaluation of an element throws that element is skipped, and
    when the language check throws it reports nothing. *)
Theorem entry_point_catches (g : Globals) (p : Page) :
  let report := runA11yChecks g p in
  runA11yChecks_call g p
  = (if externalNullish g p then Throw TypeError_null else Ok report)
  /\ Report.url report = location_href (window p)
  /\ Report.timestamp report = now (window p)
  /\ Report.summary report = summarize (Report.issues report)
  /\ (forall e,
        snd (runA11yChecks_try g p) = Throw e ->
        Report.issues report
        = [{| Issue.type := "error";
              Issue.category := "system";
              Issue.message := [Lit "Check execution error: "; ErrorMessage e];
              Issue.element := None;
              Issue.selector := None;
              Issue.details := None |}])
  /\ (forall e,
        snd (runBasicChecks_try p) = Throw e ->
        runBasicChecks p
        = issuesOf (runBasicChecks_try p)
          ++ [{| Issue.type := "error";
                 Issue.category := "system";
                 Issue.message := [Lit "Basic check error: "; ErrorMessage e];
                 Issue.element := None;
                 Issue.selector := None;
                 Issue.details := None |}])
  /\ (snd (runBasicChecks_try p) = Ok tt ->
      runBasicChecks p = issuesOf (runBasicChecks_try p))
  /\ Forall (NotInCategory "system")
            (checkColorContrast g p ++ checkAriaAttributes p
             ++ checkKeyboardNavigation p ++ checkSemanticMarkup p
             ++ checkLanguage p)
  /\ (forall e, getTextElements_try p = Throw e -> checkColorContrast g p = [])
  /\ (forall element e,
         getContrastRatioForElement_try g element = Throw e ->
         contrastStep g element = ret tt)
  /\ (forall e, snd (checkLanguage_try p) = Throw e -> checkLanguage p = []).
Proof.
  intros report. repeat split.
  - unfold runA11yChecks_call. rewrite runA11yChecks_guarded_outcome.
    destruct (externalNullish g p); reflexivity.
  - intros e He. apply runA11yChecks_try_thrown in He.
    unfold report. rewrite report_issues, He. reflexivity.
  - intros e He. rewrite runBasicChecks_issues, He. reflexivity.
  - intros He. rewrite runBasicChecks_issues, He. apply app_nil_r.
  - repeat (apply Forall_app; split).
    + eapply (not_system g p); [..| apply checkColorContrast_emitted]; discriminate.
    + eapply (not_system g p); [..| apply checkAriaAttributes_emitted]; discriminate.
    + eapply (not_system g p); [..| apply checkKeyboardNavigation_emitted];
        discriminate.
    + eapply (not_system g p); [..| apply checkSemanticMarkup_emitted]; discriminate.
    + eapply (not_system g p); [..| apply checkLanguage_emitted]; discriminate.
  - intros e He. unfold checkColorContrast, contrastCandidates, getTextElements.
    now rewrite He.
  - intros element e He. unfold contrastStep, getContrastRatioForElement.
    now rewrite He.
  - intros e. unfold checkLanguage, checkLanguage_try.
    rewrite logged_issues, issuesOf_bind, snd_bind. unfold eval. simpl.
    destruct (nonNull (rootNode (document p))) as [html | e' |];
      [| reflexivity ..].
    intros H. rewrite when_completes in H by reflexivity. discriminate.
Qed.

Lemma entry_point_catches_witness :
  let g := globalsWithRules failingRuleUtils in
  snd (runA11yChecks_try g pageWithImage) = Throw "rules is not iterable"
  /\ runA11yChecks_call g pageWithImage = Ok (runA11yChecks g pageWithImage)
  /\ Report.issues (runA11yChecks g pageWithImage)
     = [systemIssue "Check execution error: " "rules is not iterable"].
Proof.
  intros g.
  assert (H : snd (runA11yChecks_try g pageWithImage)
              = Throw "rules is not iterable") by reflexivity.
  split; [exact H |].
  destruct (entry_point_catches g pageWithImage)
    as (Hcall & _ & _ & _ & Hcaught & _).
  split; [exact Hcall | exact (Hcaught _ H)].
Defined.

(** *** The categories *)

(** C9, as stated, fails: the fallback checks report an input without a
    label under the category [forms], which is none of the eight. *)
Lemma forms_category_outside_enum :
  ~ Forall (fun i => In (Issue.category i) specCategories)
           (Report.issues (audit rulesLoaded pageWithInput)).
Proof.
  intros H. apply Forall_inv in H. simpl in H.
  repeat (destruct H as [H | H]; [discriminate H |]). exact H.
Qed.

(** C9, amended: a finding of a report is either one that a loaded
    [A11yRuleUtils.runAllChecks] handed over, copied with the category the
    helper gave it, or one the content script built, and then its category
    is one of images, headings, contrast, aria, keyboard, semantics,
    language, system or forms, a finding of category system being built by
    a [catch] clause from the exception it caught. *)
Theorem categories_of_findings (g : Globals) (p : Page) :
  Forall (fun i =>
            In i (externalIssues g p)
            \/ (In (Issue.category i) usedCategories
                /\ (Issue.category i = "system" ->
                    (exists e, snd (runBasicChecks_try p) = Throw e
                               /\ i = systemIssue "Basic check error: " e)
                    \/ (exists e, externalFailure g p = Some e
                                  /\ i = systemIssue "Check execution error: "
                                                     e))))
         (Report.issues (runA11yChecks g p)).
Proof.
  apply report_issues_all.
  - intros i H. right. split.
    + eapply emitted_category, H.
    + eapply emitted_system, H.
  - apply Forall_forall. intros i Hi. now left.
Qed.

Lemma categories_of_findings_witness :
  Forall (fun i => In (Issue.category i) usedCategories)
         (Report.issues (runA11yChecks rulesLoaded pageWithInput)).
Proof.
  generalize (categories_of_findings rulesLoaded pageWithInput).
  apply Forall_impl. intros i [Hi | [Hi _]]; [destruct Hi | exact Hi].
Defined.

(** *** The headings check *)

Lemma ofCategory_app (c : string) (l l' : list Issue.t) :
  ofCategory c (l ++ l') = ofCategory c l ++ ofCategory c l'.
Proof. apply filter_app. Qed.

Lemma ofCategory_none (c : string) (l : list Issue.t) :
  Forall (NotInCategory c) l -> ofCategory c l = [].
Proof.
  induction 1 as [| i l Hi _ IH]; simpl; [reflexivity |].
  unfold NotInCategory in Hi. rewrite Hi. exact IH.
Qed.


Lemma usesBasicChecks_no_failure (g : Globals) (p : Page) :
  usesBasicChecks g = true -> externalFailure g p = None.
Proof.
  unfold usesBasicChecks, externalFailure.
  destruct (A11yRuleUtils g) as [utils |]; [| reflexivity].
  destruct (runAllChecks utils); [discriminate | reflexivity].
Qed.

Lemma usesBasicChecks_no_nullish (g : Globals) (p : Page) :
  usesBasicChecks g = true -> externalNullish g p = false.
Proof.
  unfold usesBasicChecks, externalNullish.
  destruct (A11yRuleUtils g) as [utils |]; [| reflexivity].
  destruct (runAllChecks utils); [discriminate | reflexivity].
Qed.

(** With the fallback checks in use, the report holds their findings and
    those of the five specialised checks. *)
Lemma report_issues_basic (g : Globals) (p : Page) :
  usesBasicChecks g = true ->
  Report.issues (runA11yChecks g p) =
  runBasicChecks p
  ++ checkColorContrast g p ++ checkAriaAttributes p
  ++ checkKeyboardNavigation p ++ checkSemanticMarkup p
  ++ checkLanguage p.
Proof.
  intros Hbasic.
  now rewrite report_issues, (usesBasicChecks_no_failure g p Hbasic),
    (usesBasicChecks_no_nullish g p Hbasic), Hbasic.
Qed.






(** With the fallback helper installed no headings check runs at all. *)
Example no_headings_no_finding :
  querySelectorAll (document pageWithoutHeadings) Checker.headings = []
  /\ Report.issues (audit nothingLoaded pageWithoutHeadings) = [].
Proof. split; reflexivity. Qed.

Example checker_reports_missing_headings :
  exists r, Checker.runA11yChecks pageWithoutHeadings = Ok r
            /\ Report.issues r = [Checker.headingsIssue].
Proof. eexists. split; reflexivity. Qed.

(** *** Visibility *)

(** C5: [isElementVisible] returns true exactly when the bounding box is
    not of width and height zero, [display] is not none, [visibility] is not
    hidden, [opacity] is not 0 and the box intersects the viewport; without a
    geometry query, or when reading the element fails, it returns false.  It
    is a total function: nothing is thrown. *)
Theorem isElementVisible_spec (w : Window) (element : Node) :
  (isElementVisible w element = true <->
   exists rect style,
     getBoundingClientRect (nodeData element) = Some rect
     /\ getComputedStyle (nodeData element) = Some style
     /\ ~ ((Rect.width rect =? 0)%float = true
           /\ (Rect.height rect =? 0)%float = true)
     /\ Style.display style <> "none"
     /\ Style.visibility style <> "hidden"
     /\ Style.opacity style <> "0"
     /\ (Rect.top rect <? innerHeight w)%float = true
     /\ (0 <? Rect.bottom rect)%float = true
     /\ (Rect.left rect <? innerWidth w)%float = true
     /\ (0 <? Rect.right rect)%float = true)
  /\ (getBoundingClientRect (nodeData element) = None ->
      isElementVisible w element = false)
  /\ (forall e, isElementVisible_try w element = Throw e ->
                isElementVisible w element = false).
Proof.
  unfold isElementVisible, isElementVisible_try, gt.
  destruct (getBoundingClientRect (nodeData element)) as [rect |];
    destruct (getComputedStyle (nodeData element)) as [style |]; simpl.
  - split; [| split; [discriminate | discriminate]].
    rewrite !andb_true_iff, !negb_true_iff, !String.eqb_neq. split.
    + intros [[[[[[[Hbox Hd] Hv] Ho] Ht] Hb] Hl] Hr].
      exists rect, style. repeat split; try assumption.
      intros [Hw Hh]. rewrite Hw, Hh in Hbox. discriminate.
    + intros (rect' & style' & Hrect & Hstyle & Hbox & Hd & Hv & Ho
              & Ht & Hb & Hl & Hr).
      injection Hrect as <-. injection Hstyle as <-.
      repeat split; try assumption.
      destruct (Rect.width rect =? 0)%float; [| reflexivity].
      destruct (Rect.height rect =? 0)%float; [| reflexivity].
      exfalso. apply Hbox. split; reflexivity.
  - split; [| split; [discriminate | reflexivity]].
    split; [discriminate |].
    intros (rect' & style' & _ & Hstyle & _). discriminate.
  - split; [| split; [reflexivity | discriminate]].
    split; [discriminate |].
    intros (rect' & style' & Hrect & _). discriminate.
  - split; [| split; [reflexivity | discriminate]].
    split; [discriminate |].
    intros (rect' & style' & Hrect & _). discriminate.
Qed.

Lemma isElementVisible_spec_witness :
  isElementVisible window0 nodeWithBadTabindex = true
  /\ exists rect style,
       getBoundingClientRect (nodeData nodeWithBadTabindex) = Some rect
       /\ getComputedStyle (nodeData nodeWithBadTabindex) = Some style
       /\ Style.display style <> "none"
       /\ (Rect.top rect <? innerHeight window0)%float = true.
Proof.
  assert (H : isElementVisible window0 nodeWithBadTabindex = true)
    by reflexivity.
  split; [exact H |].
  destruct (proj1 (proj1 (isElementVisible_spec window0 nodeWithBadTabindex)) H)
    as (rect & style & Hrect & Hstyle & _ & Hd & _ & _ & Ht & _).
  exists rect, style. repeat split; assumption.
Defined.

(** An element below the viewport, and one without geometry, are not
    visible. *)
Example below_viewport_not_visible :
  let below := {| Rect.top := 800; Rect.bottom := 820; Rect.left := 10;
                  Rect.right := 110; Rect.width := 100; Rect.height := 20 |} in
  let at_ rect :=
    {| elem := mkElement
                 {| localName := "p"; svg := false; attributes := [];
                    outerHTML := "<p></p>";
                    textContent := ""; innerText := "";
                    getBoundingClientRect := rect;
                    getComputedStyle := Some style0; disabled := false |} [];
       ancestors := [] |} in
  isElementVisible window0 (at_ (Some below)) = false
  /\ isElementVisible window0 (at_ None) = false
  /\ isElementVisible window0 (at_ (Some rect0)) = true.
Proof. repeat split. Qed.

(** *** Keyboard check *)

(** C10: for an element whose [tabindex] attribute is present and is read
    by [parseInt] as NaN, neither loop of the keyboard check pushes a finding
    (or throws): NaN is not below -1, and the attribute is not [null].  This
    holds whether or not the element is visible. *)
Theorem unparseable_tabindex_no_finding (w : Window) (el : Node) (s : string) :
  getAttribute el "tabindex" = Some s ->
  parseInt s = nan ->
  tabindexStep w el = ret tt /\ interactiveStep w el = ret tt.
Proof.
  intros Hattr Hnan. unfold tabindexStep, interactiveStep.
  rewrite Hattr. simpl toStringOrNull. rewrite Hnan.
  destruct (isElementVisible w el); split; reflexivity.
Qed.

Lemma unparseable_tabindex_no_finding_witness :
  isElementVisible window0 nodeWithBadTabindex = true
  /\ getAttribute nodeWithBadTabindex "tabindex" = Some "abc"
  /\ parseInt "abc" = nan
  /\ tabindexStep window0 nodeWithBadTabindex = ret tt
  /\ interactiveStep window0 nodeWithBadTabindex = ret tt.
Proof.
  split; [reflexivity |]. split; [reflexivity |]. split; [reflexivity |].
  apply (unparseable_tabindex_no_finding window0 nodeWithBadTabindex "abc");
    reflexivity.
Defined.

(** On a page the element is matched by both queries of the check and the
    check reports nothing. *)
Example unparseable_tabindex_page :
  let p := pageOf (htmlAround divWithBadTabindex) in
  List.length (querySelectorAll (document p) [attr "tabindex"]) = 1
  /\ List.length (querySelectorAll (document p) interactive) = 1
  /\ checkKeyboardNavigation p = [].
Proof. repeat split. Qed.

(** A parseable value below -1 is reported. *)
Example tabindex_below_minus_one :
  let div := el "div" [("tabindex", "-5")] "Go" [] in
  let p := pageOf (htmlAround div) in
  map Issue.message (checkKeyboardNavigation p) = [text "Invalid tabindex value"].
Proof. reflexivity. Qed.
(** *** Background colour *)

Lemma list_ascii_of_string_app (s s' : string) :
  list_ascii_of_string (s ++ s')
  = list_ascii_of_string s ++ list_ascii_of_string s'.
Proof. induction s as [| c s IH]; simpl; [reflexivity | now rewrite IH]. Qed.

(** **** Runs of characters *)

Lemma takeWhile_dropWhile {A} (p : A -> bool) (l : list A) :
  takeWhile p l ++ dropWhile p l = l.
Proof.
  induction l as [| x l IH]; simpl; [reflexivity |].
  destruct (p x); simpl; [now rewrite IH | reflexivity].
Qed.

Lemma takeWhile_all {A} (p : A -> bool) (l : list A) :
  forallb p (takeWhile p l) = true.
Proof.
  induction l as [| x l IH]; simpl; [reflexivity |].
  destruct (p x) eqn:Hx; simpl; [now rewrite Hx | reflexivity].
Qed.

Lemma takeWhile_app_stop {A} (p : A -> bool) (l : list A) (x : A) (rest : list A) :
  forallb p l = true -> p x = false ->
  takeWhile p (l ++ x :: rest) = l /\ dropWhile p (l ++ x :: rest) = x :: rest.
Proof.
  intros Hl Hx. induction l as [| a l IH]; simpl in *.
  - now rewrite Hx.
  - apply andb_true_iff in Hl. destruct Hl as [Ha Hl]. rewrite Ha.
    destruct (IH Hl) as [IH1 IH2]. now rewrite IH1, IH2.
Qed.

Lemma digits1_run (ds : list ascii) (x : ascii) (rest : list ascii) :
  ds <> [] -> forallb isDigit ds = true -> isDigit x = false ->
  digits1 (ds ++ x :: rest) = Some (x :: rest).
Proof.
  intros Hne Hds Hx. unfold digits1.
  destruct (takeWhile_app_stop isDigit ds x rest Hds Hx) as [Ht Hd].
  rewrite Ht, Hd. destruct ds; [contradiction | reflexivity].
Qed.

Lemma digits1_inv (l r : list ascii) :
  digits1 l = Some r ->
  exists ds, l = ds ++ r /\ ds <> [] /\ forallb isDigit ds = true.
Proof.
  unfold digits1. intros H. exists (takeWhile isDigit l).
  destruct (takeWhile isDigit l) as [| d ds] eqn:Hrun; [discriminate |].
  injection H as <-. rewrite <- Hrun. split; [| split].
  - symmetry. apply takeWhile_dropWhile.
  - rewrite Hrun. discriminate.
  - apply takeWhile_all.
Qed.

Lemma expect_inv (p l r : list ascii) : expect p l = Some r -> l = p ++ r.
Proof.
  revert l. induction p as [| a p IH]; intros l H; simpl in *.
  - now injection H as ->.
  - destruct l as [| b l]; [discriminate |].
    destruct (Ascii.eqb a b) eqn:Hab; [| discriminate].
    apply Ascii.eqb_eq in Hab. subst b. now rewrite (IH l H).
Qed.

Lemma expect_app (p r : list ascii) : expect p (p ++ r) = Some r.
Proof.
  induction p as [| a p IH]; simpl; [reflexivity |].
  now rewrite Ascii.eqb_refl.
Qed.

(** **** The character classes of the pattern *)

Lemma isDigit_digitChars (c : ascii) :
  isDigit c = existsb (Ascii.eqb c) digitChars.
Proof. destruct c as [[] [] [] [] [] [] [] []]; reflexivity. Qed.

Lemma isDigit_In (c : ascii) : isDigit c = true <-> In c digitChars.
Proof.
  rewrite isDigit_digitChars, existsb_exists. split.
  - intros (x & Hin & Heq). apply Ascii.eqb_eq in Heq. now subst x.
  - intros H. exists c. split; [exact H | apply Ascii.eqb_refl].
Qed.

Lemma isDigitOrDot_In (c : ascii) :
  isDigitOrDot c = true <-> In c digitChars \/ c = "."%char.
Proof.
  unfold isDigitOrDot. now rewrite orb_true_iff, isDigit_In, Ascii.eqb_eq.
Qed.

Lemma forallb_Forall {A} (p : A -> bool) (P : A -> Prop) (l : list A) :
  (forall x, p x = true <-> P x) -> forallb p l = true <-> Forall P l.
Proof.
  intros H. rewrite forallb_forall, Forall_forall.
  split; intros Hall x Hx; apply H, Hall, Hx.
Qed.

Lemma Digits_run (l : list ascii) :
  Digits l <-> l <> [] /\ forallb isDigit l = true.
Proof. unfold Digits. now rewrite (forallb_Forall _ _ l isDigit_In). Qed.

Lemma DigitsAndDots_run (l : list ascii) :
  DigitsAndDots l <-> l <> [] /\ forallb isDigitOrDot l = true.
Proof.
  unfold DigitsAndDots. now rewrite (forallb_Forall _ _ l isDigitOrDot_In).
Qed.

Lemma Blank_run (l : list ascii) : Blank l <-> forallb isWhiteSpace l = true.
Proof.
  unfold Blank. symmetry. apply forallb_Forall. intros x. reflexivity.
Qed.

Lemma digit_not_space (c : ascii) : isDigit c = true -> isWhiteSpace c = false.
Proof. destruct c as [[] [] [] [] [] [] [] []]; (discriminate || reflexivity). Qed.

(** White space before a run of digits is skipped. *)
Lemma skip_blank (w ds rest : list ascii) :
  forallb isWhiteSpace w = true -> ds <> [] -> forallb isDigit ds = true ->
  dropWhile isWhiteSpace (w ++ ds ++ rest) = ds ++ rest.
Proof.
  intros Hw Hne Hds. destruct ds as [| d ds]; [contradiction |].
  simpl in Hds. apply andb_true_iff in Hds.
  apply (takeWhile_app_stop isWhiteSpace w d (ds ++ rest) Hw).
  apply digit_not_space, Hds.
Qed.

(** **** The pattern matched at a place *)

Lemma matchRgbaAt_complete (l A : list ascii) :
  RgbaAt l A -> matchRgbaAt l = Some (string_of_list_ascii A).
Proof.
  intros H. destruct H as [R G B A w1 w2 w3 rest HR HG HB HA H1 H2 H3].
  apply Digits_run in HR, HG, HB. apply DigitsAndDots_run in HA.
  apply Blank_run in H1, H2, H3.
  destruct HR as [Rne HR], HG as [Gne HG], HB as [Bne HB], HA as [Ane HA].
  assert (Hcomma : forall rest',
             expect [","%char] (","%char :: rest') = Some rest')
    by reflexivity.
  unfold matchRgbaAt. rewrite expect_app. cbn [obind].
  rewrite (digits1_run R ","%char _ Rne HR eq_refl). cbn [obind].
  rewrite Hcomma. cbn [obind].
  rewrite (skip_blank w1 G _ H1 Gne HG).
  rewrite (digits1_run G ","%char _ Gne HG eq_refl). cbn [obind].
  rewrite Hcomma. cbn [obind].
  rewrite (skip_blank w2 B _ H2 Bne HB).
  rewrite (digits1_run B ","%char _ Bne HB eq_refl). cbn [obind].
  rewrite Hcomma. cbn [obind]. cbv zeta.
  assert (Hskip : dropWhile isWhiteSpace (w3 ++ A ++ ")"%char :: rest)
                  = A ++ ")"%char :: rest).
  { destruct A as [| a A]; [contradiction |].
    simpl in HA. apply andb_true_iff in HA.
    apply (takeWhile_app_stop isWhiteSpace w3 a (A ++ ")"%char :: rest) H3).
    destruct HA as [Ha _]. revert Ha.
    destruct a as [[] [] [] [] [] [] [] []]; (discriminate || reflexivity). }
  rewrite Hskip.
  destruct (takeWhile_app_stop isDigitOrDot A ")"%char rest HA eq_refl)
    as [Ht Hd].
  rewrite Ht, Hd. destruct A as [| a A]; [contradiction |].
  reflexivity.
Qed.

Lemma matchRgbaAt_sound (l : list ascii) (a : string) :
  matchRgbaAt l = Some a ->
  exists A, RgbaAt l A /\ a = string_of_list_ascii A.
Proof.
  unfold matchRgbaAt. intros H.
  destruct (expect (list_ascii_of_string "rgba(") l) as [l1 |] eqn:E1;
    [| discriminate].
  cbn [obind] in H.
  destruct (digits1 l1) as [l2 |] eqn:ER; [| discriminate]. cbn [obind] in H.
  destruct (expect [","%char] l2) as [l3 |] eqn:E2; [| discriminate].
  cbn [obind] in H.
  destruct (digits1 (dropWhile isWhiteSpace l3)) as [l4 |] eqn:EG;
    [| discriminate].
  cbn [obind] in H.
  destruct (expect [","%char] l4) as [l5 |] eqn:E3; [| discriminate].
  cbn [obind] in H.
  destruct (digits1 (dropWhile isWhiteSpace l5)) as [l6 |] eqn:EB;
    [| discriminate].
  cbn [obind] in H.
  destruct (expect [","%char] l6) as [l7 |] eqn:E4; [| discriminate].
  cbn [obind] in H. cbv zeta in H.
  destruct (takeWhile isDigitOrDot (dropWhile isWhiteSpace l7))
    as [| g gs] eqn:EA; [discriminate |].
  destruct (expect [")"%char]
              (dropWhile isDigitOrDot (dropWhile isWhiteSpace l7)))
    as [rest |] eqn:E5; [| discriminate].
  injection H as <-. exists (g :: gs). split; [| reflexivity].
  apply expect_inv in E1, E2, E3, E4, E5.
  apply digits1_inv in ER, EG, EB.
  destruct ER as (R & ER & Rne & HR), EG as (G & EG & Gne & HG),
           EB as (B & EB & Bne & HB).
  assert (HA : forallb isDigitOrDot (g :: gs) = true).
  { rewrite <- EA. apply takeWhile_all. }
  assert (EA' : dropWhile isWhiteSpace l7 = (g :: gs) ++ ")"%char :: rest).
  { rewrite <- (takeWhile_dropWhile isDigitOrDot (dropWhile isWhiteSpace l7)).
    now rewrite EA, E5. }
  assert (El : l = list_ascii_of_string "rgba(" ++ R ++ ","%char
                     :: takeWhile isWhiteSpace l3 ++ G ++ ","%char
                     :: takeWhile isWhiteSpace l5 ++ B ++ ","%char
                     :: takeWhile isWhiteSpace l7 ++ (g :: gs)
                     ++ ")"%char :: rest).
  { rewrite <- EA', (takeWhile_dropWhile isWhiteSpace l7).
    change (","%char :: l7) with ([","%char] ++ l7). rewrite <- E4, <- EB.
    rewrite (takeWhile_dropWhile isWhiteSpace l5).
    change (","%char :: l5) with ([","%char] ++ l5). rewrite <- E3, <- EG.
    rewrite (takeWhile_dropWhile isWhiteSpace l3).
    change (","%char :: l3) with ([","%char] ++ l3). rewrite <- E2, <- ER.
    exact E1. }
  rewrite El. constructor.
  - apply Digits_run. now split.
  - apply Digits_run. now split.
  - apply Digits_run. now split.
  - apply DigitsAndDots_run. split; [discriminate | exact HA].
  - apply Blank_run, takeWhile_all.
  - apply Blank_run, takeWhile_all.
  - apply Blank_run, takeWhile_all.
Qed.

(** **** The first place where the pattern matches *)

Lemma matchRgba_eq (l : list ascii) :
  matchRgba l =
  match matchRgbaAt l with
  | Some g => Some g
  | None => match l with [] => None | _ :: rest => matchRgba rest end
  end.
Proof. destruct l; reflexivity. Qed.

Lemma matchRgba_first (before from A : list ascii) :
  RgbaAt from A ->
  (forall before' from' A',
      before ++ from = before' ++ from' ->
      List.length before' < List.length before -> ~ RgbaAt from' A') ->
  matchRgba (before ++ from) = Some (string_of_list_ascii A).
Proof.
  intros Hat. induction before as [| c before IH]; intros Hfirst.
  - rewrite matchRgba_eq. simpl app.
    now rewrite (matchRgbaAt_complete _ _ Hat).
  - rewrite matchRgba_eq.
    destruct (matchRgbaAt ((c :: before) ++ from)) as [a |] eqn:Hhere.
    + apply matchRgbaAt_sound in Hhere. destruct Hhere as (A' & Hat' & _).
      exfalso. apply (Hfirst [] _ A' eq_refl); [simpl; lia | exact Hat'].
    + simpl app. apply IH. intros before' from' A' Heq Hlen.
      apply (Hfirst (c :: before')); [simpl; now rewrite Heq | simpl; lia].
Qed.

Lemma matchRgba_none (l : list ascii) : NoRgbaIn l -> matchRgba l = None.
Proof.
  induction l as [| c l IH]; intros Hno; [reflexivity |].
  rewrite matchRgba_eq.
  destruct (matchRgbaAt (c :: l)) as [a |] eqn:Hhere.
  - apply matchRgbaAt_sound in Hhere. destruct Hhere as (A & Hat & _).
    exfalso. exact (Hno [] _ A eq_refl Hat).
  - apply IH. intros before from A Heq.
    apply (Hno (c :: before)). simpl. now rewrite Heq.
Qed.

Lemma matchRgba_sound (l : list ascii) (a : string) :
  matchRgba l = Some a ->
  exists A, FirstRgbaIn l A /\ a = string_of_list_ascii A.
Proof.
  induction l as [| c l IH]; [discriminate |].
  rewrite matchRgba_eq.
  destruct (matchRgbaAt (c :: l)) as [a' |] eqn:Hhere.
  - intros H. injection H as ->.
    destruct (matchRgbaAt_sound _ _ Hhere) as (A & Hat & Ha).
    exists A. split; [| exact Ha].
    exists [], (c :: l). split; [reflexivity |]. split; [exact Hat |].
    intros before' from' A' _ Hlen. simpl in Hlen. lia.
  - intros H. destruct (IH H) as (A & (before & from & Heq & Hat & Hfirst) & Ha).
    exists A. split; [| exact Ha].
    exists (c :: before), from. split; [simpl; now rewrite Heq |].
    split; [exact Hat |].
    intros before' from' A' Heq' Hlen Hat'.
    destruct before' as [| c' before'].
    + simpl in Heq'. subst from'.
      apply matchRgbaAt_complete in Hat'. congruence.
    + simpl in Heq'. injection Heq' as _ Heq'.
      apply (Hfirst before' from' A' Heq'); [simpl in Hlen; lia | exact Hat'].
Qed.

Lemma matchRgba_none_inv (l : list ascii) : matchRgba l = None -> NoRgbaIn l.
Proof.
  induction l as [| c l IH]; intros H before from A Heq Hat.
  - apply matchRgbaAt_complete in Hat.
    destruct before; [| discriminate]. simpl in Heq. subst from. discriminate.
  - rewrite matchRgba_eq in H.
    destruct (matchRgbaAt (c :: l)) as [a |] eqn:Hhere; [discriminate |].
    destruct before as [| c' before].
    + simpl in Heq. subst from.
      apply matchRgbaAt_complete in Hat. congruence.
    + simpl in Heq. injection Heq as _ Heq.
      exact (IH H before from A Heq Hat).
Qed.

(** **** The alpha of a colour text *)

Lemma alpha_of_code (colour : string) :
  AlphaOf colour (getAlphaFromColor colour).
Proof.
  unfold getAlphaFromColor.
  destruct (startsWith "rgba" colour) eqn:Hstart;
    [| apply Alpha_other; now left].
  destruct (matchRgba (list_ascii_of_string colour)) as [a |] eqn:Hmatch.
  - destruct (matchRgba_sound _ _ Hmatch) as (A & Hfirst & ->).
    now apply Alpha_rgba.
  - apply Alpha_other. right. now apply matchRgba_none_inv.
Qed.

Lemma alpha_unique (colour : string) (alpha : float) :
  AlphaOf colour alpha -> alpha = getAlphaFromColor colour.
Proof.
  unfold getAlphaFromColor.
  intros [A Hstart (before & from & Heq & Hat & Hfirst) | [Hstart | Hno]].
  - rewrite Hstart, Heq. rewrite Heq in Hfirst.
    now rewrite (matchRgba_first before from A Hat Hfirst).
  - now rewrite Hstart.
  - rewrite (matchRgba_none _ Hno). now destruct (startsWith "rgba" colour).
Qed.

(** The test of the loop is the acceptance test of the specification. *)
Lemma opaqueEnough_Accepted (colour : string) :
  opaqueEnough colour = true <-> Accepted colour.
Proof.
  unfold opaqueEnough, Accepted, truthy, gt, transparentSentinels.
  rewrite !andb_true_iff, !negb_true_iff, !String.eqb_neq. split.
  - intros [[[Hne H1] H2] Halpha]. split; [exact Hne |]. split.
    + simpl. intros [E | [E | []]]; congruence.
    + exists (getAlphaFromColor colour). split; [apply alpha_of_code | exact Halpha].
  - intros (Hne & Hsent & alpha & Hof & Halpha).
    apply alpha_unique in Hof. subst alpha.
    repeat split; try assumption; intros E; apply Hsent; simpl; auto.
Qed.

Lemma not_opaqueEnough (colour : string) :
  opaqueEnough colour = false -> ~ Accepted colour.
Proof. intros H Hacc. apply opaqueEnough_Accepted in Hacc. congruence. Qed.

(** **** The walk *)

Lemma findBackground_resolves (currentElement : Element)
      (parents : list Element) :
  Forall hasStyle (removelast (currentElement :: parents)) ->
  exists found,
    findBackground currentElement parents = Ok found
    /\ ResolvesTo (removelast (currentElement :: parents))
                  (match found with
                   | Some colour => colour
                   | None => "rgb(255, 255, 255)"
                   end)
    /\ (forall colour, found = Some colour -> Accepted colour).
Proof.
  revert currentElement.
  induction parents as [| parentElement rest IH]; intros currentElement Hall.
  - exists None. split; [reflexivity |]. split; [| discriminate].
    apply Resolves_white; [constructor | reflexivity].
  - change (removelast (currentElement :: parentElement :: rest))
      with (currentElement :: removelast (parentElement :: rest)) in *.
    apply Forall_cons_iff in Hall. destruct Hall as [Hcur Hrest].
    destruct (IH parentElement Hrest) as (found & Hfound & Hres & Hacc).
    remember (removelast (parentElement :: rest)) as chain.
    unfold hasStyle in Hcur.
    destruct (getComputedStyle (data currentElement)) as [style |] eqn:Hstyle;
      [| contradiction].
    assert (Hbg : backgroundOf currentElement = Style.backgroundColor style).
    { unfold backgroundOf. now rewrite Hstyle. }
    simpl. rewrite Hstyle. simpl.
    destruct (opaqueEnough (Style.backgroundColor style)) eqn:Hop.
    + apply opaqueEnough_Accepted in Hop.
      exists (Some (Style.backgroundColor style)).
      split; [reflexivity |]. split.
      * apply (Resolves_first _ _ [] currentElement chain);
          [reflexivity | constructor | now rewrite Hbg | now rewrite Hbg].
      * intros colour H. now injection H as <-.
    + apply not_opaqueEnough in Hop. rewrite <- Hbg in Hop.
      exists found. split; [exact Hfound |]. split; [| exact Hacc].
      destruct Hres as [skipped e rest' Hchain Hskipped He Hcolour
                       | Hnone Hcolour].
      * apply (Resolves_first _ _ (currentElement :: skipped) e rest');
          [simpl; now rewrite Hchain | now constructor | exact He
           | exact Hcolour].
      * apply Resolves_white; [now constructor | exact Hcolour].
Qed.

(** C3, as stated, fails: the walk starts at the element itself, so an
    element with an opaque background of its own resolves to that colour and
    not to the colour of its first ancestor with one. *)
Lemma own_background_resolved :
  Forall hasStyle (chainBelowRoot redOnBlue)
  /\ getBackgroundColor redOnBlue = Ok "rgb(255, 0, 0)"
  /\ ResolvesTo (ancestorsBelowRoot redOnBlue) "rgb(0, 0, 255)"
  /\ ~ ResolvesTo (ancestorsBelowRoot redOnBlue) "rgb(255, 0, 0)".
Proof.
  assert (Hblue : Accepted "rgb(0, 0, 255)").
  { split; [discriminate |]. split.
    - simpl. intros [E | [E | []]]; discriminate.
    - exists 1%float. split; [apply Alpha_other; now left | reflexivity]. }
  split; [| split; [| split]].
  - simpl. repeat constructor; discriminate.
  - reflexivity.
  - eapply (Resolves_first _ _ []); [reflexivity | constructor | exact Hblue
                                    | reflexivity].
  - intros [skipped e rest Hchain Hskipped He Hcolour | Hnone Hcolour].
    + destruct skipped as [| x skipped].
      * simpl in Hchain. injection Hchain as <- _. discriminate.
      * simpl in Hchain. injection Hchain as _ Hchain.
        destruct skipped; discriminate.
    + discriminate.
Qed.

(** C3, amended: [getBackgroundColor] walks the chain that starts at the
    element itself and goes on through its ancestors, the document root
    left out, and returns the first background colour of the chain that is
    present, is not a fully transparent sentinel and has an alpha above
    0.1, or white when the chain has none.  The alpha of a colour text that
    begins with rgba and holds the form [rgba(r,g,b,a)] is the number its
    alpha text denotes; the alpha of every other text is 1. *)
Theorem background_resolution :
  (forall n,
      Forall hasStyle (chainBelowRoot n) ->
      exists colour,
        getBackgroundColor n = Ok colour
        /\ ResolvesTo (chainBelowRoot n) colour)
  /\ (forall colour, AlphaOf colour (getAlphaFromColor colour))
  /\ (forall colour alpha,
         AlphaOf colour alpha -> alpha = getAlphaFromColor colour).
Proof.
  split; [| split; [exact alpha_of_code | exact alpha_unique]].
  intros n Hall. unfold getBackgroundColor, chainBelowRoot in *.
  destruct (findBackground_resolves _ _ Hall) as (found & Hfound & Hres & Hacc).
  rewrite Hfound. simpl rbind.
  destruct found as [colour |].
  - exists colour. split; [| exact Hres].
    destruct (Hacc colour eq_refl) as (Hne & _).
    unfold truthy. apply String.eqb_neq in Hne. now rewrite Hne.
  - exists "rgb(255, 255, 255)". split; [reflexivity | exact Hres].
Qed.

Lemma background_resolution_witness :
  Forall hasStyle (chainBelowRoot layeredSpan)
  /\ getBackgroundColor layeredSpan = Ok "rgb(0, 0, 255)"
  /\ exists colour,
       getBackgroundColor layeredSpan = Ok colour
       /\ ResolvesTo (chainBelowRoot layeredSpan) colour.
Proof.
  assert (H : Forall hasStyle (chainBelowRoot layeredSpan)).
  { simpl. repeat constructor; discriminate. }
  split; [exact H |]. split; [reflexivity |].
  apply (proj1 background_resolution layeredSpan H).
Defined.

(** The alpha of some colour texts. *)
Example alpha_examples :
  map getAlphaFromColor
      ["rgba(0, 0, 0, 0.5)"; "rgba(1,2,3,.25)"; "rgb(1, 2, 3)"; "#fff";
       "rgba(1 2 3 / 0.5)"; "transparent"]
  = [0.5; 0.25; 1; 1; 1; 1]%float.
Proof. reflexivity. Qed.

(** The element's own background counts, and the root's does not. *)
Example own_background_first :
  let root := styled (styleWith "rgb(0, 0, 0)" "16px" "400") "html" [] "" [] in
  let p colour := styled (styleWith colour "16px" "400") "p" [] "" [] in
  getBackgroundColor {| elem := p "rgb(255, 0, 0)"; ancestors := [root] |}
  = Ok "rgb(255, 0, 0)"
  /\ getBackgroundColor {| elem := p "transparent"; ancestors := [root] |}
     = Ok "rgb(255, 255, 255)"
  /\ getBackgroundColor {| elem := root; ancestors := [] |}
     = Ok "rgb(255, 255, 255)".
Proof. repeat split. Qed.

(** *** Contrast *)

Lemma three_is_not_four_and_a_half : 3%float <> 4.5%float.
Proof.
  intros H. pose proof (f_equal (fun x => (x =? 3)%float) H) as E.
  vm_compute in E. discriminate E.
Qed.

Lemma isLargeText_LargeText (fontSize fontWeight : float) :
  isLargeText fontSize fontWeight = true <-> LargeText fontSize fontWeight.
Proof.
  unfold isLargeText, LargeText, ge.
  rewrite orb_true_iff, andb_true_iff. reflexivity.
Qed.

Lemma getBackgroundColor_truthy (n : Node) (colour : string) :
  getBackgroundColor n = Ok colour -> truthy colour = true.
Proof.
  unfold getBackgroundColor.
  destruct (findBackground (elem n) (ancestors n)) as [[c |] | e |]; simpl;
    intros H; try discriminate; injection H as <-; [| reflexivity].
  destruct (truthy c) eqn:Hc; [exact Hc | reflexivity].
Qed.

(** What a result of the evaluator holds. *)
Lemma contrast_result_fields (g : Globals) (element : Node)
      (r : ContrastResult.t) :
  getContrastRatioForElement g element = Some r ->
  ContrastResult.requiredAARatio r
  = getRequiredContrastRatio (ContrastResult.fontSize r)
                             (ContrastResult.fontWeight r)
  /\ ContrastResult.requiredAAARatio r
     = (if (ContrastResult.requiredAARatio r =? 3)%float
        then 4.5%float else 7%float)
  /\ ContrastResult.meetsAA r
     = (ContrastResult.requiredAARatio r <=? ContrastResult.ratio r)%float
  /\ ContrastResult.meetsAAA r
     = (ContrastResult.requiredAAARatio r <=? ContrastResult.ratio r)%float.
Proof.
  unfold getContrastRatioForElement, getContrastRatioForElement_try.
  destruct (getComputedStyle (nodeData element)) as [style |];
    simpl; [| discriminate].
  destruct (getBackgroundColor element) as [backgroundColor | e |];
    simpl; [| discriminate ..].
  destruct (negb (truthy (Style.color style)) || negb (truthy backgroundColor));
    [discriminate |].
  destruct (ColorUtils g) as [utils |]; simpl; [| discriminate].
  destruct (calculateContrastRatio utils _ _) as [contrastRatio | e |];
    simpl; [| discriminate ..].
  destruct (suggestContrastImprovements utils _ _ _) as [suggestions | e |];
    simpl; [| discriminate ..].
  intros H. injection H as <-. simpl. repeat split.
Qed.

(** C2: a result of the contrast evaluator requires the AA ratio 3 when the
    text is large (font size at least 24px, or at least 18.66px with a font
    weight of at least 700) and 4.5 otherwise; its AAA ratio is 4.5 when the
    AA ratio is 3 and 7 otherwise; [meetsAA] and [meetsAAA] tell whether the
    computed ratio is at least the required one.  The evaluator returns a
    result for every element whose text colour and background resolve, when
    [ColorUtils] returns.  With a ratio of 4.4, text of 16px and normal
    weight fails AA and text of 25px passes it. *)
Theorem contrast_evaluator :
  (forall g element r,
      getContrastRatioForElement g element = Some r ->
      let fontSize := ContrastResult.fontSize r in
      let fontWeight := ContrastResult.fontWeight r in
      (LargeText fontSize fontWeight ->
       ContrastResult.requiredAARatio r = 3%float
       /\ ContrastResult.requiredAAARatio r = 4.5%float)
      /\ (~ LargeText fontSize fontWeight ->
          ContrastResult.requiredAARatio r = 4.5%float
          /\ ContrastResult.requiredAAARatio r = 7%float)
      /\ (ContrastResult.requiredAARatio r = 3%float
          <-> LargeText fontSize fontWeight)
      /\ (ContrastResult.meetsAA r = true <->
          (ContrastResult.requiredAARatio r <=? ContrastResult.ratio r)%float
          = true)
      /\ (ContrastResult.meetsAAA r = true <->
          (ContrastResult.requiredAAARatio r <=? ContrastResult.ratio r)%float
          = true))
  /\ (forall g element style backgroundColor utils ratio suggestions,
         getComputedStyle (nodeData element) = Some style ->
         truthy (Style.color style) = true ->
         getBackgroundColor element = Ok backgroundColor ->
         ColorUtils g = Some utils ->
         calculateContrastRatio utils (Style.color style) backgroundColor
         = Ok ratio ->
         suggestContrastImprovements utils (Style.color style) backgroundColor
           (getRequiredContrastRatio
              (parseFloat (Style.fontSize style))
              (orElse (parseInt (Style.fontWeight style)) 400))
         = Ok suggestions ->
         exists r,
           getContrastRatioForElement g element = Some r
           /\ ContrastResult.ratio r = ratio
           /\ ContrastResult.fontSize r = parseFloat (Style.fontSize style)
           /\ ContrastResult.fontWeight r
              = orElse (parseInt (Style.fontWeight style)) 400)
  /\ (let g := globalsWith (constantColorUtils 4.4) in
      option_map (fun r => (ContrastResult.fontSize r,
                            ContrastResult.fontWeight r,
                            ContrastResult.requiredAARatio r,
                            ContrastResult.meetsAA r))
                 (getContrastRatioForElement g (paragraph "16px"))
      = Some (16, 400, 4.5, false)%float
      /\ option_map (fun r => (ContrastResult.fontSize r,
                               ContrastResult.fontWeight r,
                               ContrastResult.requiredAARatio r,
                               ContrastResult.meetsAA r))
                    (getContrastRatioForElement g (paragraph "25px"))
         = Some (25, 400, 3, true)%float).
Proof.
  split; [| split].
  - intros g element r Hr fontSize fontWeight.
    destruct (contrast_result_fields g element r Hr)
      as (Haa & Haaa & Hmeets & Hmeets').
    fold fontSize fontWeight in Haa.
    unfold getRequiredContrastRatio in Haa.
    pose proof (isLargeText_LargeText fontSize fontWeight) as Hlarge.
    rewrite Hmeets, Hmeets'.
    destruct (isLargeText fontSize fontWeight).
    + assert (L : LargeText fontSize fontWeight) by now apply Hlarge.
      rewrite Haaa, Haa. repeat split; auto; try tauto.
    + assert (L : ~ LargeText fontSize fontWeight).
      { intros L. apply Hlarge in L. discriminate. }
      rewrite Haaa, Haa. repeat split; auto; try tauto.
      intros E. exfalso. now apply three_is_not_four_and_a_half.
  - intros g element style backgroundColor utils ratio suggestions
           Hstyle Hcolor Hbg Hutils Hratio Hsugg.
    unfold getContrastRatioForElement, getContrastRatioForElement_try.
    rewrite Hstyle. simpl. rewrite Hbg. simpl.
    rewrite Hcolor, (getBackgroundColor_truthy _ _ Hbg). simpl.
    rewrite Hutils. simpl. rewrite Hratio. simpl. rewrite Hsugg. simpl.
    eexists. repeat split.
  - split; reflexivity.
Qed.

Lemma contrast_evaluator_witness :
  let g := globalsWith (constantColorUtils 4.4) in
  exists r,
    getContrastRatioForElement g (paragraph "25px") = Some r
    /\ LargeText (ContrastResult.fontSize r) (ContrastResult.fontWeight r)
    /\ ContrastResult.requiredAARatio r = 3%float
    /\ ContrastResult.requiredAAARatio r = 4.5%float.
Proof.
  intros g. eexists. split; [reflexivity |].
  assert (L : LargeText 25 400) by (left; reflexivity).
  split; [exact L |].
  apply (proj1 (proj1 contrast_evaluator g (paragraph "25px") _ eq_refl) L).
Defined.

(** The thresholds at their edges. *)
Example required_ratio_edges :
  map (fun '(size, weight) => getRequiredContrastRatio size weight)
      [(24, 400); (23.99, 400); (18.66, 700); (18.66, 699); (18.65, 700);
       (nan, 900)]%float
  = [3; 4.5; 3; 4.5; 4.5; 4.5]%float.
Proof. reflexivity. Qed.

(** Black on white as the fallback [ColorUtils] rates it. *)
Example fallback_ratio_meets_AA :
  option_map ContrastResult.meetsAA
    (getContrastRatioForElement (initializeDependencies nothingLoaded)
                                (paragraph "16px"))
  = Some true.
Proof. reflexivity. Qed.

(** *** Text elements *)

Lemma collectTextElements_bound (w : Window) (allElements elements : list Node) :
  List.length elements <= 1500 ->
  List.length (collectTextElements w allElements elements) <= 1501.
Proof.
  revert elements.
  induction allElements as [| element rest IH]; intros elements Hlen.
  - simpl. lia.
  - cbn [collectTextElements].
    destruct (negb (isElementVisible w element)); [now apply IH |].
    destruct (Nat.ltb 0 (String.length (trim (textOf element)))).
    + destruct (Nat.ltb 1500 (List.length (elements ++ [element]))) eqn:Hfull.
      * rewrite length_app. simpl. lia.
      * apply IH. apply Nat.ltb_ge in Hfull. exact Hfull.
    + destruct (Nat.ltb 1500 (List.length elements)) eqn:Hfull.
      * lia.
      * now apply IH.
Qed.

(** The collection never holds more than 1501 elements. *)
Lemma getTextElements_at_most (p : Page) :
  List.length (getTextElements p) <= 1501.
Proof.
  unfold getTextElements, getTextElements_try.
  destruct (body (document p)); simpl.
  - apply collectTextElements_bound. simpl. lia.
  - lia.
Qed.

(** The contrast check evaluates at most 1000 elements. *)
Lemma contrastCandidates_at_most (p : Page) :
  List.length (contrastCandidates p) <= 1000.
Proof. unfold contrastCandidates. apply firstn_le_length. Qed.

Lemma trim_nonempty (s : string) :
  Nat.ltb 0 (String.length s) = negb (String.eqb s "").
Proof. destruct s; reflexivity. Qed.

(** Below the limit the collection is the qualifying elements, in document
    order. *)
Lemma collectTextElements_filter (w : Window) (allElements elements : list Node) :
  List.length (elements ++ filter (qualifies w) allElements) <= 1500 ->
  collectTextElements w allElements elements
  = elements ++ filter (qualifies w) allElements.
Proof.
  revert elements.
  induction allElements as [| element rest IH]; intros elements Hlen.
  - simpl. now rewrite app_nil_r.
  - cbn [collectTextElements filter] in *. rewrite trim_nonempty.
    unfold qualifies at 1. unfold qualifies at 1 in Hlen.
    destruct (isElementVisible w element); cbn [negb andb] in *;
      [| now apply IH].
    destruct (negb (String.eqb (trim (textOf element)) "")).
    + assert (Hlen' : List.length ((elements ++ [element])
                                   ++ filter (qualifies w) rest) <= 1500).
      { rewrite <- app_assoc. exact Hlen. }
      destruct (Nat.ltb 1500 (List.length (elements ++ [element]))) eqn:Hfull.
      * apply Nat.ltb_lt in Hfull. rewrite length_app in Hlen'. lia.
      * rewrite (IH _ Hlen'). now rewrite <- app_assoc.
    + destruct (Nat.ltb 1500 (List.length elements)) eqn:Hfull.
      * apply Nat.ltb_lt in Hfull. rewrite length_app in Hlen. lia.
      * now apply IH.
Qed.

(** Below the limit [getTextElements] returns the qualifying elements. *)
Lemma getTextElements_below_limit (p : Page) :
  List.length (qualifying p) <= 1500 ->
  getTextElements p = qualifying p.
Proof.
  unfold getTextElements, getTextElements_try, qualifying.
  destruct (body (document p)) as [b |]; simpl; [| reflexivity].
  intros Hlen. now rewrite collectTextElements_filter.
Qed.

Lemma collectTextElements_over (w : Window) (allElements elements : list Node) :
  List.length elements <= 1500 ->
  1500 < List.length (elements ++ filter (qualifies w) allElements) ->
  List.length (collectTextElements w allElements elements) = 1501.
Proof.
  revert elements.
  induction allElements as [| element rest IH]; intros elements Hlen Hover.
  - simpl in Hover. rewrite app_nil_r in Hover. lia.
  - cbn [collectTextElements filter] in *. rewrite trim_nonempty.
    unfold qualifies at 1 in Hover.
    destruct (isElementVisible w element); cbn [negb andb] in *;
      [| now apply IH].
    destruct (negb (String.eqb (trim (textOf element)) "")).
    + assert (Hover' : 1500 < List.length ((elements ++ [element])
                                           ++ filter (qualifies w) rest)).
      { rewrite <- app_assoc. exact Hover. }
      destruct (Nat.ltb 1500 (List.length (elements ++ [element]))) eqn:Hfull.
      * apply Nat.ltb_lt in Hfull. rewrite length_app in *.
        change (List.length [element]) with 1 in *. lia.
      * apply Nat.ltb_ge in Hfull. now apply IH.
    + destruct (Nat.ltb 1500 (List.length elements)) eqn:Hfull.
      * apply Nat.ltb_lt in Hfull. lia.
      * now apply IH.
Qed.

(** Above the limit [getTextElements] returns 1501 elements. *)
Lemma getTextElements_over_limit (p : Page) :
  1500 < List.length (qualifying p) ->
  List.length (getTextElements p) = 1501.
Proof.
  unfold getTextElements, getTextElements_try, qualifying.
  destruct (body (document p)) as [b |]; simpl; [| lia].
  intros Hover. apply collectTextElements_over; simpl; lia.
Qed.

(** C4: on a page whose body holds 2000 visible elements with text,
    [getTextElements] returns 1501 elements, one more than the limit of 1500
    of the specification: the loop tests [elements.length > 1500] after the
    push.
    The contrast check still evaluates 1000 of them. *)
Theorem text_elements_exceed_limit :
  List.length (qualifying (pageOfSpans 2000)) = 2000
  /\ List.length (getTextElements (pageOfSpans 2000)) = 1501
  /\ List.length (contrastCandidates (pageOfSpans 2000)) = 1000.
Proof. repeat split; vm_compute; reflexivity. Qed.

(* ================================================================== *)
(** ** Further properties of the content scripts *)
(* ================================================================== *)

(** *** Loops that complete *)

Lemma forEach_flat_map {A} (f : A -> M unit) (l : list A) :
  (forall x, In x l -> snd (f x) = Ok tt) ->
  forEach f l = (flat_map (fun x => issuesOf (f x)) l, Ok tt).
Proof.
  induction l as [| x xs IH]; intros Hf; [reflexivity |].
  simpl. rewrite IH by (intros y Hy; apply Hf; now right).
  pose proof (Hf x (or_introl eq_refl)) as Hx.
  unfold bind, issuesOf. destruct (f x) as [l1 r1]. simpl in *.
  now rewrite Hx.
Qed.

Lemma flat_map_length_le {A B} (f : A -> list B) (l : list A) :
  (forall x, List.length (f x) <= 1) ->
  List.length (flat_map f l) <= List.length l.
Proof.
  intros Hf. induction l as [| x xs IH]; simpl; [lia |].
  rewrite length_app. specialize (Hf x). lia.
Qed.

(** *** The collection of text elements *)

#[local] Opaque firstn.

Lemma collectTextElements_firstn (w : Window) (allElements elements : list Node) :
  List.length elements <= 1500 ->
  collectTextElements w allElements elements
  = firstn 1501 (elements ++ filter (qualifies w) allElements).
Proof.
  revert elements.
  induction allElements as [| element rest IH]; intros elements Hlen.
  - simpl. rewrite app_nil_r. symmetry. apply firstn_all2. lia.
  - cbn [collectTextElements filter]. rewrite trim_nonempty.
    unfold qualifies at 1.
    destruct (isElementVisible w element); cbn [negb andb];
      [| now apply IH].
    destruct (negb (String.eqb (trim (textOf element)) "")).
    + replace (elements ++ element :: filter (qualifies w) rest)
        with ((elements ++ [element]) ++ filter (qualifies w) rest)
        by (rewrite <- app_assoc; reflexivity).
      destruct (Nat.ltb 1500 (List.length (elements ++ [element]))) eqn:Hfull.
      * apply Nat.ltb_lt in Hfull.
        assert (Hexact : List.length (elements ++ [element]) = 1501).
        { rewrite length_app in *. change (List.length [element]) with 1 in *.
          lia. }
        rewrite firstn_app, Hexact, Nat.sub_diag, firstn_O, app_nil_r.
        symmetry. apply firstn_all2. lia.
      * apply Nat.ltb_ge in Hfull. now apply IH.
    + destruct (Nat.ltb 1500 (List.length elements)) eqn:Hfull.
      * apply Nat.ltb_lt in Hfull. lia.
      * now apply IH.
Qed.

Lemma in_firstn {A} (n : nat) (l : list A) (x : A) :
  In x (firstn n l) -> In x l.
Proof.
  intros H. rewrite <- (firstn_skipn n l). apply in_or_app. now left.
Qed.

Lemma getTextElements_firstn (p : Page) :
  getTextElements p = firstn 1501 (qualifying p).
Proof.
  unfold getTextElements, getTextElements_try, qualifying.
  destruct (body (document p)) as [b |]; simpl.
  - rewrite collectTextElements_firstn by (simpl; lia). reflexivity.
  - symmetry. apply firstn_nil.
Qed.

Lemma contrastCandidates_firstn (p : Page) :
  contrastCandidates p = firstn 1000 (qualifying p).
Proof.
  unfold contrastCandidates. rewrite getTextElements_firstn, firstn_firstn.
  reflexivity.
Qed.

(** X1: [getTextElements] returns the first 1501 qualifying elements (the
    visible descendants of the body that hold text), in document order, and
    nothing when the document has no body; the contrast check evaluates
    the first 1000 of them. *)
Theorem text_elements_are_first_qualifying (p : Page) :
  getTextElements p = firstn 1501 (qualifying p)
  /\ contrastCandidates p = firstn 1000 (qualifying p)
  /\ Forall (fun element => qualifies (window p) element = true)
            (getTextElements p).
Proof.
  split; [apply getTextElements_firstn | split].
  - apply contrastCandidates_firstn.
  - rewrite getTextElements_firstn. apply Forall_forall. intros element Hin.
    apply in_firstn in Hin. unfold qualifying in Hin.
    destruct (body (document p)); [| contradiction].
    apply filter_In in Hin. tauto.
Qed.

#[local] Transparent firstn.

(** *** The contrast check *)

Lemma contrastStep_completes (g : Globals) (element : Node) :
  snd (contrastStep g element) = Ok tt.
Proof.
  unfold contrastStep.
  destruct (getContrastRatioForElement g element) as [r |]; [| reflexivity].
  destruct (ContrastResult.meetsAA r); reflexivity.
Qed.

(** The findings one element contributes to the contrast check. *)
Lemma contrastStep_issues (g : Globals) (element : Node) :
  issuesOf (contrastStep g element)
  = match getContrastRatioForElement g element with
    | Some r =>
        if ContrastResult.meetsAA r then [] else [contrastIssue element r]
    | None => []
    end.
Proof.
  unfold contrastStep.
  destruct (getContrastRatioForElement g element) as [r |]; [| reflexivity].
  destruct (ContrastResult.meetsAA r); reflexivity.
Qed.

Lemma checkColorContrast_flat_map (g : Globals) (p : Page) :
  checkColorContrast g p
  = flat_map (fun element =>
                match getContrastRatioForElement g element with
                | Some r =>
                    if ContrastResult.meetsAA r then []
                    else [contrastIssue element r]
                | None => []
                end)
             (firstn 1000 (qualifying p)).
Proof.
  unfold checkColorContrast. rewrite logged_issues.
  rewrite forEach_flat_map by (intros; apply contrastStep_completes).
  rewrite contrastCandidates_firstn.
  apply flat_map_ext. intros element. apply contrastStep_issues.
Qed.

(** X2: the contrast check reports, in document order, one finding for each
    of the first 1000 qualifying elements whose result fails AA, and nothing
    for an element without result; so it reports at most 1000 findings. *)
Theorem contrast_findings (g : Globals) (p : Page) :
  checkColorContrast g p
  = flat_map (fun element =>
                match getContrastRatioForElement g element with
                | Some r =>
                    if ContrastResult.meetsAA r then []
                    else [contrastIssue element r]
                | None => []
                end)
             (firstn 1000 (qualifying p))
  /\ List.length (checkColorContrast g p) <= 1000.
Proof.
  split; [apply checkColorContrast_flat_map |].
  rewrite checkColorContrast_flat_map.
  etransitivity; [apply flat_map_length_le | apply firstn_le_length].
  intros element.
  destruct (getContrastRatioForElement g element) as [r |]; [| simpl; lia].
  destruct (ContrastResult.meetsAA r); simpl; lia.
Qed.

Lemma flat_map_nil {A B} (f : A -> list B) (l : list A) :
  (forall x, f x = []) -> flat_map f l = [].
Proof.
  intros Hf. induction l as [| x xs IH]; simpl; [reflexivity |].
  now rewrite Hf, IH.
Qed.

Lemma no_ColorUtils_no_result (g : Globals) (element : Node) :
  ColorUtils g = None -> getContrastRatioForElement g element = None.
Proof.
  intros Hg. unfold getContrastRatioForElement, getContrastRatioForElement_try.
  destruct (getComputedStyle (nodeData element)) as [style |];
    simpl; [| reflexivity].
  destruct (getBackgroundColor element) as [backgroundColor | e |];
    simpl; [| reflexivity ..].
  destruct (negb (truthy (Style.color style)) || negb (truthy backgroundColor));
    [reflexivity |].
  now rewrite Hg.
Qed.

Lemma fallback_ColorUtils_meets_AA (g : Globals) (element : Node)
      (r : ContrastResult.t) :
  ColorUtils g = Some fallbackColorUtils ->
  getContrastRatioForElement g element = Some r ->
  ContrastResult.meetsAA r = true.
Proof.
  intros Hg. unfold getContrastRatioForElement, getContrastRatioForElement_try.
  destruct (getComputedStyle (nodeData element)) as [style |];
    simpl; [| discriminate].
  destruct (getBackgroundColor element) as [backgroundColor | e |];
    simpl; [| discriminate ..].
  destruct (negb (truthy (Style.color style)) || negb (truthy backgroundColor));
    [discriminate |].
  rewrite Hg. simpl. intros H. injection H as <-. simpl.
  unfold getRequiredContrastRatio.
  destruct (isLargeText _ _); reflexivity.
Qed.

(** X3: without a loaded [ColorUtils] the contrast check reports nothing,
    whatever the page: the fallback rates every pair of colours 4.5, which
    meets both AA thresholds, and with [ColorUtils] undefined the evaluator
    fails for every element. *)
Theorem no_ColorUtils_no_contrast_finding (g : Globals) (p : Page) :
  ColorUtils g = None \/ ColorUtils g = Some fallbackColorUtils ->
  checkColorContrast g p = [].
Proof.
  intros Hg. rewrite checkColorContrast_flat_map.
  apply flat_map_nil. intros element.
  destruct (getContrastRatioForElement g element) as [r |] eqn:Hr;
    [| reflexivity].
  destruct Hg as [Hg | Hg].
  - rewrite (no_ColorUtils_no_result g element Hg) in Hr. discriminate.
  - now rewrite (fallback_ColorUtils_meets_AA g element r Hg Hr).
Qed.

Lemma no_ColorUtils_no_contrast_finding_witness :
  ColorUtils (initializeDependencies nothingLoaded) = Some fallbackColorUtils
  /\ checkColorContrast (initializeDependencies nothingLoaded)
                        (pageOfSpans 3) = [].
Proof.
  assert (H : ColorUtils (initializeDependencies nothingLoaded)
              = Some fallbackColorUtils) by reflexivity.
  split; [exact H |].
  apply (no_ColorUtils_no_contrast_finding _ (pageOfSpans 3) (or_intror H)).
Defined.

(** *** The thresholds are ordered *)

Lemma leb_3_of_leb_4_5 (x : float) :
  (4.5 <=? x)%float = true -> (3 <=? x)%float = true.
Proof.
  rewrite !leb_spec.
  change (Prim2SF 4.5) with (S754_finite false 5066549580791808 (-50)).
  change (Prim2SF 3) with (S754_finite false 6755399441055744 (-51)).
  destruct (Prim2SF x) as [s | s | | s m e]; unfold SFleb, SFcompare;
    try destruct s; try discriminate; try reflexivity.
  destruct (Z.compare_spec (-50) e) as [E | E | E]; try discriminate.
  - subst e. reflexivity.
  - intros _.
    assert (H : (-51 ?= e)%Z = Lt) by (apply Z.compare_lt_iff; lia).
    now rewrite H.
Qed.

Lemma leb_4_5_of_leb_7 (x : float) :
  (7 <=? x)%float = true -> (4.5 <=? x)%float = true.
Proof.
  rewrite !leb_spec.
  change (Prim2SF 4.5) with (S754_finite false 5066549580791808 (-50)).
  change (Prim2SF 7) with (S754_finite false 7881299347898368 (-50)).
  destruct (Prim2SF x) as [s | s | | s m e]; unfold SFleb, SFcompare;
    try destruct s; try discriminate; try reflexivity.
  destruct (-50 ?= e)%Z; try discriminate; [| reflexivity].
  change (PosDef.Pos.compare_cont Eq) with Pos.compare.
  destruct (Pos.compare_spec 7881299347898368 m) as [E | E | E];
    try discriminate; intros _.
  - subst m. reflexivity.
  - assert (H : (5066549580791808 ?= m)%positive = Lt)
      by (apply Pos.compare_lt_iff; lia).
    now rewrite H.
Qed.

(** X4: a result of the contrast evaluator that meets AAA meets AA. *)
Theorem meetsAAA_implies_meetsAA (g : Globals) (element : Node)
        (r : ContrastResult.t) :
  getContrastRatioForElement g element = Some r ->
  ContrastResult.meetsAAA r = true ->
  ContrastResult.meetsAA r = true.
Proof.
  intros Hr.
  destruct (contrast_result_fields g element r Hr)
    as (Haa & Haaa & Hmeets & Hmeets').
  rewrite Hmeets, Hmeets', Haaa, Haa. unfold getRequiredContrastRatio.
  destruct (isLargeText _ _).
  - apply leb_3_of_leb_4_5.
  - apply leb_4_5_of_leb_7.
Qed.

Lemma meetsAAA_implies_meetsAA_witness :
  let g := globalsWith (constantColorUtils 21) in
  exists r,
    getContrastRatioForElement g (paragraph "16px") = Some r
    /\ ContrastResult.meetsAAA r = true
    /\ ContrastResult.meetsAA r = true.
Proof.
  intros g. eexists. split; [reflexivity |].
  assert (H : ContrastResult.meetsAAA
                {| ContrastResult.ratio := 21;
                   ContrastResult.fontSize := 16;
                   ContrastResult.fontWeight := 400;
                   ContrastResult.requiredAARatio := 4.5;
                   ContrastResult.requiredAAARatio := 7;
                   ContrastResult.meetsAA := true;
                   ContrastResult.meetsAAA := true;
                   ContrastResult.textColor := "rgb(0, 0, 0)";
                   ContrastResult.backgroundColor := "rgb(255, 255, 255)";
                   ContrastResult.suggestions := JObject [] |} = true)
    by reflexivity.
  split; [exact H |].
  apply (meetsAAA_implies_meetsAA g (paragraph "16px") _ eq_refl H).
Defined.

(** *** The findings of a report *)

(** X5: when [A11yRuleUtils.runAllChecks] throws a value other than
    [null] and [undefined], the report holds the system finding alone and no
    other check is run; when it returns (or is unavailable), the findings
    are the outputs of the rule helper (or of [runBasicChecks] when the
    helper is unavailable), the contrast, ARIA, keyboard, semantics and
    language checks, in this order; when it throws [null] or [undefined], no
    report is returned: a TypeError leaves [runA11yChecks]. *)
Theorem findings_in_run_order (g : Globals) (p : Page) :
  (forall e,
      externalFailure g p = Some e ->
      Report.issues (runA11yChecks g p)
      = [systemIssue "Check execution error: " e])
  /\ (externalFailure g p = None ->
      externalNullish g p = false ->
      Report.issues (runA11yChecks g p)
      = (if usesBasicChecks g then runBasicChecks p else externalIssues g p)
        ++ checkColorContrast g p ++ checkAriaAttributes p
        ++ checkKeyboardNavigation p ++ checkSemanticMarkup p
        ++ checkLanguage p)
  /\ (externalNullish g p = false ->
      runA11yChecks_call g p = Ok (runA11yChecks g p))
  /\ (externalNullish g p = true ->
      runA11yChecks_call g p = Throw TypeError_null).
Proof.
  split; [| split; [| split]].
  - intros e He. now rewrite report_issues, He.
  - intros He Hn. now rewrite report_issues, He, Hn.
  - intros Hn. unfold runA11yChecks_call.
    now rewrite runA11yChecks_guarded_outcome, Hn.
  - intros Hn. unfold runA11yChecks_call.
    now rewrite runA11yChecks_guarded_outcome, Hn.
Qed.

Lemma findings_in_run_order_witness :
  externalFailure (globalsWithRules failingRuleUtils) pageWithImage
  = Some (ErrorObject "rules is not iterable")
  /\ externalFailure rulesLoaded pageWithInput = None
  /\ externalNullish rulesLoaded pageWithInput = false
  /\ externalNullish (globalsWithRules nullThrowingRuleUtils) pageWithImage
     = true
  /\ Report.issues (runA11yChecks (globalsWithRules failingRuleUtils) pageWithImage)
     = [systemIssue "Check execution error: " "rules is not iterable"]
  /\ map Issue.category (Report.issues (runA11yChecks rulesLoaded pageWithInput))
     = ["forms"; "keyboard"]
  /\ runA11yChecks_call (globalsWithRules nullThrowingRuleUtils) pageWithImage
     = Throw TypeError_null.
Proof.
  split; [reflexivity |]. split; [reflexivity |]. split; [reflexivity |].
  split; [reflexivity |]. split; [| split].
  - apply (proj1 (findings_in_run_order _ pageWithImage)). reflexivity.
  - rewrite (proj1 (proj2 (findings_in_run_order rulesLoaded pageWithInput))
               eq_refl eq_refl).
    reflexivity.
  - apply (proj2 (proj2 (proj2 (findings_in_run_order _ pageWithImage)))).
    reflexivity.
Defined.

(** X6: when the rules table is not loaded, [initializeDependencies]
    installs a rule helper that returns nothing, so the audit never runs
    [runBasicChecks]: whatever the page, the report holds the findings of
    the contrast, ARIA, keyboard, semantics and language checks only, and
    none of the categories images, headings, forms or system. *)
Theorem without_rules_no_basic_findings (loaded : Globals) (p : Page) :
  A11yRules loaded = false ->
  Report.issues (audit loaded p)
  = checkColorContrast (initializeDependencies loaded) p
    ++ checkAriaAttributes p ++ checkKeyboardNavigation p
    ++ checkSemanticMarkup p ++ checkLanguage p
  /\ Forall (fun i => In (Issue.category i)
                         ["contrast"; "aria"; "keyboard"; "semantics";
                          "language"])
            (Report.issues (audit loaded p)).
Proof.
  intros Hrules.
  assert (H : Report.issues (audit loaded p)
              = checkColorContrast (initializeDependencies loaded) p
                ++ checkAriaAttributes p ++ checkKeyboardNavigation p
                ++ checkSemanticMarkup p ++ checkLanguage p).
  { unfold audit. rewrite report_issues.
    unfold externalFailure, externalNullish, usesBasicChecks, externalIssues,
      initializeDependencies. simpl. rewrite Hrules. reflexivity. }
  split; [exact H |]. rewrite H.
  set (g := initializeDependencies loaded).
  assert (Hby : forall o l,
             o <> BasicChecks -> o <> EntryPoint ->
             Forall (EmittedBy g p o) l ->
             Forall (fun i => In (Issue.category i)
                                 ["contrast"; "aria"; "keyboard"; "semantics";
                                  "language"]) l).
  { intros o l Ho Ho'. apply Forall_impl. intros i Hi.
    destruct Hi; simpl; tauto. }
  repeat (apply Forall_app; split).
  - eapply Hby; [| | apply checkColorContrast_emitted]; discriminate.
  - eapply Hby; [| | apply checkAriaAttributes_emitted]; discriminate.
  - eapply Hby; [| | apply checkKeyboardNavigation_emitted]; discriminate.
  - eapply Hby; [| | apply checkSemanticMarkup_emitted]; discriminate.
  - eapply Hby; [| | apply checkLanguage_emitted]; discriminate.
Qed.

Lemma without_rules_no_basic_findings_witness :
  A11yRules nothingLoaded = false
  /\ querySelectorAll (document pageWithImage) imgWithoutAlt <> []
  /\ map Issue.category (Report.issues (audit nothingLoaded pageWithImage))
     = ["language"].
Proof.
  assert (H : A11yRules nothingLoaded = false) by reflexivity.
  split; [exact H |]. split; [discriminate |].
  rewrite (proj1 (without_rules_no_basic_findings nothingLoaded pageWithImage H)).
  reflexivity.
Defined.

(** *** The language findings *)

Lemma checkLanguage_issues (p : Page) :
  checkLanguage p
  = match rootNode (document p) with
    | Some html =>
        if truthy_opt (getAttribute html "lang") then []
        else [languageIssue html]
    | None => []
    end.
Proof.
  unfold checkLanguage, checkLanguage_try. rewrite logged_issues.
  destruct (rootNode (document p)) as [html |]; simpl; [| reflexivity].
  destruct (truthy_opt (getAttribute html "lang")); reflexivity.
Qed.

Lemma runBasicChecks_language (p : Page) (root : Element) :
  documentElement (document p) = Some root ->
  ofCategory "language" (runBasicChecks p)
  = if truthy_opt (getAttribute (mkNode root []) "lang") then []
    else [languageIssue (mkNode root [])].
Proof.
  intros Hroot.
  rewrite runBasicChecks_issues, ofCategory_app.
  replace (ofCategory "language"
             match snd (runBasicChecks_try p) with
             | Throw e => [systemIssue "Basic check error: " e]
             | _ => []
             end) with (@nil Issue.t)
    by (destruct (snd (runBasicChecks_try p)); reflexivity).
  rewrite app_nil_r. unfold runBasicChecks_try. cbv zeta.
  rewrite issuesOf_bind, ofCategory_app.
  rewrite forEach_completes by (intros; apply when_completes; reflexivity).
  rewrite (ofCategory_none "language" (issuesOf (forEach _ _)))
    by (apply all_forEach; intros; apply imageStep_all; reflexivity).
  unfold rootNode. rewrite Hroot. cbv beta iota.
  unfold nonNull. rewrite issuesOf_bind_ok.
  rewrite issuesOf_bind, ofCategory_app.
  rewrite when_completes by reflexivity.
  rewrite issuesOf_bind, ofCategory_app.
  rewrite when_completes by reflexivity.
  rewrite (ofCategory_none "language" (issuesOf (when (Nat.eqb _ 0) _)))
    by (apply all_when, all_push; reflexivity).
  rewrite (ofCategory_none "language" (issuesOf (forEach _ _)))
    by (apply all_forEach; intros; apply inputStep_all; reflexivity).
  rewrite !app_nil_r.
  destruct (truthy_opt (getAttribute (mkNode root []) "lang")); reflexivity.
Qed.

Lemma other_checks_no_language (g : Globals) (p : Page) (o : Origin)
      (l : list Issue.t) :
  o <> BasicChecks -> o <> LanguageCheck ->
  Forall (EmittedBy g p o) l -> ofCategory "language" l = [].
Proof.
  intros Ho Ho' H. apply ofCategory_none. revert H. apply Forall_impl.
  intros i Hi. destruct Hi; try reflexivity; contradiction.
Qed.

(** X7: when [runA11yChecks] falls back on [runBasicChecks] and the root
    element has no (or an empty) [lang] attribute, the report holds the
    language finding twice, once from [runBasicChecks] and once from
    [checkLanguage]; with a [lang] attribute it holds none. *)
Theorem language_finding_reported_twice (g : Globals) (p : Page)
        (root : Element) :
  usesBasicChecks g = true ->
  documentElement (document p) = Some root ->
  ofCategory "language" (Report.issues (runA11yChecks g p))
  = if truthy_opt (getAttribute (mkNode root []) "lang") then []
    else [languageIssue (mkNode root []); languageIssue (mkNode root [])].
Proof.
  intros Hbasic Hroot.
  rewrite (report_issues_basic g p Hbasic).
  rewrite !ofCategory_app.
  rewrite (runBasicChecks_language p root Hroot).
  rewrite (other_checks_no_language g p ContrastCheck)
    by (discriminate || apply checkColorContrast_emitted).
  rewrite (other_checks_no_language g p AriaCheck)
    by (discriminate || apply checkAriaAttributes_emitted).
  rewrite (other_checks_no_language g p KeyboardCheck)
    by (discriminate || apply checkKeyboardNavigation_emitted).
  rewrite (other_checks_no_language g p SemanticsCheck)
    by (discriminate || apply checkSemanticMarkup_emitted).
  rewrite checkLanguage_issues. unfold rootNode. rewrite Hroot.
  destruct (truthy_opt (getAttribute (mkNode root []) "lang")); reflexivity.
Qed.

Lemma language_finding_reported_twice_witness :
  usesBasicChecks (initializeDependencies rulesLoaded) = true
  /\ List.length
       (ofCategory "language" (Report.issues (audit rulesLoaded pageWithImage)))
     = 2
  /\ ofCategory "language" (Report.issues (audit rulesLoaded pageWithH2)) = [].
Proof.
  assert (H : usesBasicChecks (initializeDependencies rulesLoaded) = true)
    by reflexivity.
  split; [exact H |]. unfold audit. split.
  - rewrite (language_finding_reported_twice _ pageWithImage _ H eq_refl).
    reflexivity.
  - rewrite (language_finding_reported_twice _ pageWithH2 _ H eq_refl).
    reflexivity.
Defined.

(** X8: on a document without root element [runBasicChecks] returns one
    system finding and nothing else, while [checkLanguage] and
    [getTextElements] return nothing. *)
Theorem rootless_document (p : Page) :
  documentElement (document p) = None ->
  runBasicChecks p = [systemIssue "Basic check error: " TypeError_null]
  /\ checkLanguage p = []
  /\ getTextElements p = [].
Proof.
  intros Hroot. repeat split.
  - unfold runBasicChecks, runBasicChecks_try, querySelectorAll, allElements,
      rootNode. rewrite Hroot. reflexivity.
  - rewrite checkLanguage_issues. unfold rootNode. now rewrite Hroot.
  - unfold getTextElements, getTextElements_try, body. now rewrite Hroot.
Qed.

Lemma rootless_document_witness :
  let p := {| window := window0;
              document := {| documentElement := None;
                             querySelectorText := noSelectorText |} |} in
  Report.issues (audit rulesLoaded p)
  = [systemIssue "Basic check error: " TypeError_null].
Proof.
  intros p.
  destruct (rootless_document p eq_refl) as (Hbasic & Hlang & Htext).
  unfold audit.
  rewrite (report_issues_basic (initializeDependencies rulesLoaded) p eq_refl).
  rewrite Hbasic. reflexivity.
Defined.

(** *** The selector of an element *)

Lemma truthy_append (a b : string) : truthy a = true -> truthy (a ++ b) = true.
Proof. destruct a; [discriminate | reflexivity]. Qed.

Lemma truthy_true (s : string) : truthy s = true -> s <> "".
Proof. destruct s; [discriminate | discriminate]. Qed.

Lemma truthy_false (s : string) : truthy s = false -> s = "".
Proof. destruct s; [reflexivity | discriminate]. Qed.

(** X9: [getSelector] never returns the empty string: it returns
    [unknown] for an element without tag name, otherwise [#] followed by the
    id when the id is not empty, otherwise, for an element whose
    [className] is a string, the tag name followed by a dot and the text of
    [className] before its first space when that text is not empty,
    otherwise the tag name; so an SVG element without id, whose
    [className] is an object, gets its tag name. *)
Theorem getSelector_shape (element : Node) :
  let name := localName (nodeData element) in
  let firstClass := splitSpaceFirst (className element) in
  getSelector element <> ""
  /\ (name = "" -> getSelector element = "unknown")
  /\ (name <> "" -> id element <> "" ->
      getSelector element = ("#" ++ id element)%string)
  /\ (name <> "" -> id element = "" -> svg (nodeData element) = false ->
      firstClass <> "" ->
      getSelector element = (name ++ "." ++ firstClass)%string)
  /\ (name <> "" -> id element = "" -> svg (nodeData element) = false ->
      firstClass = "" ->
      getSelector element = name)
  /\ (name <> "" -> id element = "" -> svg (nodeData element) = true ->
      getSelector element = name).
Proof.
  intros name firstClass. unfold getSelector, classNameTruthy, classNameIsString.
  fold name firstClass.
  destruct (truthy name) eqn:Hn; cbn [negb].
  - apply truthy_true in Hn.
    destruct (truthy (id element)) eqn:Hi.
    + apply truthy_true in Hi.
      repeat split; intros; try reflexivity; try contradiction.
      discriminate.
    + apply truthy_false in Hi.
      destruct (svg (nodeData element)); cbn [negb andb].
      * repeat split; intros; try reflexivity; try contradiction;
          try discriminate.
        exact Hn.
      * destruct (truthy (className element)) eqn:Hclass; cbn [andb].
        { destruct (truthy firstClass) eqn:Hc.
          - apply truthy_true in Hc.
            repeat split; intros; try reflexivity; try contradiction;
              try discriminate.
            destruct name; [contradiction | discriminate].
          - apply truthy_false in Hc.
            repeat split; intros; try reflexivity; try contradiction;
              try discriminate.
            exact Hn. }
        { apply truthy_false in Hclass.
          assert (Hc : firstClass = "")
            by (unfold firstClass; now rewrite Hclass).
          repeat split; intros; try reflexivity; try contradiction;
            try discriminate.
          exact Hn. }
  - apply truthy_false in Hn.
    repeat split; intros; try reflexivity; try contradiction.
    discriminate.
Qed.

Lemma getSelector_shape_witness :
  let div := {| elem := el "div" [("class", "card wide")] "" [];
                ancestors := [] |} in
  getSelector div = "div.card"
  /\ getSelector {| elem := el "div" [("class", " card")] "" [];
                    ancestors := [] |} = "div"
  /\ getSelector {| elem := el "div" [("id", "main"); ("class", "card")] "" [];
                    ancestors := [] |} = "#main"
  /\ getSelector {| elem := svgIcon; ancestors := [] |} = "svg".
Proof.
  intros div. split; [| split; [| split]]; [| reflexivity ..].
  apply (proj1 (proj2 (proj2 (proj2 (getSelector_shape div)))));
    try reflexivity; discriminate.
Defined.

(** *** Invariants of the findings *)

Lemma slice0_length (n : nat) (s : string) : String.length (slice0 n s) <= n.
Proof.
  unfold slice0. revert s.
  induction n as [| n IH]; intros [| c s]; simpl; try lia.
  specialize (IH s). lia.
Qed.

Lemma getSelector_not_empty (element : Node) : getSelector element <> "".
Proof.
  unfold getSelector.
  destruct (truthy (localName (nodeData element))) eqn:Hn; cbn [negb];
    [| discriminate].
  destruct (truthy (id element)); [discriminate |].
  apply truthy_true in Hn.
  destruct (classNameTruthy element && classNameIsString element);
    [| exact Hn].
  destruct (truthy (splitSpaceFirst (className element))); [| exact Hn].
  destruct (localName (nodeData element)); [contradiction | discriminate].
Qed.

(** X10: in every report the element snippet of a finding has at most 100
    characters and its selector is not empty, provided the findings handed
    over by a loaded [A11yRuleUtils] are so. *)
Theorem snippets_and_selectors_bounded (g : Globals) (p : Page) :
  Forall (fun i => SnippetBounded i /\ SelectorNotEmpty i) (externalIssues g p) ->
  Forall (fun i => SnippetBounded i /\ SelectorNotEmpty i)
         (Report.issues (runA11yChecks g p)).
Proof.
  apply report_issues_all. intros i [o H].
  unfold SnippetBounded, SelectorNotEmpty.
  destruct H; simpl; split; auto;
    try apply slice0_length; try apply getSelector_not_empty; discriminate.
Qed.

Lemma snippets_and_selectors_bounded_witness :
  let long := mkElement
                {| localName := "img"; svg := false; attributes := [];
                   outerHTML := "<img src=" ++ string_of_list_ascii
                                                 (repeat "a"%char 200) ++ ">";
                   textContent := ""; innerText := "";
                   getBoundingClientRect := Some rect0;
                   getComputedStyle := Some style0; disabled := false |} [] in
  let p := pageOf (el "html" [("lang", "en")] "" [el "body" [] "" [long]]) in
  Forall (fun i => SnippetBounded i /\ SelectorNotEmpty i)
         (externalIssues rulesLoaded p)
  /\ map (fun i => option_map String.length (Issue.element i))
         (Report.issues (runA11yChecks rulesLoaded p))
     = [Some 100; None]
  /\ Forall (fun i => SnippetBounded i /\ SelectorNotEmpty i)
            (Report.issues (runA11yChecks rulesLoaded p)).
Proof.
  intros long p.
  assert (H : Forall (fun i => SnippetBounded i /\ SelectorNotEmpty i)
                     (externalIssues rulesLoaded p)) by constructor.
  split; [exact H |]. split; [vm_compute; reflexivity |].
  apply (snippets_and_selectors_bounded rulesLoaded p H).
Defined.

(** X11: in every report a finding carries details exactly when its
    category is contrast, provided the findings handed over by a loaded
    [A11yRuleUtils] are so. *)
Theorem details_only_on_contrast (g : Globals) (p : Page) :
  Forall DetailsOnContrast (externalIssues g p) ->
  Forall DetailsOnContrast (Report.issues (runA11yChecks g p)).
Proof.
  apply report_issues_all. intros i [o H]. unfold DetailsOnContrast.
  destruct H; simpl; split; intros; try congruence; try discriminate.
Qed.

Lemma details_only_on_contrast_witness :
  let g := globalsWith (constantColorUtils 2) in
  Forall DetailsOnContrast (externalIssues g (pageOfSpans 1))
  /\ map (fun i => (Issue.category i,
                    match Issue.details i with Some _ => true | None => false end))
         (Report.issues (runA11yChecks g (pageOfSpans 1)))
     = [("headings", false); ("contrast", true)]
  /\ Forall DetailsOnContrast (Report.issues (runA11yChecks g (pageOfSpans 1))).
Proof.
  intros g.
  assert (H : Forall DetailsOnContrast (externalIssues g (pageOfSpans 1)))
    by constructor.
  split; [exact H |]. split; [vm_compute; reflexivity |].
  apply (details_only_on_contrast g (pageOfSpans 1) H).
Defined.

(** *** The keyboard, ARIA and semantics checks *)

Lemma visible_has_style (w : Window) (el : Node) :
  isElementVisible w el = true ->
  exists style, getComputedStyle (nodeData el) = Some style.
Proof.
  unfold isElementVisible, isElementVisible_try.
  destruct (getBoundingClientRect (nodeData el)); [| discriminate].
  destruct (getComputedStyle (nodeData el)) as [style |]; [| discriminate].
  intros _. now exists style.
Qed.

Lemma interactiveStep_completes (w : Window) (el : Node) :
  snd (interactiveStep w el) = Ok tt.
Proof.
  unfold interactiveStep.
  destruct (isElementVisible w el) eqn:Hvisible; [| reflexivity].
  destruct (visible_has_style w el Hvisible) as [style Hstyle].
  cbn [negb]. rewrite Hstyle.
  destruct (isNull (getAttribute el "tabindex") && negb (disabled (nodeData el)));
    [| reflexivity].
  simpl. now destruct (negb _ && negb _).
Qed.

Lemma tabindexStep_completes (w : Window) (el : Node) :
  snd (tabindexStep w el) = Ok tt.
Proof.
  unfold tabindexStep. destruct (negb (isElementVisible w el)); [reflexivity |].
  now destruct (_ <? _)%float.
Qed.

(** X12: the two loops of the keyboard check never both report the same
    element, so an element contributes at most one keyboard finding; an
    element that is not visible contributes none. *)
Theorem keyboard_one_finding_per_element (w : Window) (el : Node) :
  List.length (issuesOf (tabindexStep w el) ++ issuesOf (interactiveStep w el))
  <= 1
  /\ (isElementVisible w el = false ->
      tabindexStep w el = ret tt /\ interactiveStep w el = ret tt).
Proof.
  unfold tabindexStep, interactiveStep. split.
  - destruct (isElementVisible w el); cbn [negb]; [| simpl; lia].
    destruct (getAttribute el "tabindex") as [s |]; cbn [isNull andb].
    + now destruct (_ <? _)%float; simpl; lia.
    + change (parseInt (toStringOrNull None)) with nan. cbn [when].
      change (nan <? -1)%float with false. cbn [issuesOf fst ret app].
      destruct (negb (disabled (nodeData el))); [| simpl; lia].
      destruct (getComputedStyle (nodeData el)) as [style |]; [| simpl; lia].
      simpl. destruct (negb _ && negb _); simpl; lia.
  - intros ->. split; reflexivity.
Qed.

Lemma keyboard_one_finding_per_element_witness :
  let hidden := mkNode (styled (styleWith "rgb(0, 0, 0)" "16px" "400")
                               "button" [] "Go" []) [] in
  let w := {| innerWidth := 1024; innerHeight := 0;
              location_href := ""; now := "" |} in
  isElementVisible w hidden = false
  /\ tabindexStep w hidden = ret tt
  /\ interactiveStep w hidden = ret tt
  /\ List.length (issuesOf (interactiveStep window0 hidden)) = 1.
Proof.
  intros hidden w.
  assert (H : isElementVisible w hidden = false) by reflexivity.
  split; [exact H |].
  destruct (proj2 (keyboard_one_finding_per_element w hidden) H) as [H1 H2].
  repeat split; assumption || reflexivity.
Defined.

(** X13: the ARIA, keyboard and semantics checks never raise, so none of
    their findings is lost: each returns what its first loop reports for
    every matched element, in document order, followed by what its second
    loop reports. *)
Theorem checks_report_every_match (p : Page) :
  let w := window p in
  let d := document p in
  checkAriaAttributes p
  = flat_map (fun el => issuesOf (ariaLabelStep w el))
             (querySelectorAll d [attr "aria-label"])
    ++ flat_map (fun el => issuesOf (roleStep el))
                (querySelectorAll d [attr "role"])
  /\ checkKeyboardNavigation p
     = flat_map (fun el => issuesOf (tabindexStep w el))
                (querySelectorAll d [attr "tabindex"])
       ++ flat_map (fun el => issuesOf (interactiveStep w el))
                   (querySelectorAll d interactive)
  /\ checkSemanticMarkup p
     = flat_map (fun el => issuesOf (divButtonStep w el))
                (querySelectorAll d divButtons)
       ++ flat_map (fun el => issuesOf (layoutTableStep el))
                   (querySelectorAll d [mkCompound (Some "table")
                                                   [NotHasAttr "role"]]).
Proof.
  intros w d. repeat split.
  - unfold checkAriaAttributes. rewrite logged_issues, issuesOf_bind.
    rewrite !forEach_flat_map; [reflexivity | |].
    + intros el _. unfold roleStep.
      destruct (getAttribute el "role") as [role |]; [| reflexivity].
      now destruct (truthy role && negb (isValidAriaRole role)).
    + intros el _. unfold ariaLabelStep.
      destruct (negb (isElementVisible (window p) el)); [reflexivity |].
      cbv zeta. now destruct (negb _ && isNull _).
  - unfold checkKeyboardNavigation. rewrite logged_issues, issuesOf_bind.
    rewrite !forEach_flat_map; [reflexivity | |].
    + intros el _. apply interactiveStep_completes.
    + intros el _. apply tabindexStep_completes.
  - unfold checkSemanticMarkup. rewrite logged_issues, issuesOf_bind.
    rewrite !forEach_flat_map; [reflexivity | |].
    + intros el _. unfold layoutTableStep.
      now destruct (isNull _ && negb _).
    + intros el _. unfold divButtonStep.
      now destruct (negb (isElementVisible (window p) el)).
Qed.

(** *** The fallback checks *)

Lemma forEach_app {A} (f : A -> M unit) (l l' : list A) :
  forEach f (l ++ l') = bind (forEach f l) (fun _ => forEach f l').
Proof.
  induction l as [| x xs IH]; simpl.
  - unfold bind, ret. now destruct (forEach f l').
  - rewrite IH. unfold bind.
    destruct (f x) as [l1 [[] | e |]]; [| reflexivity ..].
    destruct (forEach f xs) as [l2 [[] | e |]]; [| reflexivity ..].
    destruct (forEach f l') as [l3 r3]. now rewrite app_assoc.
Qed.

Lemma inputStep_completes (d : Document) (input : Node) :
  PlainId input -> snd (inputStep d input) = Ok tt.
Proof.
  unfold PlainId, inputStep, lacksLabel, hasLabelFor. intros Hq.
  destruct (negb (truthy (id input))); [reflexivity |].
  rewrite Hq. simpl. now destruct (isNull _).
Qed.

Lemma imageStep_completes (w : Window) (img : Node) :
  snd (imageStep w img) = Ok tt.
Proof. unfold imageStep. now destruct (isElementVisible w img). Qed.

(** The statements of [runBasicChecks] before the loop over the inputs
    complete on a document with a root element. *)
Lemma runBasicChecks_try_split (p : Page) (root : Element) :
  documentElement (document p) = Some root ->
  exists found,
    Forall (NotInCategory "forms") found
    /\ Forall (NotInCategory "system") found
    /\ runBasicChecks_try p
       = bind (pushAll found)
              (fun _ => forEach (inputStep (document p))
                                (querySelectorAll (document p) textInputs)).
Proof.
  intros Hroot. unfold runBasicChecks_try. cbv zeta.
  unfold rootNode. rewrite Hroot. cbv beta iota. unfold nonNull.
  set (inputs := forEach _ (querySelectorAll (document p) textInputs)).
  rewrite forEach_flat_map by (intros; apply imageStep_completes).
  set (html := mkNode root []).
  exists (flat_map (fun x => issuesOf (imageStep (window p) x))
                   (querySelectorAll (document p) imgWithoutAlt)
          ++ issuesOf (when (negb (truthy_opt (getAttribute html "lang")))
                            (push (languageIssue html)))
          ++ issuesOf (when (Nat.eqb (List.length
                                        (querySelectorAll (document p) [tag "h1"])) 0)
                            (push headingsIssue))).
  split; [| split].
  - repeat (apply Forall_app; split).
    + apply Forall_flat_map, Forall_forall. intros img _.
      apply imageStep_all. reflexivity.
    + apply all_when, all_push. reflexivity.
    + apply all_when, all_push. reflexivity.
  - repeat (apply Forall_app; split).
    + apply Forall_flat_map, Forall_forall. intros img _.
      apply imageStep_all. reflexivity.
    + apply all_when, all_push. reflexivity.
    + apply all_when, all_push. reflexivity.
  - unfold bind, eval, pushAll, issuesOf.
    destruct (negb (truthy_opt (getAttribute html "lang")));
      destruct (Nat.eqb _ 0); simpl; destruct inputs as [l r];
      rewrite ?app_nil_r, <- ?app_assoc; reflexivity.
Qed.



(** X15: a text input for which the host rejects the selector text built
    from its id (an id with a line feed gives such a text) makes
    [runBasicChecks] stop at that input: the findings built so far are kept,
    the inputs after it are not checked, and a system finding for the error
    thrown comes last. *)
Theorem rejected_selector_stops_runBasicChecks (p : Page) (root : Element)
        (before after : list Node) (input : Node) (e : ErrorValue) :
  documentElement (document p) = Some root ->
  querySelectorAll (document p) textInputs = before ++ input :: after ->
  Forall PlainId before ->
  id input <> "" ->
  hasLabelFor (document p) (id input) = Throw e ->
  snd (runBasicChecks_try p) = Throw e
  /\ ofCategory "forms" (runBasicChecks p)
     = flat_map (fun i => issuesOf (inputStep (document p) i)) before
  /\ ofCategory "system" (runBasicChecks p)
     = [systemIssue "Basic check error: " e]
  /\ last (runBasicChecks p) headingsIssue
     = systemIssue "Basic check error: " e.
Proof.
  intros Hroot Hinputs Hq Hid Hrejected.
  destruct (runBasicChecks_try_split p root Hroot)
    as (found & Hforms & Hsys & Hsplit).
  set (reported := flat_map (fun i => issuesOf (inputStep (document p) i)) before).
  assert (Hloop : forEach (inputStep (document p))
                          (querySelectorAll (document p) textInputs)
                  = (reported, Throw e)).
  { rewrite Hinputs, forEach_app.
    rewrite (forEach_flat_map _ before)
      by (intros i Hi; apply inputStep_completes;
          eapply Forall_forall in Hq; eauto).
    fold reported. cbn [forEach].
    assert (Hstep : inputStep (document p) input = ([], Throw e)).
    { unfold inputStep, lacksLabel. rewrite Hrejected.
      apply String.eqb_neq in Hid. unfold truthy. now rewrite Hid. }
    rewrite Hstep. unfold bind. now rewrite app_nil_r. }
  assert (Hthrow : snd (runBasicChecks_try p) = Throw e).
  { rewrite Hsplit, Hloop. reflexivity. }
  assert (Hissues : runBasicChecks p
                    = (found ++ reported)
                      ++ [systemIssue "Basic check error: " e]).
  { rewrite runBasicChecks_issues, Hthrow.
    rewrite Hsplit, Hloop. reflexivity. }
  assert (Hreported : Forall (fun i => String.eqb (Issue.category i) "forms" = true)
                             reported).
  { apply Forall_flat_map, Forall_forall. intros i _.
    apply inputStep_all. reflexivity. }
  split; [exact Hthrow | split; [| split]].
  - rewrite Hissues, !ofCategory_app, (ofCategory_none "forms" found Hforms).
    simpl. rewrite app_nil_r. unfold ofCategory.
    apply forallb_filter_id, forallb_forall. intros i Hi.
    eapply Forall_forall in Hreported; eauto.
  - rewrite Hissues, !ofCategory_app, (ofCategory_none "system" found Hsys).
    rewrite (ofCategory_none "system" reported); [reflexivity |].
    revert Hreported. apply Forall_impl. intros i Hi. unfold NotInCategory.
    apply String.eqb_eq in Hi. now rewrite Hi.
  - rewrite Hissues. apply last_last.
Qed.

Lemma rejected_selector_stops_runBasicChecks_witness :
  let broken := String "a" (String (ascii_of_nat 10) "b") in
  let first := el "input" [("type", "text")] "" [] in
  let second := el "input" [("type", "text"); ("id", broken)] "" [] in
  let third := el "textarea" [] "" [] in
  let body := el "body" [] "" [el "h1" [] "" []; first; second; third] in
  let html := el "html" [("lang", "en")] "" [body] in
  let node e := mkNode e [body; html] in
  querySelectorAll (document (pageOf html)) textInputs
  = [node first] ++ node second :: [node third]
  /\ Forall PlainId [node first]
  /\ hasLabelFor (document (pageOf html)) broken
     = Throw (SyntaxError (labelSelectorText broken))
  /\ map Issue.category (runBasicChecks (pageOf html)) = ["forms"; "system"]
  /\ snd (runBasicChecks_try (pageOf html))
     = Throw (SyntaxError (labelSelectorText broken)).
Proof.
  intros broken first second third body html node.
  assert (Hinputs : querySelectorAll (document (pageOf html)) textInputs
                    = [node first] ++ node second :: [node third])
    by reflexivity.
  assert (Hq : Forall PlainId [node first]) by (repeat constructor).
  assert (Hrejected : hasLabelFor (document (pageOf html)) (id (node second))
                      = Throw (SyntaxError (labelSelectorText broken)))
    by reflexivity.
  assert (Hid : id (node second) <> "") by discriminate.
  split; [exact Hinputs |]. split; [exact Hq |]. split; [exact Hrejected |].
  split; [reflexivity |].
  apply (rejected_selector_stops_runBasicChecks (pageOf html) html [node first]
           [node third] (node second) _ eq_refl Hinputs Hq Hid Hrejected).
Defined.

(** *** The alpha of a serialized colour *)

Lemma digit_or_dot_not_space (c : ascii) :
  isDigitOrDot c = true -> isWhiteSpace c = false.
Proof.
  unfold isDigitOrDot, isDigit, isWhiteSpace. intros H.
  apply orb_true_iff in H. destruct H as [H | H].
  - apply andb_true_iff in H. destruct H as [H1 H2].
    apply Nat.leb_le in H1, H2.
    repeat (apply orb_false_iff; split);
      try (apply andb_false_iff; right; apply Nat.leb_gt; lia);
      apply Nat.eqb_neq; lia.
  - apply Ascii.eqb_eq in H. subst c. reflexivity.
Qed.

(** A space before a run of digits or dots is skipped. *)
Lemma skip_space (l rest : list ascii) :
  l <> [] -> forallb isDigitOrDot l = true ->
  dropWhile isWhiteSpace (" "%char :: l ++ rest) = l ++ rest.
Proof.
  intros Hne Hl. cbn [dropWhile]. change (isWhiteSpace " "%char) with true.
  cbv iota. destruct l as [| c l]; [contradiction |].
  cbn [app dropWhile]. simpl in Hl. apply andb_true_iff in Hl.
  now rewrite (digit_or_dot_not_space c (proj1 Hl)).
Qed.

Lemma digits_are_digits_or_dots (l : list ascii) :
  forallb isDigit l = true -> forallb isDigitOrDot l = true.
Proof.
  intros H. apply forallb_forall. intros c Hc.
  eapply forallb_forall in H; eauto. unfold isDigitOrDot. now rewrite H.
Qed.

(** The pattern on a serialized colour. *)
Lemma matchRgbaAt_serialized (R G B A : list ascii) :
  R <> [] -> G <> [] -> B <> [] -> A <> [] ->
  forallb isDigit R = true -> forallb isDigit G = true ->
  forallb isDigit B = true -> forallb isDigitOrDot A = true ->
  matchRgbaAt (list_ascii_of_string "rgba(" ++ R ++ [","%char; " "%char] ++ G
                 ++ [","%char; " "%char] ++ B ++ [","%char; " "%char] ++ A
                 ++ [")"%char])
  = Some (string_of_list_ascii A).
Proof.
  intros Hr Hg Hb Ha Dr Dg Db Da. unfold matchRgbaAt.
  change (list_ascii_of_string "rgba(")
    with ["r"%char; "g"%char; "b"%char; "a"%char; "("%char].
  cbn [app expect]. cbn [Ascii.eqb Bool.eqb]. cbn [obind].
  rewrite (digits1_run R ","%char _ Hr Dr eq_refl).
  cbn [obind expect]. cbn [Ascii.eqb Bool.eqb].
  rewrite (skip_space G _ Hg (digits_are_digits_or_dots G Dg)).
  rewrite (digits1_run G ","%char _ Hg Dg eq_refl).
  cbn [obind expect]. cbn [Ascii.eqb Bool.eqb].
  rewrite (skip_space B _ Hb (digits_are_digits_or_dots B Db)).
  rewrite (digits1_run B ","%char _ Hb Db eq_refl).
  cbn [obind expect]. cbn [Ascii.eqb Bool.eqb].
  rewrite (skip_space A _ Ha Da).
  destruct (takeWhile_app_stop isDigitOrDot A ")"%char [] Da eq_refl)
    as [Ht Hd].
  rewrite Ht, Hd. destruct A as [| a0 A']; [contradiction |].
  cbn [expect]. cbn [Ascii.eqb Bool.eqb]. reflexivity.
Qed.

Lemma nonempty_list (s : string) : s <> "" -> list_ascii_of_string s <> [].
Proof. destruct s; [contradiction | discriminate]. Qed.

(** X16: on the text [rgba(r, g, b, a)], with [r], [g], [b] runs of digits
    and [a] a run of digits and dots, [getAlphaFromColor] returns
    [parseFloat(a)]. *)
Theorem alpha_of_rgba_text (r g b a : string) :
  r <> "" -> g <> "" -> b <> "" -> a <> "" ->
  allChars isDigit r = true -> allChars isDigit g = true ->
  allChars isDigit b = true -> allChars isDigitOrDot a = true ->
  getAlphaFromColor (rgbaText r g b a) = parseFloat a.
Proof.
  intros Hr Hg Hb Ha Dr Dg Db Da.
  unfold getAlphaFromColor, rgbaText.
  change (startsWith "rgba" ("rgba(" ++ r ++ ", " ++ g ++ ", " ++ b ++ ", "
                                     ++ a ++ ")")) with true.
  cbv iota.
  assert (Hmatch : matchRgbaAt
                     (list_ascii_of_string
                        ("rgba(" ++ r ++ ", " ++ g ++ ", " ++ b ++ ", "
                                 ++ a ++ ")"))
                   = Some a).
  { rewrite !list_ascii_of_string_app.
    change (list_ascii_of_string ", ") with [","%char; " "%char].
    change (list_ascii_of_string ")") with [")"%char].
    rewrite (matchRgbaAt_serialized _ _ _ _
               (nonempty_list r Hr) (nonempty_list g Hg)
               (nonempty_list b Hb) (nonempty_list a Ha) Dr Dg Db Da).
    now rewrite string_of_list_ascii_of_string. }
  destruct (list_ascii_of_string _) as [| c l] eqn:El.
  - simpl in Hmatch. discriminate.
  - cbn [matchRgba]. now rewrite Hmatch.
Qed.

Lemma alpha_of_rgba_text_witness :
  rgbaText "255" "0" "0" "0.05" = "rgba(255, 0, 0, 0.05)"
  /\ getAlphaFromColor "rgba(255, 0, 0, 0.05)" = 0.05%float.
Proof.
  split; [reflexivity |].
  change "rgba(255, 0, 0, 0.05)" with (rgbaText "255" "0" "0" "0.05").
  rewrite (alpha_of_rgba_text "255" "0" "0" "0.05");
    try discriminate; reflexivity.
Defined.

(** *** The popup: escaping of markup *)

Lemma replaceAll_other (c x : ascii) (r s : string) :
  Ascii.eqb x c = false ->
  Popup.replaceAll c r (String x s) = String x (Popup.replaceAll c r s).
Proof. intros H. simpl. now rewrite H. Qed.

(** The five replacements amount to one pass that escapes each character
    once. *)
Lemma escapeHtml_each (s : string) :
  Popup.escapeHtml (Some s) = escapeEach s.
Proof.
  unfold Popup.escapeHtml. induction s as [| x s IH]; [reflexivity |].
  cbn [escapeEach]. rewrite <- IH. unfold escapeChar.
  destruct (Ascii.eqb x "&"%char) eqn:E1.
  { apply Ascii.eqb_eq in E1. subst x. reflexivity. }
  destruct (Ascii.eqb x "<"%char) eqn:E2.
  { apply Ascii.eqb_eq in E2. subst x. reflexivity. }
  destruct (Ascii.eqb x ">"%char) eqn:E3.
  { apply Ascii.eqb_eq in E3. subst x. reflexivity. }
  destruct (Ascii.eqb x Popup.quot) eqn:E4.
  { apply Ascii.eqb_eq in E4. subst x. reflexivity. }
  destruct (Ascii.eqb x Popup.apos) eqn:E5.
  { apply Ascii.eqb_eq in E5. subst x. reflexivity. }
  now rewrite !replaceAll_other.
Qed.

Lemma contains_app (c : ascii) (s s' : string) :
  Inspector.contains c (s ++ s') = Inspector.contains c s || Inspector.contains c s'.
Proof.
  induction s as [| x s IH]; simpl; [reflexivity |].
  now rewrite IH, orb_assoc.
Qed.

Lemma escapeChar_no_markup (c x : ascii) :
  In c markupChars -> Inspector.contains c (escapeChar x) = false.
Proof.
  intros Hc. unfold escapeChar.
  destruct (Ascii.eqb x "&"%char) eqn:E1.
  { destruct Hc as [<- | [<- | [<- | [<- | []]]]]; reflexivity. }
  destruct (Ascii.eqb x "<"%char) eqn:E2.
  { destruct Hc as [<- | [<- | [<- | [<- | []]]]]; reflexivity. }
  destruct (Ascii.eqb x ">"%char) eqn:E3.
  { destruct Hc as [<- | [<- | [<- | [<- | []]]]]; reflexivity. }
  destruct (Ascii.eqb x Popup.quot) eqn:E4.
  { destruct Hc as [<- | [<- | [<- | [<- | []]]]]; reflexivity. }
  destruct (Ascii.eqb x Popup.apos) eqn:E5.
  { destruct Hc as [<- | [<- | [<- | [<- | []]]]]; reflexivity. }
  cbn [Inspector.contains]. rewrite orb_false_r, Ascii.eqb_sym.
  destruct Hc as [<- | [<- | [<- | [<- | []]]]]; assumption.
Qed.

(** X17: the text returned by [escapeHtml] holds none of the characters
    [<], [>], double quote and apostrophe, and it is the text obtained by
    escaping each character of the input once (an ampersand written by one of
    the replacements is not escaped again); [null] gives the empty text. *)
Theorem escapeHtml_no_markup (s : string) :
  Forall (fun c => Inspector.contains c (Popup.escapeHtml (Some s)) = false)
         markupChars
  /\ Popup.escapeHtml (Some s) = escapeEach s
  /\ Popup.escapeHtml None = "".
Proof.
  split; [| split; [apply escapeHtml_each | reflexivity]].
  rewrite escapeHtml_each. apply Forall_forall. intros c Hc.
  induction s as [| x s IH]; [reflexivity |].
  cbn [escapeEach]. rewrite contains_app, IH, orb_false_r.
  now apply escapeChar_no_markup.
Qed.

Lemma prefix_empty (s : string) : prefix "" s = true.
Proof. destruct s; reflexivity. Qed.

Lemma unescapeHtml_each (s : string) : unescapeHtml 0 (escapeEach s) = s.
Proof.
  induction s as [| x s IH]; [reflexivity |].
  cbn [escapeEach]. unfold escapeChar.
  destruct (Ascii.eqb x "&"%char) eqn:E1.
  { apply Ascii.eqb_eq in E1. subst x. simpl. now rewrite prefix_empty, IH. }
  destruct (Ascii.eqb x "<"%char) eqn:E2.
  { apply Ascii.eqb_eq in E2. subst x. simpl. now rewrite prefix_empty, IH. }
  destruct (Ascii.eqb x ">"%char) eqn:E3.
  { apply Ascii.eqb_eq in E3. subst x. simpl. now rewrite prefix_empty, IH. }
  destruct (Ascii.eqb x Popup.quot) eqn:E4.
  { apply Ascii.eqb_eq in E4. subst x. simpl. now rewrite prefix_empty, IH. }
  destruct (Ascii.eqb x Popup.apos) eqn:E5.
  { apply Ascii.eqb_eq in E5. subst x. simpl. now rewrite prefix_empty, IH. }
  cbn [append unescapeHtml]. now rewrite E1, IH.
Qed.

(** X18: [escapeHtml] loses nothing: decoding the five entities gives the
    input back, so two different texts are never escaped to the same
    text. *)
Theorem escapeHtml_lossless (s s' : string) :
  unescapeHtml 0 (Popup.escapeHtml (Some s)) = s
  /\ (Popup.escapeHtml (Some s) = Popup.escapeHtml (Some s') -> s = s').
Proof.
  assert (H : forall t, unescapeHtml 0 (Popup.escapeHtml (Some t)) = t).
  { intros t. rewrite escapeHtml_each. apply unescapeHtml_each. }
  split; [apply H |].
  intros E. rewrite <- (H s), <- (H s'). now rewrite E.
Qed.

Lemma escapeHtml_lossless_witness :
  Popup.escapeHtml (Some "<a href='x'>&amp;</a>")
  = "&lt;a href=&#039;x&#039;&gt;&amp;amp;&lt;/a&gt;"
  /\ unescapeHtml 0 "&lt;a href=&#039;x&#039;&gt;&amp;amp;&lt;/a&gt;"
     = "<a href='x'>&amp;</a>".
Proof.
  split; [reflexivity |].
  change "&lt;a href=&#039;x&#039;&gt;&amp;amp;&lt;/a&gt;"
    with (Popup.escapeHtml (Some "<a href='x'>&amp;</a>")).
  apply (proj1 (escapeHtml_lossless "<a href='x'>&amp;</a>" "")).
Defined.

(** *** The images findings *)

Lemma forEach_when_push {A} (c : A -> bool) (f : A -> Issue.t) (l : list A) :
  forEach (fun x => when (c x) (push (f x))) l = (map f (filter c l), Ok tt).
Proof.
  rewrite forEach_flat_map by (intros x _; now destruct (c x)).
  apply f_equal2; [| reflexivity].
  induction l as [| x xs IH]; cbn [flat_map map filter]; [reflexivity |].
  rewrite IH. now destruct (c x).
Qed.

Lemma forEach_push {A} (f : A -> Issue.t) (l : list A) :
  forEach (fun x => push (f x)) l = (map f l, Ok tt).
Proof.
  rewrite forEach_flat_map by reflexivity.
  apply f_equal2; [| reflexivity].
  induction l as [| x xs IH]; cbn [flat_map map]; [reflexivity |].
  now rewrite IH.
Qed.

Lemma ofCategory_all (c : string) (l : list Issue.t) :
  Forall (fun i => Issue.category i = c) l -> ofCategory c l = l.
Proof.
  induction 1 as [| i l Hi _ IH]; simpl; [reflexivity |].
  now rewrite Hi, String.eqb_refl, IH.
Qed.

Lemma runBasicChecks_images (p : Page) :
  ofCategory "images" (runBasicChecks p)
  = map (elementIssue "error" "images" (text "Image missing alt attribute"))
        (filter (isElementVisible (window p))
                (querySelectorAll (document p) imgWithoutAlt)).
Proof.
  rewrite runBasicChecks_issues, ofCategory_app.
  replace (ofCategory "images"
             match snd (runBasicChecks_try p) with
             | Throw e => [systemIssue "Basic check error: " e]
             | _ => []
             end) with (@nil Issue.t)
    by (destruct (snd (runBasicChecks_try p)); reflexivity).
  rewrite app_nil_r. unfold runBasicChecks_try. cbv zeta.
  rewrite issuesOf_bind, ofCategory_app.
  unfold imageStep at 1 2. rewrite forEach_when_push.
  cbn [issuesOf fst snd].
  rewrite ofCategory_all
    by (apply Forall_forall; intros i Hi; apply in_map_iff in Hi;
        destruct Hi as (x & <- & _); reflexivity).
  rewrite ofCategory_none; [apply app_nil_r |].
  apply all_bind; [apply all_eval |]. intros html.
  apply all_bind; [apply all_when, all_push; reflexivity |]. intros _.
  apply all_bind; [apply all_when, all_push; reflexivity |]. intros _.
  apply all_forEach. intros input. apply inputStep_all. reflexivity.
Qed.

Lemma other_checks_no_images (g : Globals) (p : Page) (o : Origin)
      (l : list Issue.t) :
  o <> BasicChecks ->
  Forall (EmittedBy g p o) l -> ofCategory "images" l = [].
Proof.
  intros Ho H. apply ofCategory_none. revert H. apply Forall_impl.
  intros i Hi. destruct Hi; try reflexivity; contradiction.
Qed.

(** X19: when [runA11yChecks] falls back on [runBasicChecks], the report
    holds one images finding for every visible [img] element without [alt]
    attribute, in document order, and no other images finding; an image
    that is not visible is not reported. *)
Theorem images_findings (g : Globals) (p : Page) :
  usesBasicChecks g = true ->
  ofCategory "images" (Report.issues (runA11yChecks g p))
  = map (elementIssue "error" "images" (text "Image missing alt attribute"))
        (filter (isElementVisible (window p))
                (querySelectorAll (document p) imgWithoutAlt)).
Proof.
  intros Hbasic.
  rewrite (report_issues_basic g p Hbasic).
  rewrite !ofCategory_app, runBasicChecks_images.
  rewrite (other_checks_no_images g p ContrastCheck)
    by (discriminate || apply checkColorContrast_emitted).
  rewrite (other_checks_no_images g p AriaCheck)
    by (discriminate || apply checkAriaAttributes_emitted).
  rewrite (other_checks_no_images g p KeyboardCheck)
    by (discriminate || apply checkKeyboardNavigation_emitted).
  rewrite (other_checks_no_images g p SemanticsCheck)
    by (discriminate || apply checkSemanticMarkup_emitted).
  rewrite (other_checks_no_images g p LanguageCheck)
    by (discriminate || apply checkLanguage_emitted).
  now rewrite app_nil_r.
Qed.

Lemma images_findings_witness :
  usesBasicChecks (initializeDependencies rulesLoaded) = true
  /\ map Issue.selector
         (ofCategory "images" (Report.issues (audit rulesLoaded pageWithImage)))
     = [Some "img"].
Proof.
  assert (H : usesBasicChecks (initializeDependencies rulesLoaded) = true)
    by reflexivity.
  split; [exact H |]. unfold audit.
  rewrite (images_findings _ pageWithImage H). reflexivity.
Defined.

(** *** The older content script *)

Lemma filter_all {A} (f : A -> bool) (l : list A) :
  (forall x, f x = true) -> filter f l = l.
Proof.
  intros Hf. induction l as [| x xs IH]; simpl; [reflexivity |].
  now rewrite Hf, IH.
Qed.

Lemma every_element_selected (d : Document) :
  querySelectorAll d [mkCompound None []] = allElements d.
Proof. unfold querySelectorAll. apply filter_all. reflexivity. Qed.

(** A loop of the older script that completes has pushed one issue for
    every element. *)
Lemma checker_forEach_push (type category : string) (message : Text)
      (l : list Node) :
  snd (forEach (fun el => Checker.pushElementIssue type category message el) l)
  = Ok tt ->
  forEach (fun el => Checker.pushElementIssue type category message el) l
  = (map (Checker.elementIssue type category message) l, Ok tt).
Proof.
  induction l as [| x xs IH]; [reflexivity |].
  cbn [forEach]. intros Hdone.
  apply bind_completes_inv in Hdone as ([] & Hx & Hxs).
  rewrite (checker_push_returned _ _ _ _ Hx), (IH Hxs). reflexivity.
Qed.

(** X20: whenever the older content script returns a report, it holds one
    images finding for every [img] element without [alt] attribute, visible
    or not, in document order, and every finding has one of the categories
    images, headings, aria, keyboard, semantics: its contrast check never
    reports. *)
Theorem checker_findings (p : Page) (r : Report.t) :
  Checker.runA11yChecks p = Ok r ->
  ofCategory "images" (Report.issues r)
  = map (Checker.elementIssue "error" "images"
           (text "Изображение без атрибута alt"))
        (querySelectorAll (document p)
           [mkCompound (Some "img") [NotHasAttr "alt"]])
  /\ Forall (fun i => In (Issue.category i)
                         ["images"; "headings"; "aria"; "keyboard"; "semantics"])
            (Report.issues r).
Proof.
  unfold Checker.runA11yChecks.
  destruct (Checker.runA11yChecks_body p) as [issues [[] | e |]] eqn:Hbody;
    [| discriminate ..].
  intros H. injection H as <-. simpl.
  change issues with (issuesOf (issues, @Ok unit tt)). rewrite <- Hbody.
  assert (Hdone : snd (Checker.runA11yChecks_body p) = Ok tt)
    by now rewrite Hbody.
  unfold Checker.runA11yChecks_body in *. split.
  - apply bind_completes_inv in Hdone as ([] & Hhead & _).
    rewrite issuesOf_bind, Hhead, ofCategory_app.
    rewrite (ofCategory_none "images"
               (issuesOf (bind (Checker.checkColorContrast p) _))).
    + rewrite app_nil_r. unfold Checker.imagesAndHeadings in *.
      apply bind_completes_inv in Hhead as ([] & Himages & _).
      rewrite issuesOf_bind, ofCategory_app.
      rewrite (checker_forEach_push _ _ _ _ Himages).
      cbn [issuesOf fst snd].
      rewrite ofCategory_all
        by (apply Forall_forall; intros i Hi; apply in_map_iff in Hi;
            destruct Hi as (x & <- & _); reflexivity).
      rewrite ofCategory_none; [apply app_nil_r |].
      apply all_when, all_push. reflexivity.
    + apply all_bind.
      { apply all_forEach. intros el. apply all_bind; [apply all_eval |].
        intros; apply all_ret. }
      intros _. apply all_bind.
      { apply all_forEach. intros el. apply all_when, checker_push_all.
        reflexivity. }
      intros _. apply all_bind.
      { apply all_forEach. intros el. apply all_when, checker_push_all.
        reflexivity. }
      intros _. apply all_forEach. intros el. apply checker_push_all.
      reflexivity.
  - unfold Checker.imagesAndHeadings.
    repeat (apply all_bind; [| intros _]).
    + apply all_forEach. intros img. apply checker_push_all. simpl. tauto.
    + apply all_when, all_push. simpl. tauto.
    + apply all_forEach. intros el. apply all_bind; [apply all_eval |].
      intros style. apply all_ret.
    + apply all_forEach. intros el. apply all_when, checker_push_all.
      simpl. tauto.
    + apply all_forEach. intros el. apply all_when, checker_push_all.
      simpl. tauto.
    + apply all_forEach. intros el. apply checker_push_all. simpl. tauto.
Qed.

Lemma checker_findings_witness :
  exists r,
    Checker.runA11yChecks pageWithImage = Ok r
    /\ map Issue.selector (ofCategory "images" (Report.issues r)) = [Some "img"].
Proof.
  eexists. split; [reflexivity |].
  rewrite (proj1 (checker_findings pageWithImage _ eq_refl)). reflexivity.
Defined.

(** **** How the older script ends *)

Lemma bind_completes_iff (m : M unit) (k : unit -> M unit) :
  snd (bind m k) = Ok tt <-> snd m = Ok tt /\ snd (k tt) = Ok tt.
Proof.
  rewrite snd_bind. destruct (snd m) as [[] | e |].
  - tauto.
  - split; [discriminate | intros [H _]; discriminate].
  - split; [discriminate | intros [H _]; discriminate].
Qed.

Lemma forEach_completes_iff {A} (f : A -> M unit) (l : list A) :
  snd (forEach f l) = Ok tt <-> Forall (fun x => snd (f x) = Ok tt) l.
Proof.
  induction l as [| x xs IH]; cbn [forEach].
  - split; [constructor | reflexivity].
  - rewrite bind_completes_iff, IH, Forall_cons_iff. reflexivity.
Qed.

Lemma Forall_filter {A} (c : A -> bool) (P : A -> Prop) (l : list A) :
  Forall (fun x => c x = true -> P x) l <-> Forall P (filter c l).
Proof.
  rewrite !Forall_forall. split.
  - intros H x Hx. apply filter_In in Hx. destruct Hx as [Hin Hc]. auto.
  - intros H x Hx Hc. apply H, filter_In. auto.
Qed.

Lemma ends_bind (m : M unit) (k : unit -> M unit) :
  ChecksEnd (snd m) -> ChecksEnd (snd (k tt)) -> ChecksEnd (snd (bind m k)).
Proof.
  unfold ChecksEnd. rewrite snd_bind.
  intros [-> | [-> | ->]] Hk; auto.
Qed.

Lemma ends_forEach {A} (f : A -> M unit) (l : list A) :
  (forall x, ChecksEnd (snd (f x))) -> ChecksEnd (snd (forEach f l)).
Proof.
  intros Hf. induction l as [| x xs IH]; cbn [forEach].
  - now left.
  - apply ends_bind; [apply Hf | exact IH].
Qed.

Lemma ends_when (c : bool) (m : M unit) :
  ChecksEnd (snd m) -> ChecksEnd (snd (when c m)).
Proof. destruct c; [auto | intros _; now left]. Qed.

Lemma checker_getSelector_outcome (el : Node) :
  (Selectable el /\ exists selector, Checker.getSelector el = Ok selector)
  \/ (~ Selectable el /\ Checker.getSelector el = Throw TypeError_notFunction).
Proof.
  unfold Checker.getSelector, Selectable, classNameTruthy, classNameIsString.
  destruct (truthy (id el)) eqn:Hid.
  - left. split; [left; now apply truthy_true | eauto].
  - apply truthy_false in Hid.
    destruct (svg (nodeData el)); cbn [negb].
    + right. split; [intros [H | H]; [contradiction | discriminate] |].
      reflexivity.
    + left. split; [now right |].
      destruct (truthy (className el)); eauto.
Qed.

Lemma checker_push_completes (type category : string) (message : Text)
      (el : Node) :
  snd (Checker.pushElementIssue type category message el) = Ok tt
  <-> Selectable el.
Proof.
  unfold Checker.pushElementIssue.
  destruct (checker_getSelector_outcome el) as [[Hs [selector ->]] | [Hs ->]].
  - split; [intros _; exact Hs | reflexivity].
  - split; [discriminate | contradiction].
Qed.

Lemma checker_push_ends (type category : string) (message : Text)
      (el : Node) :
  ChecksEnd (snd (Checker.pushElementIssue type category message el)).
Proof.
  unfold Checker.pushElementIssue.
  destruct (checker_getSelector_outcome el) as [[_ [selector ->]] | [_ ->]].
  - now left.
  - right. now right.
Qed.

Lemma checker_body_ends (p : Page) :
  ChecksEnd (snd (Checker.runA11yChecks_body p)).
Proof.
  unfold Checker.runA11yChecks_body, Checker.imagesAndHeadings.
  repeat apply ends_bind.
  - apply ends_forEach. intros img. apply checker_push_ends.
  - apply ends_when. now left.
  - apply ends_forEach. intros el.
    destruct (getComputedStyle (nodeData el)); [now left | right; now left].
  - apply ends_forEach. intros el. apply ends_when, checker_push_ends.
  - apply ends_forEach. intros el. apply ends_when, checker_push_ends.
  - apply ends_forEach. intros el. apply checker_push_ends.
Qed.

Lemma checker_body_completes (p : Page) :
  snd (Checker.runA11yChecks_body p) = Ok tt
  <-> Forall Styled (allElements (document p))
      /\ Forall Selectable (checkerReported p).
Proof.
  unfold Checker.runA11yChecks_body, Checker.imagesAndHeadings,
    checkerReported. cbv zeta.
  rewrite !Forall_app, !bind_completes_iff.
  unfold Checker.checkColorContrast, Checker.checkAriaAttributes,
    Checker.checkKeyboardNavigation, Checker.checkSemanticMarkup.
  rewrite !forEach_completes_iff, every_element_selected.
  rewrite <- !Forall_filter.
  assert (Hwhen : forall c type category message el,
             snd (when c (Checker.pushElementIssue type category message el))
             = Ok tt <-> (c = true -> Selectable el)).
  { intros [] type category message el; cbn [when].
    - rewrite checker_push_completes. tauto.
    - split; [discriminate | reflexivity]. }
  assert (Hstyle : forall el,
             snd (bind (eval (nonNull (getComputedStyle (nodeData el))))
                       (fun style => ret tt)) = Ok tt <-> Styled el).
  { intros el. unfold Styled.
    destruct (getComputedStyle (nodeData el)); cbn.
    - split; [discriminate | reflexivity].
    - split; [discriminate | contradiction]. }
  assert (Hheadings :
            snd (when (Nat.eqb (List.length
                                  (querySelectorAll (document p) Checker.headings)) 0)
                      (push Checker.headingsIssue)) = Ok tt)
    by (apply when_completes; reflexivity).
  split.
  - intros ((Himg & _) & Hstyled & Haria & Hkeyboard & Hdiv).
    split; [| split; [| split; [| split]]].
    + revert Hstyled. apply Forall_impl. intros el. apply Hstyle.
    + revert Himg. apply Forall_impl. intros el. apply checker_push_completes.
    + revert Haria. apply Forall_impl. intros el. apply Hwhen.
    + revert Hkeyboard. apply Forall_impl. intros el. apply Hwhen.
    + revert Hdiv. apply Forall_impl. intros el. apply checker_push_completes.
  - intros (Hstyled & Himg & Haria & Hkeyboard & Hdiv).
    split; [split; [| exact Hheadings] | split; [| split; [| split]]].
    + revert Himg. apply Forall_impl. intros el. apply checker_push_completes.
    + revert Hstyled. apply Forall_impl. intros el. apply Hstyle.
    + revert Haria. apply Forall_impl. intros el. apply Hwhen.
    + revert Hkeyboard. apply Forall_impl. intros el. apply Hwhen.
    + revert Hdiv. apply Forall_impl. intros el. apply checker_push_completes.
Qed.

(** X21: the older content script catches nothing.  It returns a report
    exactly when every element of the document has a computed style and
    [getSelector] returns for every element it builds an issue for, that is
    when none of these is an SVG element without id (the [className] of an
    SVG element is an object, and [className.split] is not a function);
    otherwise the TypeError of its contrast loop or the one of
    [getSelector] leaves [runA11yChecks]. *)
Theorem checker_returns_or_throws (p : Page) :
  ((exists r, Checker.runA11yChecks p = Ok r)
   <-> Forall Styled (allElements (document p))
       /\ Forall Selectable (checkerReported p))
  /\ ((exists r, Checker.runA11yChecks p = Ok r)
      \/ Checker.runA11yChecks p = Throw TypeError_null
      \/ Checker.runA11yChecks p = Throw TypeError_notFunction).
Proof.
  rewrite <- checker_body_completes.
  generalize (checker_body_ends p).
  unfold Checker.runA11yChecks, ChecksEnd.
  destruct (Checker.runA11yChecks_body p) as [issues outcome]. cbn [snd].
  intros [-> | [-> | ->]]; split.
  - split; [reflexivity | eauto].
  - left. eauto.
  - split; [intros [r H]; discriminate | discriminate].
  - right. now left.
  - split; [intros [r H]; discriminate | discriminate].
  - right. now right.
Qed.

Lemma checker_returns_or_throws_witness :
  let bare := mkElement
                {| localName := "html"; svg := false; attributes := [];
                   outerHTML := "<html>";
                   textContent := ""; innerText := "";
                   getBoundingClientRect := Some rect0;
                   getComputedStyle := None; disabled := false |} [] in
  (Forall Styled (allElements (document pageWithH2))
   /\ Forall Selectable (checkerReported pageWithH2))
  /\ (exists r, Checker.runA11yChecks pageWithH2 = Ok r)
  /\ Checker.runA11yChecks (pageOf bare) = Throw TypeError_null
  /\ Checker.runA11yChecks pageWithSvg = Throw TypeError_notFunction.
Proof.
  intros bare.
  assert (H : Forall Styled (allElements (document pageWithH2))
              /\ Forall Selectable (checkerReported pageWithH2)).
  { split; [repeat constructor; discriminate | constructor]. }
  split; [exact H |]. split; [| split; reflexivity].
  apply (proj1 (checker_returns_or_throws pageWithH2)), H.
Defined.

(** *** The rules table *)

(** X22: the rules table agrees with the fallback checks: [missingAlt]
    holds for an [img] exactly when the fallback query [img:not([alt])]
    selects it, it excludes [emptyAlt], and [missingLabel] returns or
    throws exactly as the test of the fallback loop over the inputs. *)
Theorem rules_agree_with_fallback :
  (forall img,
      localName (nodeData img) = "img" ->
      matches imgWithoutAlt img = Rules.check Rules.images_missingAlt img)
  /\ (forall img,
         Rules.check Rules.images_missingAlt img = true ->
         Rules.check Rules.images_emptyAlt img = false)
  /\ (forall d input,
         lacksLabel d input = eval (Rules.check Rules.forms_missingLabel d input)).
Proof.
  repeat split.
  - intros img Himg. unfold matches, imgWithoutAlt. cbn [existsb].
    unfold matchesCompound. cbn. unfold nodeData in Himg. rewrite Himg.
    cbn. unfold hasAttribute. now rewrite orb_false_r, andb_true_r.
  - intros img. cbn. unfold hasAttribute, elementHasAttribute, getAttribute.
    now destruct (elementGetAttribute (elem img) "alt").
  - intros d input. unfold lacksLabel. cbn.
    destruct (negb (truthy (id input))); [reflexivity |].
    destruct (hasLabelFor d (id input)); reflexivity.
Qed.

Lemma rules_agree_with_fallback_witness :
  let img := {| elem := el "img" [("src", "a.png")] "" []; ancestors := [] |} in
  localName (nodeData img) = "img"
  /\ matches imgWithoutAlt img = true
  /\ Rules.check Rules.images_missingAlt img = true
  /\ Rules.check Rules.images_emptyAlt img = false.
Proof.
  intros img.
  assert (H : localName (nodeData img) = "img") by reflexivity.
  destruct rules_agree_with_fallback as (Hquery & Hexclusive & _).
  split; [exact H |]. split; [reflexivity |].
  assert (Hmissing : Rules.check Rules.images_missingAlt img = true).
  { rewrite <- (Hquery img H). reflexivity. }
  split; [exact Hmissing | apply (Hexclusive img Hmissing)].
Defined.

(** *** Loading the script *)

(** X23: [initializeDependencies] is idempotent, so loading the script
    again changes no report; after it, [runA11yChecks] falls back on
    [runBasicChecks] exactly when the rules table was loaded and no usable
    [A11yRuleUtils] was. *)
Theorem initializeDependencies_idempotent (g : Globals) :
  initializeDependencies (initializeDependencies g) = initializeDependencies g
  /\ (forall p, audit (initializeDependencies g) p = audit g p)
  /\ (usesBasicChecks (initializeDependencies g) = true
      <-> A11yRules g = true /\ usesBasicChecks g = true).
Proof.
  assert (H : initializeDependencies (initializeDependencies g)
              = initializeDependencies g).
  { unfold initializeDependencies. simpl.
    now destruct (ColorUtils g). }
  split; [exact H | split].
  - intros p. unfold audit. now rewrite H.
  - unfold usesBasicChecks, initializeDependencies. simpl.
    destruct (A11yRules g); simpl; [tauto |].
    split; [discriminate | intros [Hf _]; discriminate].
Qed.

Lemma initializeDependencies_idempotent_witness :
  usesBasicChecks (initializeDependencies rulesLoaded) = true
  /\ usesBasicChecks (initializeDependencies nothingLoaded) = false
  /\ audit (initializeDependencies rulesLoaded) pageWithInput
     = audit rulesLoaded pageWithInput.
Proof.
  destruct (initializeDependencies_idempotent rulesLoaded) as (_ & Haudit & Hiff).
  split; [apply Hiff; split; reflexivity |].
  split; [reflexivity | apply Haudit].
Defined.

(** X24: whenever the older content script returns a report, every
    finding has severity error or warning, carries its snippet and selector
    together, and the summary counts add up: errors + warnings = total. *)
Theorem checker_report_well_formed (p : Page) (r : Report.t) :
  Checker.runA11yChecks p = Ok r ->
  Forall WellFormed (Report.issues r)
  /\ Summary.total (Report.summary r) = List.length (Report.issues r)
  /\ Summary.errors (Report.summary r) + Summary.warnings (Report.summary r)
     = Summary.total (Report.summary r).
Proof.
  intros Hr. destruct (checker_findings_well_formed p r Hr) as [Hall Hsum].
  repeat split; try assumption.
  unfold Checker.runA11yChecks in Hr.
  destruct (Checker.runA11yChecks_body p) as [issues [[] | e |]];
    [| discriminate ..].
  injection Hr as <-. reflexivity.
Qed.

Lemma checker_report_well_formed_witness :
  exists r,
    Checker.runA11yChecks pageWithImage = Ok r
    /\ Report.summary r
       = {| Summary.total := 1; Summary.errors := 1; Summary.warnings := 0 |}
    /\ Forall WellFormed (Report.issues r).
Proof.
  eexists. split; [reflexivity |]. split; [reflexivity |].
  apply (proj1 (checker_report_well_formed pageWithImage _ eq_refl)).
Defined.
